(** * The connectordb Logger: local buffering and synchronisation

    A shallow embedding of [connectordb/logger.py].  The Logger caches
    datapoints in a sqlite file (tables [cache], [streams], [metadata]) and
    uploads them to a ConnectorDB server.  The sqlite tables are lists of
    rows, the remote server is an oracle that answers the calls of one
    operation, and every method is a computation in a state-and-exception
    monad in which, as in Python, the effects that happened before a
    [raise] stay. *)

From Stdlib Require Import List String Ascii Bool ZArith QArith Lia Lqa.
From Stdlib Require Import Permutation Sorted DecimalString.
Import ListNotations.
Open Scope string_scope.
Open Scope list_scope.

(** ** Python values, exceptions *)

(** The values that travel through [json.dumps] and [json.loads]: datapoint
    payloads and JSON schemas.  [PyNone] is Python's [None] (JSON [null]).
    Numbers are the integers; floating-point payloads are not modelled. *)
#[warnings="-register-all"]
Inductive pyvalue : Type :=
| PyNone
| PyBool (b : bool)
| PyInt (z : Z)
| PyStr (s : string)
| PyList (l : list pyvalue)
| PyDict (d : list (string * pyvalue)).

(** A raised exception: its class name and its message. *)
Inductive exn : Type :=
| Raise (cls : string) (msg : string).

(** [raise Exception(msg)], the only exception the Logger builds itself. *)
Definition Exception (msg : string) : exn := Raise "Exception" msg.

(** Timestamps are what [time.time()] returns and sqlite stores in a REAL
    column.  They are only stored, compared with [<=] and sorted, so they
    are represented by rationals. *)
Definition timestamp : Type := Q.

(** ** The sqlite file *)

(** [CREATE TABLE cache (stream TEXT, timestamp REAL, jsondata TEXT)] *)
Record CacheRow : Type := mkCacheRow {
  c_stream : string;
  c_timestamp : timestamp;
  c_jsondata : string
}.

(** [CREATE TABLE metadata (apikey TEXT, serverurl TEXT, lastsynctime REAL,
    syncperiod REAL, userdatajson TEXT)] *)
Record MetaRow : Type := mkMetaRow {
  m_apikey : string;
  m_serverurl : string;
  m_lastsynctime : timestamp;
  m_syncperiod : Q;
  m_userdatajson : string
}.

(** The three tables.  [streams_tbl] is
    [CREATE TABLE streams (stream TEXT PRIMARY KEY, jsonschema TEXT)]. *)
Record Database : Type := mkDatabase {
  cache : list CacheRow;
  streams_tbl : list (string * string);
  metadata : list MetaRow
}.

(** A file that does not exist yet: after the three
    [CREATE TABLE IF NOT EXISTS] every table is empty. *)
Definition new_file : Database := mkDatabase [] [] [].

Definition CONNECTORDB_URL : string := "https://connectordb.com".

(** ** The remote server *)

(** A datapoint as it is uploaded: [{"t": timestamp, "d": data}]. *)
Record datapoint : Type := mkDatapoint {
  dp_t : timestamp;
  dp_d : pyvalue
}.

(** The answers of the ConnectorDB server during one operation of the
    Logger.  [None] in an [option exn] is a call that returns.  Within one
    operation every stream is asked about at most once, so an answer per
    stream name describes any behaviour of the server. *)
Record Remote : Type := mkRemote {
  (* ConnectorDB(apikey, url=serverurl), which pings in its constructor *)
  rem_connect : string -> string -> option exn;
  (* cdb.ping() *)
  rem_ping : option exn;
  (* cdb[stream].exists(): False also when the request fails *)
  rem_exists : string -> bool;
  (* the request of cdb[stream].create(schema), sent once the schema has
     passed the check *)
  rem_create : string -> pyvalue -> option exn;
  (* cdb[stream].schema, decoded from the metadata the server sent; it
     raises when that text does not decode *)
  rem_schema : string -> exn + pyvalue;
  (* cdb[stream].insert_array(datapointArray) *)
  rem_insert_array : string -> list datapoint -> option exn
}.

(** The requests sent to the server, in the order they are sent. *)
Inductive event : Type :=
| EvConnect (apikey url : string)
| EvPing
| EvExists (stream : string)
| EvCreate (stream : string) (schema : pyvalue)
| EvInsertArray (stream : string) (datapointArray : list datapoint).

(** ** The Logger object *)

(** A [threading.Timer]: waiting for its delay, cancelled before it fired,
    or fired (its function [__runsyncer] was started). *)
Inductive timer_state : Type :=
| Waiting (period : Q)
| Cancelled
| Fired.

Record Logger : Type := mkLogger {
  database : Database;             (* self.database, the sqlite file *)
  db_open : bool;                  (* False once database.close() ran *)
  __apikey : string;
  __serverurl : string;
  __lastsync : timestamp;
  __syncperiod : Q;
  streams : list (string * pyvalue);  (* self.streams, a dict *)
  __cdb : option (string * string);   (* the ConnectorDB handle, by the
                                         apikey and url it was built from *)
  syncthread : option nat;         (* index of the current Timer *)
  timers : list timer_state        (* every Timer created so far *)
}.

(** The Logger together with the requests it has sent. *)
Record World : Type := mkWorld {
  lg : Logger;
  trace : list event
}.

(** ** The monad of methods *)

Inductive outcome (A : Type) : Type :=
| Returned (a : A)
| Raised (e : exn).
Arguments Returned {A} a.
Arguments Raised {A} e.

Definition M (A : Type) : Type := World -> outcome A * World.

Definition ret {A : Type} (a : A) : M A := fun w => (Returned a, w).

Definition raise {A : Type} (e : exn) : M A := fun w => (Raised e, w).

Definition bind {A B : Type} (m : M A) (k : A -> M B) : M B :=
  fun w =>
    match m w with
    | (Returned a, w') => k a w'
    | (Raised e, w') => (Raised e, w')
    end.

(** [try: m  except: h] with a bare [except], which catches everything. *)
Definition try_except {A : Type} (m : M A) (h : exn -> M A) : M A :=
  fun w =>
    match m w with
    | (Returned a, w') => (Returned a, w')
    | (Raised e, w') => h e w'
    end.

Declare Scope py_scope.
Delimit Scope py_scope with py.
Notation "x <- m ;; k" := (bind m (fun x => k))
  (at level 61, m at next level, right associativity) : py_scope.
Notation "m ;; k" := (bind m (fun _ => k))
  (at level 61, right associativity) : py_scope.
Open Scope py_scope.

Definition gets {A : Type} (f : Logger -> A) : M A :=
  fun w => (Returned (f (lg w)), w).

Definition modify (f : Logger -> Logger) : M unit :=
  fun w => (Returned tt, mkWorld (f (lg w)) (trace w)).

Definition emit (ev : event) : M unit :=
  fun w => (Returned tt, mkWorld (lg w) (trace w ++ [ev])).

(** A call that returns nothing and may raise. *)
Definition call (r : option exn) : M unit :=
  match r with
  | None => ret tt
  | Some e => raise e
  end.

(** A call that returns a value or raises. *)
Definition call_val {A : Type} (r : exn + A) : M A :=
  match r with
  | inr a => ret a
  | inl e => raise e
  end.

(** ** Field updates *)

Definition with_database (f : Database -> Database) (l : Logger) : Logger :=
  mkLogger (f (database l)) (db_open l) (__apikey l) (__serverurl l)
    (__lastsync l) (__syncperiod l) (streams l) (__cdb l) (syncthread l)
    (timers l).

Definition with_db_open (b : bool) (l : Logger) : Logger :=
  mkLogger (database l) b (__apikey l) (__serverurl l)
    (__lastsync l) (__syncperiod l) (streams l) (__cdb l) (syncthread l)
    (timers l).

Definition with_apikey (v : string) (l : Logger) : Logger :=
  mkLogger (database l) (db_open l) v (__serverurl l)
    (__lastsync l) (__syncperiod l) (streams l) (__cdb l) (syncthread l)
    (timers l).

Definition with_serverurl (v : string) (l : Logger) : Logger :=
  mkLogger (database l) (db_open l) (__apikey l) v
    (__lastsync l) (__syncperiod l) (streams l) (__cdb l) (syncthread l)
    (timers l).

Definition with_lastsync (v : timestamp) (l : Logger) : Logger :=
  mkLogger (database l) (db_open l) (__apikey l) (__serverurl l)
    v (__syncperiod l) (streams l) (__cdb l) (syncthread l)
    (timers l).

Definition with_syncperiod (v : Q) (l : Logger) : Logger :=
  mkLogger (database l) (db_open l) (__apikey l) (__serverurl l)
    (__lastsync l) v (streams l) (__cdb l) (syncthread l)
    (timers l).

Definition with_streams (d : list (string * pyvalue)) (l : Logger) : Logger :=
  mkLogger (database l) (db_open l) (__apikey l) (__serverurl l)
    (__lastsync l) (__syncperiod l) d (__cdb l) (syncthread l)
    (timers l).

Definition with_cdb (h : option (string * string)) (l : Logger) : Logger :=
  mkLogger (database l) (db_open l) (__apikey l) (__serverurl l)
    (__lastsync l) (__syncperiod l) (streams l) h (syncthread l)
    (timers l).

Definition with_timers (st : option nat) (ts : list timer_state)
    (l : Logger) : Logger :=
  mkLogger (database l) (db_open l) (__apikey l) (__serverurl l)
    (__lastsync l) (__syncperiod l) (streams l) (__cdb l) st ts.

Definition with_cache (f : list CacheRow -> list CacheRow) (d : Database)
    : Database :=
  mkDatabase (f (cache d)) (streams_tbl d) (metadata d).

Definition with_streams_tbl
    (f : list (string * string) -> list (string * string)) (d : Database)
    : Database :=
  mkDatabase (cache d) (f (streams_tbl d)) (metadata d).

Definition with_metadata (f : list MetaRow -> list MetaRow) (d : Database)
    : Database :=
  mkDatabase (cache d) (streams_tbl d) (f (metadata d)).

(** ** The SQL statements *)

(** [WHERE stream=?] *)
Definition stream_is (stream : string) (r : CacheRow) : bool :=
  String.eqb (c_stream r) stream.

(** [ORDER BY timestamp ASC], as a stable insertion sort: rows with equal
    timestamps keep the order of the table. *)
Fixpoint sort_insert (r : CacheRow) (rows : list CacheRow) : list CacheRow :=
  match rows with
  | [] => [r]
  | x :: rows' =>
      if Qle_bool (c_timestamp r) (c_timestamp x)
      then r :: x :: rows'
      else x :: sort_insert r rows'
  end.

Definition order_by_timestamp (rows : list CacheRow) : list CacheRow :=
  fold_right sort_insert [] rows.

(** [SELECT * FROM cache WHERE stream=? ORDER BY timestamp ASC] *)
Definition select_cache (stream : string) (d : Database) : list CacheRow :=
  order_by_timestamp (filter (stream_is stream) (cache d)).

(** The rows that [DELETE FROM cache WHERE stream=? AND timestamp <=?]
    removes. *)
Definition delete_matches (stream : string) (t : timestamp) (r : CacheRow)
    : bool :=
  stream_is stream r && Qle_bool (c_timestamp r) t.

(** [DELETE FROM cache WHERE stream=? AND timestamp <=?] *)
Definition delete_cache (stream : string) (t : timestamp) (d : Database)
    : Database :=
  with_cache (filter (fun r => negb (delete_matches stream t r))) d.

(** [INSERT INTO cache VALUES (?,?,?)] *)
Definition insert_cache (r : CacheRow) (d : Database) : Database :=
  with_cache (fun rows => rows ++ [r]) d.

(** [SELECT COUNT() FROM cache] *)
Definition count_cache (d : Database) : nat := List.length (cache d).

(** [INSERT OR REPLACE INTO streams VALUES (?,?)]: the row with the same
    primary key goes, the new row is added. *)
Definition replace_stream (stream jsonschema : string) (d : Database)
    : Database :=
  with_streams_tbl
    (fun rows =>
       filter (fun r => negb (String.eqb (fst r) stream)) rows
       ++ [(stream, jsonschema)]) d.

(** The [jsonschema] of a stream in the [streams] table. *)
Fixpoint tbl_get (stream : string) (rows : list (string * string))
    : option string :=
  match rows with
  | [] => None
  | (k, v) :: rows' =>
      if String.eqb k stream then Some v else tbl_get stream rows'
  end.

(** [UPDATE metadata SET column=?] has no [WHERE]: it writes every row. *)
Definition update_metadata (f : MetaRow -> MetaRow) (d : Database)
    : Database :=
  with_metadata (map f) d.

Definition set_m_apikey (v : string) (r : MetaRow) : MetaRow :=
  mkMetaRow v (m_serverurl r) (m_lastsynctime r) (m_syncperiod r)
    (m_userdatajson r).

Definition set_m_serverurl (v : string) (r : MetaRow) : MetaRow :=
  mkMetaRow (m_apikey r) v (m_lastsynctime r) (m_syncperiod r)
    (m_userdatajson r).

Definition set_m_lastsynctime (v : timestamp) (r : MetaRow) : MetaRow :=
  mkMetaRow (m_apikey r) (m_serverurl r) v (m_syncperiod r)
    (m_userdatajson r).

Definition set_m_syncperiod (v : Q) (r : MetaRow) : MetaRow :=
  mkMetaRow (m_apikey r) (m_serverurl r) (m_lastsynctime r) v
    (m_userdatajson r).

Definition set_m_userdatajson (v : string) (r : MetaRow) : MetaRow :=
  mkMetaRow (m_apikey r) (m_serverurl r) (m_lastsynctime r)
    (m_syncperiod r) v.

(** [INSERT INTO metadata VALUES ('',?,0,600,'{}')] with
    [CONNECTORDB_URL]. *)
Definition default_metadata : MetaRow :=
  mkMetaRow EmptyString CONNECTORDB_URL 0 600 "{}".

(** ** Numbers bound to a REAL column *)

(** What an application assigns to [syncperiod] or [lastsynctime]: a
    Python int or a finite float.  Floats are represented by rationals, as
    the timestamps are. *)
Inductive number : Type :=
| PyInteger (z : Z)
| PyFloat (q : Q).

(** The number as a value: what the attribute holds once it is assigned,
    compared as Python compares an int with a float. *)
Definition number_value (n : number) : Q :=
  match n with
  | PyInteger z => inject_Z z
  | PyFloat q => q
  end.

(** The double nearest to the integer [z], ties to even: 53 significant
    bits are kept. *)
Definition int_to_real (z : Z) : Z :=
  let a := Z.abs z in
  let k := (Z.log2 a - 52)%Z in
  if (k <=? 0)%Z then z
  else
    let q := Z.shiftr a k in
    let r := (a - Z.shiftl q k)%Z in
    let half := Z.shiftl 1 (k - 1) in
    let q' := if (half <? r)%Z || ((r =? half)%Z && Z.odd q)
              then (q + 1)%Z else q in
    (Z.sgn z * Z.shiftl q' k)%Z.

(** Binding the number to the [?] of a statement that writes a REAL
    column: apsw raises [OverflowError] for an int outside 64 bits, before
    the statement runs; sqlite stores an int as the nearest double and a
    float as it is. *)
Definition bind_real (n : number) : exn + Q :=
  match n with
  | PyFloat q => inr q
  | PyInteger z =>
      if ((- 2 ^ 63 <=? z) && (z <? 2 ^ 63))%Z
      then inr (inject_Z (int_to_real z))
      else inl (Raise "OverflowError" "long too big to convert")
  end.

(** ** Python dicts *)

(** [d[k]], [None] for a missing key. *)
Fixpoint dict_get {V : Type} (k : string) (d : list (string * V))
    : option V :=
  match d with
  | [] => None
  | (k', v) :: d' => if String.eqb k' k then Some v else dict_get k d'
  end.

(** [d[k] = v]: an existing key keeps its place, a new key goes last. *)
Fixpoint dict_set {V : Type} (k : string) (v : V) (d : list (string * V))
    : list (string * V) :=
  match d with
  | [] => [(k, v)]
  | (k', v') :: d' =>
      if String.eqb k' k then (k, v) :: d' else (k', v') :: dict_set k v d'
  end.

(** [for k in d] *)
Definition dict_keys {V : Type} (d : list (string * V)) : list string :=
  map fst d.

(** ** Timers *)

(** [Timer.cancel()]: a waiting timer will never fire; on a timer that has
    fired or was cancelled it does nothing. *)
Fixpoint cancel (i : nat) (ts : list timer_state) : list timer_state :=
  match ts, i with
  | [], _ => []
  | Waiting _ :: ts', O => Cancelled :: ts'
  | t :: ts', O => t :: ts'
  | t :: ts', S i' => t :: cancel i' ts'
  end.

(** The delay of a waiting timer elapses. *)
Fixpoint fire (i : nat) (ts : list timer_state) : option (list timer_state) :=
  match ts, i with
  | [], _ => None
  | Waiting _ :: ts', O => Some (Fired :: ts')
  | _ :: _, O => None
  | t :: ts', S i' => option_map (cons t) (fire i' ts')
  end.

(** ** Concurrent inserts *)

(** [insert] does not take [synclock], so another thread can add rows to
    [cache] while [sync] runs.  For every stream of the cycle, the rows that
    arrive before its [SELECT] and the rows that arrive between its
    [SELECT] and its [DELETE]. *)
Record Interference : Type := mkInterference {
  before_select : string -> list CacheRow;
  before_delete : string -> list CacheRow
}.

(** No other thread inserts. *)
Definition quiet : Interference :=
  mkInterference (fun _ => []) (fun _ => []).


(** The Logger after another thread has inserted [rows]. *)
Definition arrive (rows : list CacheRow) (l : Logger) : Logger :=
  with_database (with_cache (fun c => c ++ rows)) l.

Definition concurrent_inserts (rows : list CacheRow) : M unit :=
  modify (arrive rows).

Section Logger.

(** ** The libraries the Logger calls *)

(** [jsonschema.validate(instance, schema)] *)
Variable validate : pyvalue -> pyvalue -> option exn.
(** [json.dumps(value)] *)
Variable json_dumps : pyvalue -> exn + string.
(** [json.loads(text)] *)
Variable json_loads : string -> exn + pyvalue.
(** [Draft4Validator.check_schema(schema)], which [Stream.create] calls
    before it sends anything *)
Variable check_schema : pyvalue -> option exn.

(** ** Methods of [Logger] *)

(** [self.database.cursor()]: apsw refuses a closed connection. *)
Definition cursor : M unit :=
  fun w =>
    if db_open (lg w) then ret tt w
    else raise (Raise "ConnectionClosedError"
                  "The connection has been closed") w.

(** The property [connectordb]: the handle, built on first use. *)
Definition connectordb (rem : Remote) : M unit :=
  h <- gets __cdb ;;
  match h with
  | Some _ => ret tt
  | None =>
      k <- gets __apikey ;;
      u <- gets __serverurl ;;
      emit (EvConnect k u) ;;
      call (rem_connect rem k u) ;;
      modify (with_cdb (Some (k, u)))
  end.

Definition set_apikey (value : string) : M unit :=
  modify (with_apikey value) ;;
  cursor ;;
  modify (with_database (update_metadata (set_m_apikey value))).

Definition set_serverurl (value : string) : M unit :=
  modify (with_serverurl value) ;;
  cursor ;;
  modify (with_database (update_metadata (set_m_serverurl value))).

Definition set_lastsynctime (value : number) : M unit :=
  modify (with_lastsync (number_value value)) ;;
  cursor ;;
  stored <- call_val (bind_real value) ;;
  modify (with_database (update_metadata (set_m_lastsynctime stored))).

(** [__setsync]: cancel the current timer, start a new one. *)
Definition __setsync : M unit :=
  modify (fun l =>
    let ts := match syncthread l with
              | Some i => cancel i (timers l)
              | None => timers l
              end in
    with_timers (Some (List.length ts))
      (ts ++ [Waiting (__syncperiod l)]) l).

Definition set_syncperiod (value : number) : M unit :=
  modify (with_syncperiod (number_value value)) ;;
  st <- gets syncthread ;;
  cursor ;;
  stored <- call_val (bind_real value) ;;
  modify (with_database (update_metadata (set_m_syncperiod stored))) ;;
  match st with
  | Some _ => __setsync
  | None => ret tt
  end.

(** The property [data] and its setter. *)
Definition get_data : M pyvalue :=
  cursor ;;
  rows <- gets (fun l => metadata (database l)) ;;
  match rows with
  | [] => raise (Raise "StopIteration" EmptyString)
  | r :: _ => call_val (json_loads (m_userdatajson r))
  end.

Definition set_data (value : pyvalue) : M unit :=
  cursor ;;
  js <- call_val (json_dumps value) ;;
  modify (with_database (update_metadata (set_m_userdatajson js))).

(** The property [name]. *)
Definition name (rem : Remote) : M unit :=
  connectordb rem ;;
  emit EvPing ;;
  call (rem_ping rem).

Definition addStream_force (streamname : string) (schema : pyvalue)
    : M unit :=
  cursor ;;
  js <- call_val (json_dumps schema) ;;
  modify (with_database (replace_stream streamname js)) ;;
  modify (fun l => with_streams (dict_set streamname schema (streams l)) l).

(** [schema] is [PyNone] when the caller gives none.  [stream.create]
    checks the schema and then sends the request; [stream.schema] reads
    the metadata that [exists] or [create] has cached and sends nothing. *)
Definition addStream (rem : Remote) (streamname : string) (schema : pyvalue)
    : M unit :=
  connectordb rem ;;
  emit (EvExists streamname) ;;
  (if rem_exists rem streamname then ret tt
   else
     match schema with
     | PyNone =>
         raise (Exception
                  ("The stream '" ++ streamname ++ "' was not found")%string)
     | _ =>
         call (check_schema schema) ;;
         emit (EvCreate streamname schema) ;;
         call (rem_create rem streamname schema)
     end) ;;
  server_schema <- call_val (rem_schema rem streamname) ;;
  addStream_force streamname server_schema.

(** [now] is the value of [time.time()]. *)
Definition insert (streamname : string) (value : pyvalue) (now : timestamp)
    : M unit :=
  d <- gets streams ;;
  match dict_get streamname d with
  | None =>
      raise (Exception
               ("The stream '" ++ streamname ++ "' was not found")%string)
  | Some schema =>
      call (validate value schema) ;;
      js <- call_val (json_dumps value) ;;
      cursor ;;
      modify (with_database (insert_cache (mkCacheRow streamname now js)))
  end.

(** [{"t": dp[1], "d": json.loads(dp[2])}] for every fetched row. *)
Fixpoint load_datapoints (rows : list CacheRow) : exn + list datapoint :=
  match rows with
  | [] => inr []
  | dp :: rows' =>
      match json_loads (c_jsondata dp) with
      | inl e => inl e
      | inr d =>
          match load_datapoints rows' with
          | inl e => inl e
          | inr rest => inr (mkDatapoint (c_timestamp dp) d :: rest)
          end
      end
  end.

(** The body of [for stream in self.streams]. *)
Definition sync_stream (rem : Remote) (env : Interference) (stream : string)
    : M unit :=
  emit (EvExists stream) ;;
  if rem_exists rem stream then
    concurrent_inserts (before_select env stream) ;;
    rows <- gets (fun l => select_cache stream (database l)) ;;
    datapointArray <- call_val (load_datapoints rows) ;;
    match datapointArray with
    | [] => ret tt
    | dp0 :: _ =>
        emit (EvInsertArray stream datapointArray) ;;
        call (rem_insert_array rem stream datapointArray) ;;
        concurrent_inserts (before_delete env stream) ;;
        modify (with_database
                  (delete_cache stream (dp_t (last datapointArray dp0))))
    end
  else
    raise (Exception ("Stream " ++ stream ++ " does not exist!")%string).

Fixpoint sync_streams (rem : Remote) (env : Interference)
    (names : list string) : M unit :=
  match names with
  | [] => ret tt
  | stream :: names' =>
      sync_stream rem env stream ;;
      sync_streams rem env names'
  end.

(** The [try] block of [sync]. *)
Definition sync_cycle (rem : Remote) (env : Interference) (now : timestamp)
    : M unit :=
  connectordb rem ;;
  emit EvPing ;;
  call (rem_ping rem) ;;
  cursor ;;
  names <- gets (fun l => dict_keys (streams l)) ;;
  sync_streams rem env names ;;
  set_lastsynctime (PyFloat now).

(** [onsyncfail] is called with the Logger and can do with it whatever a
    method can: it is a computation of the same monad, whose result is the
    truth value of what the callback returns. *)
Definition sync (onsyncfail : option (M bool)) (rem : Remote)
    (env : Interference) (now : timestamp) : M unit :=
  try_except (sync_cycle rem env now)
    (fun e =>
       match onsyncfail with
       | None => raise e
       | Some handler =>
           reraise <- handler ;;
           if reraise : bool then raise e else ret tt
       end).

(** [except Exception and e:] evaluates the name [e], which is not bound,
    when [sync] raises: the timer thread ends with a [NameError] before
    [__setsync]. *)
Definition __runsyncer (onsyncfail : option (M bool)) (rem : Remote)
    (env : Interference) (now : timestamp) : M unit :=
  try_except (sync onsyncfail rem env now)
    (fun _ => raise (Raise "NameError" "name 'e' is not defined")) ;;
  __setsync.

Definition start (rem : Remote) : M unit :=
  connectordb rem ;;
  st <- gets syncthread ;;
  match st with
  | Some _ => ret tt
  | None => __setsync
  end.

Definition stop : M unit :=
  modify (fun l =>
    match syncthread l with
    | Some i => with_timers None (cancel i (timers l)) l
    | None => l
    end).

Definition close : M unit :=
  stop ;;
  modify (with_db_open false).

Definition __len__ : M nat :=
  cursor ;;
  gets (fun l => count_cache (database l)).

Definition __contains__ (streamname : string) : M bool :=
  gets (fun l =>
    match dict_get streamname (streams l) with
    | Some _ => true
    | None => false
    end).

(** [self.streams[row[0]] = json.loads(row[1])] for every row of
    [streams]. *)
Fixpoint load_streams (rows : list (string * string)) : M unit :=
  match rows with
  | [] => ret tt
  | (k, js) :: rows' =>
      schema <- call_val (json_loads js) ;;
      modify (fun l => with_streams (dict_set k schema (streams l)) l) ;;
      load_streams rows'
  end.

(** [__init__], run on the object [blank file]. *)
Definition __init__ (on_create : option (M unit)) (apikey : option string)
    : M unit :=
  row_number <- gets (fun l => List.length (metadata (database l))) ;;
  (if Nat.eqb row_number 0
   then modify (with_database
                  (with_metadata (fun rows => rows ++ [default_metadata])))
   else ret tt) ;;
  rows <- gets (fun l => metadata (database l)) ;;
  match rows with
  | [] => raise (Raise "StopIteration" EmptyString)
  | r :: _ =>
      modify (with_apikey (m_apikey r)) ;;
      modify (with_serverurl (m_serverurl r)) ;;
      modify (with_lastsync (m_lastsynctime r)) ;;
      modify (with_syncperiod (m_syncperiod r)) ;;
      tbl <- gets (fun l => streams_tbl (database l)) ;;
      modify (with_streams []) ;;
      load_streams tbl ;;
      match apikey with
      | Some k => set_apikey k
      | None => ret tt
      end ;;
      modify (with_timers None []) ;;
      modify (with_cdb None) ;;
      match on_create with
      | Some f => if Nat.eqb row_number 0 then f else ret tt
      | None => ret tt
      end
  end.

(** ** The operations of a Logger *)

(** The calls that an application (and the timer thread) makes on a
    Logger, each with the answers of the server, the concurrent inserts and
    the clock of that call.  Reading a cached property ([apikey],
    [serverurl], [syncperiod], [lastsynctime]) changes nothing and is not
    listed. *)
Inductive op : Type :=
| OpAddStream (rem : Remote) (streamname : string) (schema : pyvalue)
| OpAddStreamForce (streamname : string) (schema : pyvalue)
| OpInsert (streamname : string) (value : pyvalue) (now : timestamp)
| OpSync (rem : Remote) (env : Interference) (now : timestamp)
| OpRunsyncer (rem : Remote) (env : Interference) (now : timestamp)
| OpStart (rem : Remote)
| OpStop
| OpClose
| OpLen
| OpContains (streamname : string)
| OpSetSyncperiod (value : number)
| OpSetLastsynctime (value : number)
| OpSetApikey (value : string)
| OpSetServerurl (value : string)
| OpGetData
| OpSetData (value : pyvalue)
| OpName (rem : Remote)
| OpConnectordb (rem : Remote).

Definition run_op (onsyncfail : option (M bool)) (o : op) : M unit :=
  match o with
  | OpAddStream rem streamname schema => addStream rem streamname schema
  | OpAddStreamForce streamname schema => addStream_force streamname schema
  | OpInsert streamname value now => insert streamname value now
  | OpSync rem env now => sync onsyncfail rem env now
  | OpRunsyncer rem env now => __runsyncer onsyncfail rem env now
  | OpStart rem => start rem
  | OpStop => stop
  | OpClose => close
  | OpLen => __len__ ;; ret tt
  | OpContains streamname => __contains__ streamname ;; ret tt
  | OpSetSyncperiod value => set_syncperiod value
  | OpSetLastsynctime value => set_lastsynctime value
  | OpSetApikey value => set_apikey value
  | OpSetServerurl value => set_serverurl value
  | OpGetData => get_data ;; ret tt
  | OpSetData value => set_data value
  | OpName rem => name rem
  | OpConnectordb rem => connectordb rem
  end.

(** [__runsyncer] is private to the class: the timer thread calls it, an
    application cannot. *)
Definition public (o : op) : bool :=
  match o with
  | OpRunsyncer _ _ _ => false
  | _ => true
  end.

(** ** The timer thread and the application thread *)

(** A thread started by a Timer runs [__runsyncer]: it is inside
    [self.sync()], or [sync] has returned and [__setsync] is its next
    call.  [sync] takes [synclock] only after its [ping], and [stop] and
    [__setsync] hold it for their whole body: the steps of the timer
    thread below are the units that the lock makes atomic.  A call of the
    application is one step: what [start], [stop], [close] and the setter
    of [syncperiod] do to the timers, they do inside [stop] or [__setsync],
    under the lock. *)
Inductive runner : Type :=
| InSync
| AtSetsync.

Record System : Type := mkSystem {
  world : World;
  runners : list (nat * runner);  (* the live timer threads, by timer *)
  cycles : nat                    (* sync cycles begun by a timer *)
}.

Inductive action : Type :=
(* the application calls a public operation of the Logger *)
| ACall (o : op)
(* the delay of timer i elapses: its thread enters sync() *)
| ATimerFires (i : nat)
(* the thread of timer i runs its sync() to the end *)
| ASyncEnds (i : nat) (rem : Remote) (env : Interference) (now : timestamp)
(* the thread of timer i runs __setsync() *)
| ASetsync (i : nat).

(** The application calls [start()]. *)
Definition AStart (rem : Remote) : action := ACall (OpStart rem).

(** The application calls [stop()]. *)
Definition AStop : action := ACall OpStop.

Definition is_start (a : action) : bool :=
  match a with
  | ACall (OpStart _) => true
  | _ => false
  end.

Fixpoint has_runner (i : nat) (r : runner) (rs : list (nat * runner))
    : bool :=
  match rs with
  | [] => false
  | (j, r') :: rs' =>
      (Nat.eqb i j &&
       match r, r' with
       | InSync, InSync | AtSetsync, AtSetsync => true
       | _, _ => false
       end) || has_runner i r rs'
  end.

Definition drop_runner (i : nat) (rs : list (nat * runner))
    : list (nat * runner) :=
  filter (fun jr => negb (Nat.eqb i (fst jr))) rs.

(** One step of the system; [None] when the step cannot happen in this
    state. *)
Definition step (onsyncfail : option (M bool)) (a : action) (s : System)
    : option System :=
  match a with
  | ACall o =>
      if public o then
        Some (mkSystem (snd (run_op onsyncfail o (world s)))
                (runners s) (cycles s))
      else None
  | ATimerFires i =>
      match fire i (timers (lg (world s))) with
      | None => None
      | Some ts =>
          Some (mkSystem
                  (mkWorld (with_timers (syncthread (lg (world s))) ts
                              (lg (world s)))
                     (trace (world s)))
                  (runners s ++ [(i, InSync)])
                  (S (cycles s)))
      end
  | ASyncEnds i rem env now =>
      if has_runner i InSync (runners s) then
        match sync onsyncfail rem env now (world s) with
        | (Returned _, w) =>
            Some (mkSystem w (drop_runner i (runners s) ++ [(i, AtSetsync)])
                    (cycles s))
        | (Raised _, w) =>
            Some (mkSystem w (drop_runner i (runners s)) (cycles s))
        end
      else None
  | ASetsync i =>
      if has_runner i AtSetsync (runners s) then
        Some (mkSystem (snd (__setsync (world s)))
                (drop_runner i (runners s)) (cycles s))
      else None
  end.

Fixpoint run (onsyncfail : option (M bool)) (acts : list action)
    (s : System) : option System :=
  match acts with
  | [] => Some s
  | a :: acts' =>
      match step onsyncfail a s with
      | None => None
      | Some s' => run onsyncfail acts' s'
      end
  end.

(** No timer is waiting: no sync cycle is scheduled. *)
Definition none_waiting (ts : list timer_state) : bool :=
  forallb (fun t => match t with Waiting _ => false | _ => true end) ts.

End Logger.

(** The object before [__init__] has assigned anything but the opened
    file. *)
Definition blank (file : Database) : Logger :=
  mkLogger file true EmptyString EmptyString 0 0 [] None None [].

(** ** Instances of the libraries and of the server

    A small JSON codec and a validator of the [type] keyword, to run the
    Logger on concrete values. *)
Module Example.

Definition dquote : ascii := ascii_of_nat 34.

Definition quoted (s : string) : string :=
  (String dquote s ++ String dquote EmptyString)%string.

Fixpoint join (sep : string) (l : list string) : string :=
  match l with
  | [] => EmptyString
  | [x] => x
  | x :: l' => (x ++ sep ++ join sep l')%string
  end.

(** [json.dumps] with its default separators; strings are written without
    escapes. *)
Fixpoint dumps (v : pyvalue) : string :=
  match v with
  | PyNone => "null"
  | PyBool true => "true"
  | PyBool false => "false"
  | PyInt z => NilZero.string_of_int (Z.to_int z)
  | PyStr s => quoted s
  | PyList l => ("[" ++ join ", " (map dumps l) ++ "]")%string
  | PyDict d =>
      ("{" ++ join ", "
                (map (fun kv => let '(k, v') := kv in
                                (quoted k ++ ": " ++ dumps v')%string) d)
           ++ "}")%string
  end.

Fixpoint strip (p s : string) : option string :=
  match p, s with
  | EmptyString, _ => Some s
  | String c p', String c' s' =>
      if Ascii.eqb c c' then strip p' s' else None
  | String _ _, EmptyString => None
  end.

Fixpoint skip_ws (s : string) : string :=
  match s with
  | String c s' => if Ascii.eqb c " " then skip_ws s' else s
  | EmptyString => s
  end.

Fixpoint read_string (s : string) : option (string * string) :=
  match s with
  | EmptyString => None
  | String c s' =>
      if Ascii.eqb c dquote then Some (EmptyString, s')
      else
        match read_string s' with
        | Some (a, r) => Some (String c a, r)
        | None => None
        end
  end.

Definition is_digit (c : ascii) : bool :=
  (Nat.leb 48 (nat_of_ascii c) && Nat.leb (nat_of_ascii c) 57)
  || Ascii.eqb c "-".

Fixpoint read_number (s : string) : string * string :=
  match s with
  | String c s' =>
      if is_digit c
      then let '(a, r) := read_number s' in (String c a, r)
      else (EmptyString, s)
  | EmptyString => (EmptyString, s)
  end.

Fixpoint parse (fuel : nat) (s : string) : option (pyvalue * string) :=
  match fuel with
  | O => None
  | S fuel' =>
      let s := skip_ws s in
      match strip "null" s, strip "true" s, strip "false" s with
      | Some r, _, _ => Some (PyNone, r)
      | _, Some r, _ => Some (PyBool true, r)
      | _, _, Some r => Some (PyBool false, r)
      | None, None, None =>
          match s with
          | EmptyString => None
          | String c r =>
              if Ascii.eqb c dquote then
                match read_string r with
                | Some (a, r') => Some (PyStr a, r')
                | None => None
                end
              else if Ascii.eqb c "[" then
                match parse_elems fuel' r with
                | Some (l, r') => Some (PyList l, r')
                | None => None
                end
              else if Ascii.eqb c "{" then
                match parse_members fuel' r with
                | Some (d, r') => Some (PyDict d, r')
                | None => None
                end
              else
                let '(digits, r') := read_number s in
                match NilZero.int_of_string digits with
                | Some i => Some (PyInt (Z.of_int i), r')
                | None => None
                end
          end
      end
  end
with parse_elems (fuel : nat) (s : string)
    : option (list pyvalue * string) :=
  match fuel with
  | O => None
  | S fuel' =>
      match strip "]" (skip_ws s) with
      | Some r => Some ([], r)
      | None =>
          match parse fuel' s with
          | None => None
          | Some (v, r) =>
              match strip "," (skip_ws r) with
              | Some r' =>
                  match parse_elems fuel' r' with
                  | Some (l, r'') => Some (v :: l, r'')
                  | None => None
                  end
              | None =>
                  match strip "]" (skip_ws r) with
                  | Some r' => Some ([v], r')
                  | None => None
                  end
              end
          end
      end
  end
with parse_members (fuel : nat) (s : string)
    : option (list (string * pyvalue) * string) :=
  match fuel with
  | O => None
  | S fuel' =>
      match strip "}" (skip_ws s) with
      | Some r => Some ([], r)
      | None =>
          match parse fuel' s with
          | Some (PyStr k, r) =>
              match strip ":" (skip_ws r) with
              | None => None
              | Some r1 =>
                  match parse fuel' r1 with
                  | None => None
                  | Some (v, r2) =>
                      match strip "," (skip_ws r2) with
                      | Some r3 =>
                          match parse_members fuel' r3 with
                          | Some (d, r4) => Some ((k, v) :: d, r4)
                          | None => None
                          end
                      | None =>
                          match strip "}" (skip_ws r2) with
                          | Some r3 => Some ([(k, v)], r3)
                          | None => None
                          end
                      end
                  end
              end
          | _ => None
          end
      end
  end.

Definition json_dumps (v : pyvalue) : exn + string := inr (dumps v).

Definition json_loads (s : string) : exn + pyvalue :=
  match parse (2 * String.length s + 2) s with
  | Some (v, r) =>
      match skip_ws r with
      | EmptyString => inr v
      | _ => inl (Raise "ValueError" "Extra data")
      end
  | None => inl (Raise "ValueError" "No JSON object could be decoded")
  end.

Definition type_ok (ty : string) (v : pyvalue) : bool :=
  match v with
  | PyNone => String.eqb ty "null"
  | PyBool _ => String.eqb ty "boolean"
  | PyInt _ => String.eqb ty "number" || String.eqb ty "integer"
  | PyStr _ => String.eqb ty "string"
  | PyList _ => String.eqb ty "array"
  | PyDict _ => String.eqb ty "object"
  end.

(** The [type] keyword of a schema.  A schema that is not a dict has no
    keywords to look up: the validator fails on it, as [jsonschema] does
    when it reads the keys of [None]. *)
Definition validate (value schema : pyvalue) : option exn :=
  match schema with
  | PyDict d =>
      match dict_get "type" d with
      | Some (PyStr ty) =>
          if type_ok ty value then None
          else Some (Raise "ValidationError" "value is not of the given type")
      | _ => None
      end
  | _ => Some (Raise "AttributeError" "schema has no attribute 'get'")
  end.

(** A schema is a JSON object. *)
Definition check_schema (schema : pyvalue) : option exn :=
  match schema with
  | PyDict _ => None
  | _ => Some (Raise "SchemaError" "schema is not of type 'object'")
  end.

(** A server that answers every request, where the streams of [missing] do
    not exist and the schema of every stream is [schema]. *)
Definition server (missing : list string) (schema : pyvalue) : Remote :=
  mkRemote (fun _ _ => None) None
    (fun s => negb (existsb (String.eqb s) missing))
    (fun _ _ => None) (fun _ => inr schema) (fun _ _ => None).

(** A server that cannot be reached. *)
Definition unreachable : Remote :=
  mkRemote (fun _ _ => Some (Raise "ConnectionError" "unreachable"))
    (Some (Raise "ConnectionError" "unreachable"))
    (fun _ => false)
    (fun _ _ => Some (Raise "ConnectionError" "unreachable"))
    (fun _ => inr PyNone)
    (fun _ _ => Some (Raise "ConnectionError" "unreachable")).

Definition number_schema : pyvalue := PyDict [("type", PyStr "number")].

(** A Logger on a new file, with an apikey. *)
Definition fresh : World :=
  snd (__init__ json_loads None (Some "key") (mkWorld (blank new_file) [])).

(** The stream [temp] registered with the schema of numbers. *)
Definition temp : World :=
  snd (addStream_force json_dumps "temp" number_schema fresh).

(** The stream [temp] registered without a schema. *)
Definition temp_none : World :=
  snd (addStream_force json_dumps "temp" PyNone fresh).

(** Two streams, with points inserted at the clocks 2, 1 and 3. *)
Definition two_streams : World :=
  snd ((addStream_force json_dumps "a" number_schema ;;
        addStream_force json_dumps "b" number_schema ;;
        insert validate json_dumps "a" (PyInt 20) 2 ;;
        insert validate json_dumps "b" (PyInt 7) 1 ;;
        insert validate json_dumps "a" (PyInt 30) 3) fresh).


(** Another thread inserts while the batch of the stream [a] is being
    uploaded: a later point of [a], a point of [b], and a point of [a]
    with the timestamp of the last uploaded point. *)
Definition late_inserts : Interference :=
  mkInterference (fun _ => [])
    (fun s => if String.eqb s "a"
              then [mkCacheRow "a" 4 "40"; mkCacheRow "b" (5 # 2) "8";
                    mkCacheRow "a" 3 "31"]
              else []).

(** The Logger of [two_streams] after [start]: its timer waits. *)
Definition started : World :=
  snd (start (server [] number_schema) two_streams).

(** The application thread alone, with that timer waiting. *)
Definition ticking : System := mkSystem started [] 0.

(** The timer has fired and its thread is inside [sync]. *)
Definition in_sync : System :=
  mkSystem
    (mkWorld (with_timers (Some 0%nat) [Fired] (lg started)) (trace started))
    [(0%nat, InSync)] 1.

(** The Logger of [temp] after [close]. *)
Definition closed : World := snd (close temp).

(** A schema of strings. *)
Definition string_schema : pyvalue := PyDict [("type", PyStr "string")].

End Example.

(** * The objects of the REST API

    [_connectorobject.py], [_stream.py] and [_connectordb.py].  The class
    [DatabaseConnection] is not among the sources: its answers are a
    parameter, and the requests that reach it are recorded. *)
Module Objects.

(** The calls on [self.db]. *)
Inductive request : Type :=
| Read (path : string) (params : list (string * pyvalue))
| Create (path : string) (body : pyvalue)
| Update (path : string) (body : pyvalue)
| Delete (path : string).

(** What the connection answers to a request, after the requests sent so
    far: the decoded JSON object of the response, or the exception that
    the request or its [.json()] raises. *)
Definition Connection : Type :=
  list request -> request -> exn + list (string * pyvalue).

(** A [ConnectorObject]: its path and its cached metadata, [None] until
    it is loaded. *)
Record ConnectorObject : Type := mkObject {
  path : string;
  metadata : option (list (string * pyvalue))
}.

(** The object with the requests sent on its connection. *)
Record ObjWorld : Type := mkObjWorld {
  self : ConnectorObject;
  sent : list request
}.

Definition OM (A : Type) : Type := ObjWorld -> outcome A * ObjWorld.

Definition oret {A : Type} (a : A) : OM A := fun w => (Returned a, w).

Definition oraise {A : Type} (e : exn) : OM A := fun w => (Raised e, w).

Definition obind {A B : Type} (m : OM A) (k : A -> OM B) : OM B :=
  fun w =>
    match m w with
    | (Returned a, w') => k a w'
    | (Raised e, w') => (Raised e, w')
    end.

(** Send a request and take the answer. *)
Definition send (db : Connection) (req : request)
    : OM (list (string * pyvalue)) :=
  fun w =>
    match db (sent w) req with
    | inr answer => (Returned answer, mkObjWorld (self w) (sent w ++ [req]))
    | inl e => (Raised e, mkObjWorld (self w) (sent w ++ [req]))
    end.

Definition set_metadata (m : list (string * pyvalue)) : OM unit :=
  fun w =>
    (Returned tt, mkObjWorld (mkObject (path (self w)) (Some m)) (sent w)).

(** ** [ConnectorObject] *)

(** [ConnectorObject(db, path)] *)
Definition new_object (object_path : string) : ConnectorObject :=
  mkObject object_path None.

Definition refresh (db : Connection) : OM unit :=
  fun w => obind (send db (Read (path (self w)) [])) set_metadata w.

(** The property [data]. *)
Definition data (db : Connection) : OM (list (string * pyvalue)) :=
  fun w =>
    match metadata (self w) with
    | Some m => (Returned m, w)
    | None =>
        obind (refresh db)
          (fun _ w' =>
             match metadata (self w') with
             | Some m => (Returned m, w')
             | None => (Raised (Raise "TypeError" "metadata is None"), w')
             end) w
    end.

Definition delete (db : Connection) : OM unit :=
  fun w =>
    obind (send db (Delete (path (self w)))) (fun _ => oret tt) w.

(** [try: self.refresh()  except: return False], then [return True]. *)
Definition exists_ (db : Connection) : OM bool :=
  fun w =>
    match refresh db w with
    | (Returned _, w') => (Returned true, w')
    | (Raised _, w') => (Returned false, w')
    end.

Definition set (db : Connection) (property_dict : pyvalue) : OM unit :=
  fun w =>
    obind (send db (Update (path (self w)) property_dict)) set_metadata w.

(** [d[key]] on a dict. *)
Definition getitem (key : string) (d : list (string * pyvalue))
    : OM pyvalue :=
  match dict_get key d with
  | Some v => oret v
  | None => oraise (Raise "KeyError" key)
  end.

(** [key in d] on a dict. *)
Definition contains (key : string) (d : list (string * pyvalue)) : bool :=
  match dict_get key d with
  | Some _ => true
  | None => false
  end.

(** The property [name]. *)
Definition name (db : Connection) : OM pyvalue :=
  obind (data db) (getitem "name").

(** The property [nickname] and its setter. *)
Definition nickname (db : Connection) : OM pyvalue :=
  obind (data db)
    (fun d =>
       if contains "nickname" d
       then obind (data db) (getitem "nickname")
       else oret PyNone).

Definition set_nickname (db : Connection) (new_nickname : pyvalue)
    : OM unit :=
  set db (PyDict [("nickname", new_nickname)]).

(** ** [Stream] *)

(** [query_maker]: an argument that is not given is [None]. *)
Definition query_maker (t1 t2 limit i1 i2 transform : option pyvalue)
    : exn + list (string * pyvalue) :=
  let params := [] in
  let params := match t1 with
                | Some v => dict_set "t1" v params
                | None => params
                end in
  let params := match t2 with
                | Some v => dict_set "t2" v params
                | None => params
                end in
  let params := match limit with
                | Some v => dict_set "limit" v params
                | None => params
                end in
  let indexed :=
    match i1, i2 with
    | None, None => inr params
    | _, _ =>
        if Nat.ltb 0 (List.length params)
        then inl (Raise "AssertionError"
                    "Stream cannot be accessed both by index and by timestamp at the same time.")
        else
          let params := match i1 with
                        | Some v => dict_set "i1" v params
                        | None => params
                        end in
          let params := match i2 with
                        | Some v => dict_set "i2" v params
                        | None => params
                        end in
          inr params
    end in
  match indexed with
  | inl e => inl e
  | inr params =>
      inr match transform with
          | Some v => dict_set "transform" v params
          | None => params
          end
  end.

(** The request of [Stream.__call__]: the query of the arguments, or
    [i1 = 0] when there is none, read at [path + "/data"]. *)
Definition call_request (stream_path : string)
    (t1 t2 limit i1 i2 transform : option pyvalue) : exn + request :=
  match query_maker t1 t2 limit i1 i2 transform with
  | inl e => inl e
  | inr params =>
      let params := if Nat.eqb (List.length params) 0
                    then dict_set "i1" (PyInt 0) params
                    else params in
      inr (Read (stream_path ++ "/data")%string params)
  end.

(** The argument of [Stream.__getitem__]: an index or a slice. *)
Inductive getrange : Type :=
| Index (i : Z)
| Slice (start stop : option Z).

(** The request of [Stream.__getitem__]. *)
Definition getitem_request (stream_path : string) (g : getrange)
    : exn + request :=
  match g with
  | Index i =>
      call_request stream_path None None None
        (Some (PyInt i)) (Some (PyInt (i + 1))) None
  | Slice start stop =>
      call_request stream_path None None None
        (option_map PyInt start) (option_map PyInt stop) None
  end.

(** The request of [Stream.insert_array]. *)
Definition insert_array_request (stream_path : string)
    (datapoint_array : pyvalue) (restamp : bool) : request :=
  if restamp
  then Update (stream_path ++ "/data")%string datapoint_array
  else Create (stream_path ++ "/data")%string datapoint_array.

(** The request of [Stream.insert]. *)
Definition insert_request (stream_path : string) (d : pyvalue) : request :=
  insert_array_request stream_path (PyList [PyDict [("d", d)]]) true.

Section Schema.

(** [json.loads] and [Draft4Validator.check_schema]. *)
Variable json_loads : string -> exn + pyvalue.
Variable check_schema : pyvalue -> option exn.

(** The property [Stream.schema]. *)
Definition schema (db : Connection) : OM pyvalue :=
  obind (data db)
    (fun d =>
       if contains "type" d
       then obind (data db)
              (fun d' =>
                 obind (getitem "type" d')
                   (fun t =>
                      match t with
                      | PyStr s =>
                          match json_loads s with
                          | inr v => oret v
                          | inl e => oraise e
                          end
                      | _ => oraise (Raise "TypeError"
                                       "expected string or buffer")
                      end))
       else oret PyNone).

(** [Stream.create] *)
Definition create (db : Connection) (sch : pyvalue) : OM unit :=
  fun w =>
    match check_schema sch with
    | Some e => (Raised e, w)
    | None => obind (send db (Create (path (self w)) sch)) set_metadata w
    end.

End Schema.

(** The argument is given: it is not [None]. *)
Definition given {A : Type} (o : option A) : bool :=
  match o with
  | Some _ => true
  | None => false
  end.

(** ** Paths *)

(** [path.count("/")] *)
Fixpoint count_slash (s : string) : nat :=
  match s with
  | EmptyString => 0
  | String c s' =>
      (if Ascii.eqb c "/" then 1 else 0) + count_slash s'
  end.

(** [path.split("/")] *)
Fixpoint split_slash (s : string) : list string :=
  match s with
  | EmptyString => [EmptyString]
  | String c s' =>
      if Ascii.eqb c "/" then EmptyString :: split_slash s'
      else
        match split_slash s' with
        | [] => [String c EmptyString]
        | part :: parts => String c part :: parts
        end
  end.

(** The class of the object that [ConnectorDB.__call__] builds. *)
Inductive kind : Type :=
| User
| Device
| Stream.

(** [ConnectorDB.__call__(path)] *)
Definition cdb_call (p : string) : kind * ConnectorObject :=
  match count_slash p with
  | O => (User, new_object p)
  | S O => (Device, new_object p)
  | _ => (Stream, new_object p)
  end.

(** The property [Stream.user]. *)
Definition stream_user (o : ConnectorObject) : exn + kind * ConnectorObject :=
  match split_slash (path o) with
  | u :: _ => inr (User, new_object u)
  | [] => inl (Raise "IndexError" "list index out of range")
  end.

(** The property [Stream.device]. *)
Definition stream_device (o : ConnectorObject)
    : exn + kind * ConnectorObject :=
  match split_slash (path o) with
  | u :: d :: _ => inr (Device, new_object (u ++ "/" ++ d)%string)
  | _ => inl (Raise "IndexError" "list index out of range")
  end.

End Objects.

(** * The vocabulary of the properties *)

Section Properties.

(** The libraries, as in the methods. *)
Variable validate : pyvalue -> pyvalue -> option exn.
Variable json_dumps : pyvalue -> exn + string.
Variable json_loads : string -> exn + pyvalue.
Variable check_schema : pyvalue -> option exn.

(** The order of the rows by timestamp. *)
Definition ts_le (a b : CacheRow) : Prop :=
  (c_timestamp a <= c_timestamp b)%Q.

(** The world after [insert] has buffered the row. *)
Definition buffered (streamname : string) (now : timestamp) (js : string)
    (w : World) : World :=
  mkWorld (with_database (insert_cache (mkCacheRow streamname now js)) (lg w))
    (trace w).

(** Every fetched row becomes the datapoint with its timestamp and its
    decoded payload. *)
Definition decodes (r : CacheRow) (dp : datapoint) : Prop :=
  dp_t dp = c_timestamp r /\ json_loads (c_jsondata r) = inr (dp_d dp).

(** The world after [sync_stream] has uploaded [dps] and deleted up to
    [t]. *)
Definition uploaded (env : Interference) (stream : string)
    (dps : list datapoint) (t : timestamp) (w : World) : World :=
  mkWorld
    (with_database (delete_cache stream t)
       (arrive (before_delete env stream)
          (arrive (before_select env stream) (lg w))))
    (trace w ++ [EvExists stream] ++ [EvInsertArray stream dps]).

(** The rows that [sync_stream] fetches. *)
Definition fetched (env : Interference) (stream : string) (w : World)
    : list CacheRow :=
  select_cache stream (database (arrive (before_select env stream) (lg w))).

(** The Logger with another content of the [cache] table. *)
Definition set_cache (c : list CacheRow) (l : Logger) : Logger :=
  with_database (with_cache (fun _ => c)) l.

(** The requests about one stream. *)
Definition about (stream : string) (ev : event) : Prop :=
  ev = EvExists stream \/ exists dps, ev = EvInsertArray stream dps.

(** The server can be reached: the handle exists or can be built, and the
    ping is answered. *)
Definition reachable (rem : Remote) (l : Logger) : Prop :=
  (__cdb l = None -> rem_connect rem (__apikey l) (__serverurl l) = None) /\
  rem_ping rem = None.

(** The world after the handle was obtained and the ping answered. *)
Definition connected (w : World) : World :=
  match __cdb (lg w) with
  | Some _ => mkWorld (lg w) (trace w ++ [EvPing])
  | None =>
      mkWorld
        (with_cdb (Some (__apikey (lg w), __serverurl (lg w))) (lg w))
        ((trace w ++ [EvConnect (__apikey (lg w)) (__serverurl (lg w))])
           ++ [EvPing])
  end.

(** The handle cannot be built. *)
Definition connect_fails (rem : Remote) (l : Logger) (e : exn) : Prop :=
  __cdb l = None /\ rem_connect rem (__apikey l) (__serverurl l) = Some e.

(** The handle is there, the ping is not answered. *)
Definition ping_fails (rem : Remote) (l : Logger) (e : exn) : Prop :=
  (__cdb l = None -> rem_connect rem (__apikey l) (__serverurl l) = None) /\
  rem_ping rem = Some e.

(** The Logger after the setter of [lastsynctime] ran. *)
Definition advance (now : timestamp) (l : Logger) : Logger :=
  with_database (update_metadata (set_m_lastsynctime now))
    (with_lastsync now l).

(** The rows of a stream in timestamp order: what its [SELECT] fetches
    from the cache [c]. *)
Definition pending (stream : string) (c : list CacheRow) : list CacheRow :=
  order_by_timestamp (filter (stream_is stream) c).




(** The uploads for one stream among some requests. *)
Definition uploads_for (stream : string) (evs : list event) : list event :=
  filter (fun ev =>
            match ev with
            | EvInsertArray s _ => String.eqb s stream
            | _ => false
            end) evs.



(** [json.loads(json.dumps(value))] *)
Definition roundtrip (value : pyvalue) : exn + pyvalue :=
  match json_dumps value with
  | inr js => json_loads js
  | inl e => inl e
  end.


(** The cached properties are the fields of the one row of [metadata],
    and [self.streams] holds, for the streams of the [streams] table, the
    decoded schemas. *)
Definition caches_agree (l : Logger) : Prop :=
  (exists r,
     metadata (database l) = [r] /\
     __apikey l = m_apikey r /\
     __serverurl l = m_serverurl r /\
     __syncperiod l = m_syncperiod r /\
     __lastsync l = m_lastsynctime r) /\
  (forall k,
     option_map (@inr exn pyvalue) (dict_get k (streams l)) =
     option_map json_loads (tbl_get k (streams_tbl (database l)))).

(** [json.loads] reads back what [json.dumps] wrote for [v]. *)
Definition roundtrips (v : pyvalue) : Prop :=
  forall js, json_dumps v = inr js -> json_loads js = inr v.

(** The REAL column holds the number as it was given: a float, or an int
    that a double represents. *)
Definition stored_exactly (n : number) : Prop :=
  bind_real n = inr (number_value n).

(** What the operation writes to the file is read back as it was given:
    a schema that it registers through JSON, a number that it sets through
    the REAL column. *)
Definition op_roundtrips (o : op) : Prop :=
  match o with
  | OpAddStream rem streamname _ =>
      forall schema, rem_schema rem streamname = inr schema ->
                     roundtrips schema
  | OpAddStreamForce _ schema => roundtrips schema
  | OpSetSyncperiod value => stored_exactly value
  | OpSetLastsynctime value => stored_exactly value
  | _ => True
  end.

(** A callback keeps the caches and the file in agreement, as it does when
    it only calls operations of the Logger. *)
Definition keeps_agreement {A : Type} (f : option (M A)) : Prop :=
  forall g w, f = Some g -> caches_agree (lg w) ->
              caches_agree (lg (snd (g w))).

(** A file that a Logger has written before, or a new one: at most one
    row of metadata, one row per stream. *)
Definition file_ok (file : Database) : Prop :=
  (List.length (metadata file) <= 1)%nat /\
  NoDup (map fst (streams_tbl file)).

(** The operation ran on an open database, or it returned. *)
Definition completes {A : Type} (m : M A) (w : World) : Prop :=
  db_open (lg w) = true \/ exists u, fst (m w) = Returned u.

(** The only timer that can still fire is the current one. *)
Definition only_current_waiting (l : Logger) : Prop :=
  forall i p, nth_error (timers l) i = Some (Waiting p) ->
              syncthread l = Some i.

(** The row was sent in an upload of [evs] that the server accepted. *)
Definition uploaded_in (rem : Remote) (evs : list event) (r : CacheRow)
    : Prop :=
  exists dps dp,
    In (EvInsertArray (c_stream r) dps) evs /\
    rem_insert_array rem (c_stream r) dps = None /\
    In dp dps /\ decodes r dp.

(** A caller that makes the calls [insert(stream, value)] one after the
    other, each at its clock, and goes on when a call raises. *)
Fixpoint insert_all (calls : list (string * pyvalue * timestamp))
    (w : World) : World :=
  match calls with
  | [] => w
  | (s, v, t) :: calls' =>
      insert_all calls' (snd (insert validate json_dumps s v t w))
  end.

(** The calls among them that returned. *)
Fixpoint returned (calls : list (string * pyvalue * timestamp))
    (w : World) : list (string * pyvalue * timestamp) :=
  match calls with
  | [] => []
  | (s, v, t) :: calls' =>
      match fst (insert validate json_dumps s v t w) with
      | Returned _ => [(s, v, t)]
      | Raised _ => []
      end ++ returned calls' (snd (insert validate json_dumps s v t w))
  end.

(** The row holds the call: its stream, its clock, its serialised
    value. *)
Definition records (call : string * pyvalue * timestamp) (r : CacheRow)
    : Prop :=
  c_stream r = fst (fst call) /\
  c_timestamp r = snd call /\
  json_dumps (snd (fst call)) = inr (c_jsondata r).

(** The object once [__init__] has loaded the row [r] of [metadata], before
    it loads the streams. *)
Definition loaded (r : MetaRow) (file : Database) : Logger :=
  with_streams []
    (with_syncperiod (m_syncperiod r)
       (with_lastsync (m_lastsynctime r)
          (with_serverurl (m_serverurl r)
             (with_apikey (m_apikey r) (blank file))))).

(** What [__init__] does after the metadata: the streams, the [apikey]
    argument, the fields of the scheduler, and then [last]. *)
Definition init_rest (apikey : option string) (last : M unit) (w0 : World)
    : outcome unit * World :=
  match load_streams json_loads (streams_tbl (database (lg w0))) w0 with
  | (Returned _, w1) =>
      match match apikey with
            | Some k => set_apikey k
            | None => ret tt
            end w1 with
      | (Returned _, w2) =>
          last (mkWorld (with_cdb None (with_timers None [] (lg w2)))
                  (trace w2))
      | (Raised e, w2) => (Raised e, w2)
      end
  | (Raised e, w1) => (Raised e, w1)
  end.

(** The keys of the dict and the keys of the [streams] table are
    unique. *)
Definition keys_ok (l : Logger) : Prop :=
  NoDup (dict_keys (streams l)) /\
  NoDup (map fst (streams_tbl (database l))).

(** A callback keeps the keys unique. *)
Definition keeps_keys {A : Type} (f : option (M A)) : Prop :=
  forall g w, f = Some g -> keys_ok (lg w) -> keys_ok (lg (snd (g w))).

(** The handle exists or can be built. *)
Definition handle_ok (rem : Remote) (l : Logger) : Prop :=
  __cdb l = None -> rem_connect rem (__apikey l) (__serverurl l) = None.

(** The step is not a call of [stop], of [close], which calls [stop], or
    of the setter of [syncperiod], which calls [__setsync]. *)
Definition leaves_schedule (a : action) : bool :=
  match a with
  | ACall OpStop => false
  | ACall OpClose => false
  | ACall (OpSetSyncperiod _) => false
  | _ => true
  end.

(** The operation calls neither [stop] nor [__setsync]. *)
Definition timer_free (o : op) : bool :=
  match o with
  | OpRunsyncer _ _ _ => false
  | OpStart _ => false
  | OpStop => false
  | OpClose => false
  | OpSetSyncperiod _ => false
  | _ => true
  end.

(** A callback leaves the timers alone. *)
Definition keeps_timers (f : option (M bool)) : Prop :=
  forall g w, f = Some g ->
    timers (lg (snd (g w))) = timers (lg w) /\
    syncthread (lg (snd (g w))) = syncthread (lg w).

(** The Logger after the application has set [apikey] to [k] and
    [serverurl] to [u]. *)
Definition rekeyed (k u : string) (w : World) : World :=
  snd (set_serverurl u (snd (set_apikey k w))).

(** * Properties *)

(** ** Worlds and the monad *)

Lemma world_eta (w : World) : mkWorld (lg w) (trace w) = w.
Proof. destruct w; reflexivity. Qed.

Lemma database_eta (d : Database) :
  mkDatabase (cache d) (streams_tbl d) (metadata d) = d.
Proof. destruct d; reflexivity. Qed.

Ltac unfold_monad :=
  unfold cursor, call, call_val, gets, modify, emit, try_except, bind, ret,
    raise in *.

(** ** [ORDER BY timestamp ASC] *)

Lemma Qle_bool_false (x y : Q) : Qle_bool x y = false -> (y <= x)%Q.
Proof.
  intros H. apply Qlt_le_weak, Qnot_le_lt. intros Hle.
  apply Qle_bool_iff in Hle. congruence.
Qed.

Lemma sort_insert_perm (r : CacheRow) (rows : list CacheRow) :
  Permutation (sort_insert r rows) (r :: rows).
Proof.
  induction rows as [|x rows IH]; simpl.
  - apply Permutation_refl.
  - destruct (Qle_bool (c_timestamp r) (c_timestamp x)).
    + apply Permutation_refl.
    + apply perm_trans with (x :: r :: rows).
      * apply perm_skip, IH.
      * apply perm_swap.
Qed.

Lemma sort_insert_sorted (r : CacheRow) (rows : list CacheRow) :
  StronglySorted ts_le rows -> StronglySorted ts_le (sort_insert r rows).
Proof.
  induction rows as [|x rows IH]; simpl; intros Hs.
  - constructor; constructor.
  - inversion Hs as [|? ? Hs' Hall]; subst.
    destruct (Qle_bool (c_timestamp r) (c_timestamp x)) eqn:Hle.
    + constructor; [exact Hs|]. apply Qle_bool_iff in Hle.
      constructor; [exact Hle|].
      eapply Forall_impl; [|exact Hall].
      intros a Ha. unfold ts_le in *. eapply Qle_trans; eassumption.
    + constructor; [apply IH, Hs'|].
      apply Permutation_Forall with (r :: rows).
      * apply Permutation_sym, sort_insert_perm.
      * constructor; [apply Qle_bool_false, Hle | exact Hall].
Qed.

Lemma order_by_timestamp_perm (rows : list CacheRow) :
  Permutation (order_by_timestamp rows) rows.
Proof.
  induction rows as [|r rows IH]; simpl.
  - constructor.
  - eapply perm_trans; [apply sort_insert_perm|]. apply perm_skip, IH.
Qed.

Lemma order_by_timestamp_sorted (rows : list CacheRow) :
  StronglySorted ts_le (order_by_timestamp rows).
Proof.
  induction rows as [|r rows IH]; simpl.
  - constructor.
  - apply sort_insert_sorted, IH.
Qed.

(** The rows that [SELECT ... WHERE stream=?] returns are the rows of that
    stream. *)
Lemma select_cache_In (stream : string) (d : Database) (r : CacheRow) :
  In r (select_cache stream d) <-> In r (cache d) /\ c_stream r = stream.
Proof.
  unfold select_cache. split.
  - intros H.
    apply (Permutation_in _ (order_by_timestamp_perm _)) in H.
    apply filter_In in H. destruct H as [H1 H2].
    split; [exact H1|]. apply String.eqb_eq, H2.
  - intros [H1 H2].
    apply (Permutation_in _ (Permutation_sym (order_by_timestamp_perm _))).
    apply filter_In. split; [exact H1|]. apply String.eqb_eq, H2.
Qed.

(** In a sorted list nothing is later than the last row. *)
Lemma sorted_last (rows : list CacheRow) (d : CacheRow) :
  StronglySorted ts_le rows ->
  forall r, In r rows -> ts_le r (last rows d).
Proof.
  induction rows as [|x rows IH]; intros Hs r Hin; [destruct Hin|].
  inversion Hs as [|? ? Hs' Hall]; subst.
  destruct rows as [|y rows].
  - destruct Hin as [<-|[]]. simpl. apply Qle_refl.
  - change (last (x :: y :: rows) d) with (last (y :: rows) d).
    destruct Hin as [<-|Hin].
    + rewrite Forall_forall in Hall. unfold ts_le.
      eapply Qle_trans; [apply (Hall y); left; reflexivity|].
      apply (IH Hs' y). left; reflexivity.
    + apply IH; assumption.
Qed.

(** ** Lists *)

Lemma Forall2_last {A B : Type} (R : A -> B -> Prop) (l : list A)
    (l' : list B) (a : A) (b : B) :
  Forall2 R l l' -> l <> [] -> R (last l a) (last l' b).
Proof.
  induction 1 as [|x y l l' Hxy Hall IH]; intros Hne; [congruence|].
  destruct Hall as [|x' y' l l' Hxy' Hall].
  - exact Hxy.
  - change (R (last (x' :: l) a) (last (y' :: l') b)).
    apply IH. discriminate.
Qed.

Lemma filter_filter_weaker {A : Type} (f g : A -> bool) (l : list A) :
  (forall x, f x = true -> g x = true) ->
  filter f (filter g l) = filter f l.
Proof.
  intros Himp. induction l as [|x l IH]; simpl; [reflexivity|].
  destruct (g x) eqn:Hg; simpl.
  - rewrite IH. reflexivity.
  - destruct (f x) eqn:Hf; [|exact IH].
    apply Himp in Hf. congruence.
Qed.




(** What [len(logger)] answers on an open database. *)
Lemma len_open (w : World) :
  db_open (lg w) = true ->
  __len__ w = (Returned (List.length (cache (database (lg w)))), w).
Proof.
  intros Hopen. unfold __len__, count_cache. unfold_monad.
  rewrite Hopen. reflexivity.
Qed.

(** ** [insert] *)

Lemma insert_unregistered (streamname : string) (value : pyvalue)
    (now : timestamp) (w : World) :
  dict_get streamname (streams (lg w)) = None ->
  insert validate json_dumps streamname value now w =
    (Raised (Exception ("The stream '" ++ streamname ++ "' was not found")%string),
     w).
Proof.
  intros Hget. unfold insert. unfold_monad. rewrite Hget. reflexivity.
Qed.

Lemma insert_invalid (streamname : string) (value schema : pyvalue)
    (e : exn) (now : timestamp) (w : World) :
  dict_get streamname (streams (lg w)) = Some schema ->
  validate value schema = Some e ->
  insert validate json_dumps streamname value now w = (Raised e, w).
Proof.
  intros Hget Hval. unfold insert. unfold_monad.
  rewrite Hget, Hval. reflexivity.
Qed.

Lemma insert_valid (streamname : string) (value schema : pyvalue)
    (js : string) (now : timestamp) (w : World) :
  dict_get streamname (streams (lg w)) = Some schema ->
  validate value schema = None ->
  json_dumps value = inr js ->
  db_open (lg w) = true ->
  insert validate json_dumps streamname value now w =
    (Returned tt, buffered streamname now js w).
Proof.
  intros Hget Hval Hjs Hopen. unfold insert. unfold_monad.
  rewrite Hget; cbv beta iota. rewrite Hval; cbv beta iota.
  rewrite Hjs; cbv beta iota. rewrite Hopen. reflexivity.
Qed.

(** Whatever [insert] does, it either raises and leaves the world as it
    was, or returns and has buffered one row made of the stream name, the
    clock and the serialised value. *)
Lemma insert_cases (streamname : string) (value : pyvalue)
    (now : timestamp) (w : World) :
  (exists e, insert validate json_dumps streamname value now w
             = (Raised e, w)) \/
  (exists schema js,
     dict_get streamname (streams (lg w)) = Some schema /\
     validate value schema = None /\
     json_dumps value = inr js /\
     db_open (lg w) = true /\
     insert validate json_dumps streamname value now w
       = (Returned tt, buffered streamname now js w)).
Proof.
  unfold insert. unfold_monad.
  destruct (dict_get streamname (streams (lg w))) as [schema|] eqn:Hget;
    [|left; eauto].
  destruct (validate value schema) as [e|] eqn:Hval; [left; eauto|].
  destruct (json_dumps value) as [e|js] eqn:Hjs; [left; eauto|].
  destruct (db_open (lg w)) eqn:Hopen; [|left; eauto].
  right. exists schema, js. repeat split; auto.
Qed.

(** C5. [insert(streamname, value)]: an unregistered stream raises the
    exception whose message names the stream; a value that [validate]
    rejects raises the validation error; after either of them, and after
    any other raise, the world is the one before the call, so nothing is
    buffered and [len(logger)] is unchanged; a value that [validate]
    accepts and [json.dumps] serialises, for a registered stream on an
    open database, is buffered: [insert] returns; whenever [insert]
    returns, the stream is registered, the value was accepted, the cache
    is the old one followed by the one row (stream, clock, serialised
    value) and [len(logger)] is one more; in every case the trace of
    requests to the server is unchanged. *)
Theorem insert_spec (streamname : string) (value : pyvalue)
    (now : timestamp) (w : World) :
  (dict_get streamname (streams (lg w)) = None ->
   insert validate json_dumps streamname value now w =
     (Raised (Exception
                ("The stream '" ++ streamname ++ "' was not found")%string),
      w)) /\
  (forall schema e,
     dict_get streamname (streams (lg w)) = Some schema ->
     validate value schema = Some e ->
     insert validate json_dumps streamname value now w = (Raised e, w)) /\
  (forall e w',
     insert validate json_dumps streamname value now w = (Raised e, w') ->
     w' = w /\ __len__ w' = __len__ w) /\
  (forall schema js,
     dict_get streamname (streams (lg w)) = Some schema ->
     validate value schema = None ->
     json_dumps value = inr js ->
     db_open (lg w) = true ->
     insert validate json_dumps streamname value now w =
       (Returned tt, buffered streamname now js w)) /\
  (forall u w',
     insert validate json_dumps streamname value now w = (Returned u, w') ->
     exists schema js,
       dict_get streamname (streams (lg w)) = Some schema /\
       validate value schema = None /\
       json_dumps value = inr js /\
       cache (database (lg w')) =
         cache (database (lg w)) ++ [mkCacheRow streamname now js] /\
       streams_tbl (database (lg w')) = streams_tbl (database (lg w)) /\
       metadata (database (lg w')) = metadata (database (lg w)) /\
       __len__ w = (Returned (List.length (cache (database (lg w)))), w) /\
       __len__ w' =
         (Returned (S (List.length (cache (database (lg w))))), w')) /\
  trace (snd (insert validate json_dumps streamname value now w)) = trace w.
Proof.
  split; [apply insert_unregistered|].
  split; [intros schema e; apply insert_invalid|].
  assert (Hvalid : forall schema js,
            dict_get streamname (streams (lg w)) = Some schema ->
            validate value schema = None ->
            json_dumps value = inr js ->
            db_open (lg w) = true ->
            insert validate json_dumps streamname value now w =
              (Returned tt, buffered streamname now js w))
    by (intros schema js; apply insert_valid).
  destruct (insert_cases streamname value now w)
    as [[e0 He]|(schema & js & Hget & Hval & Hjs & Hopen & Hins)].
  - split; [|split; [exact Hvalid|]].
    + intros e w' H. rewrite He in H. inversion H; subst. split; reflexivity.
    + rewrite He. split; [|reflexivity].
      intros u w' H. discriminate H.
  - split; [|split; [exact Hvalid|]].
    + intros e w' H. rewrite Hins in H. discriminate H.
    + rewrite Hins. split; [|reflexivity].
      intros u w' H. inversion H; subst w'. exists schema, js.
      split; [exact Hget|]. split; [exact Hval|].
      split; [exact Hjs|]. split; [reflexivity|].
      split; [reflexivity|]. split; [reflexivity|].
      split; [apply len_open; exact Hopen|].
      rewrite len_open by exact Hopen.
      simpl. rewrite length_app. simpl. rewrite Nat.add_1_r. reflexivity.
Qed.

(** ** One stream of a sync cycle *)

Lemma load_datapoints_Forall2 (rows : list CacheRow) (dps : list datapoint) :
  load_datapoints json_loads rows = inr dps -> Forall2 decodes rows dps.
Proof.
  revert dps. induction rows as [|r rows IH]; simpl; intros dps H.
  - inversion H. constructor.
  - destruct (json_loads (c_jsondata r)) as [e|d] eqn:Hd; [discriminate|].
    destruct (load_datapoints json_loads rows) as [e|rest]; [discriminate|].
    inversion H; subst. constructor; [|apply IH; reflexivity].
    split; [reflexivity|exact Hd].
Qed.


Lemma sync_stream_upload (rem : Remote) (env : Interference)
    (stream : string) (w : World) (dp0 : datapoint) (dps : list datapoint) :
  rem_exists rem stream = true ->
  load_datapoints json_loads (fetched env stream w) = inr (dp0 :: dps) ->
  rem_insert_array rem stream (dp0 :: dps) = None ->
  sync_stream json_loads rem env stream w =
    (Returned tt,
     uploaded env stream (dp0 :: dps) (dp_t (last (dp0 :: dps) dp0)) w).
Proof.
  intros Hex Hload Hins. unfold sync_stream, concurrent_inserts.
  unfold_monad. rewrite Hex. cbn [lg trace].
  unfold fetched in Hload. rewrite Hload. cbn [lg trace].
  rewrite Hins. unfold uploaded. cbn [lg trace].
  rewrite <- app_assoc. reflexivity.
Qed.

(** C1. When the upload of a stream succeeds, the cache after that
    stream's step is the cache as it was at the [DELETE] (the rows at the
    start, the rows that arrived before the [SELECT] and the rows that
    arrived after it) without the rows of that stream whose timestamp is
    at most the timestamp of the last uploaded datapoint: a row is kept
    exactly when it is of another stream or strictly later; every row
    that was uploaded is among the deleted ones; the rows of the other
    streams are the same rows in the same order. *)
Theorem sync_stream_deletes (rem : Remote) (env : Interference)
    (stream : string) (w : World) (dp0 : datapoint) (dps : list datapoint) :
  rem_exists rem stream = true ->
  load_datapoints json_loads (fetched env stream w) = inr (dp0 :: dps) ->
  rem_insert_array rem stream (dp0 :: dps) = None ->
  let t := dp_t (last (dp0 :: dps) dp0) in
  let pending := (cache (database (lg w)) ++ before_select env stream)
                 ++ before_delete env stream in
  exists w',
    sync_stream json_loads rem env stream w = (Returned tt, w') /\
    cache (database (lg w')) =
      filter (fun r => negb (delete_matches stream t r)) pending /\
    (forall r, In r pending ->
       (In r (cache (database (lg w'))) <->
        ~ (c_stream r = stream /\ (c_timestamp r <= t)%Q))) /\
    (forall r, In r (fetched env stream w) ->
       c_stream r = stream /\ (c_timestamp r <= t)%Q /\
       ~ In r (cache (database (lg w')))) /\
    filter (fun r => negb (stream_is stream r)) (cache (database (lg w'))) =
      filter (fun r => negb (stream_is stream r)) pending.
Proof.
  intros Hex Hload Hins t pending.
  exists (uploaded env stream (dp0 :: dps) t w).
  split; [apply sync_stream_upload; assumption|].
  assert (Hcache : cache (database (lg (uploaded env stream (dp0 :: dps) t w)))
                   = filter (fun r => negb (delete_matches stream t r)) pending)
    by reflexivity.
  assert (Hkeep : forall r,
            negb (delete_matches stream t r) = true <->
            ~ (c_stream r = stream /\ (c_timestamp r <= t)%Q)).
  { intros r. unfold delete_matches, stream_is.
    rewrite negb_true_iff, andb_false_iff.
    rewrite <- not_true_iff_false, String.eqb_eq.
    rewrite <- not_true_iff_false, Qle_bool_iff.
    split; [intros [H|H] [H1 H2]; contradiction|].
    intros H. destruct (String.eqb_spec (c_stream r) stream) as [Heq|Hne];
      [|left; exact Hne].
    right. intros Hle. apply H. split; assumption. }
  split; [exact Hcache|]. split; [|split].
  - intros r Hin. rewrite Hcache, filter_In, Hkeep. tauto.
  - intros r Hin.
    assert (Hstream : c_stream r = stream).
    { apply select_cache_In in Hin. apply Hin. }
    assert (Hle : (c_timestamp r <= t)%Q).
    { pose proof (load_datapoints_Forall2 _ _ Hload) as Hall.
      assert (Hne : fetched env stream w <> []) by (intros E; rewrite E in Hin; destruct Hin).
      destruct (Forall2_last decodes _ _ r dp0 Hall Hne) as [Ht _].
      unfold t. rewrite Ht.
      apply (sorted_last _ r); [apply order_by_timestamp_sorted|exact Hin]. }
    split; [exact Hstream|]. split; [exact Hle|].
    rewrite Hcache, filter_In, Hkeep. tauto.
  - rewrite Hcache. apply filter_filter_weaker.
    intros r Hr. unfold delete_matches.
    apply negb_true_iff in Hr. rewrite Hr. reflexivity.
Qed.

(** ** What a sync cycle can change *)

Lemma set_cache_same (l : Logger) : set_cache (cache (database l)) l = l.
Proof. destruct l as [[c s m] o k u ls sp st h th ts]; reflexivity. Qed.

Lemma with_cdb_same (l : Logger) : with_cdb (__cdb l) l = l.
Proof. destruct l as [[c s m] o k u ls sp st h th ts]; reflexivity. Qed.


(** The step of one stream changes nothing but the [cache] table, and
    sends requests about that stream only. *)
Lemma sync_stream_frame (rem : Remote) (env : Interference)
    (stream : string) (w : World) :
  exists c evs,
    snd (sync_stream json_loads rem env stream w) =
      mkWorld (set_cache c (lg w)) (trace w ++ evs) /\
    Forall (about stream) evs.
Proof.
  unfold sync_stream, concurrent_inserts. unfold_monad.
  destruct (rem_exists rem stream); cbn [lg trace].
  - destruct (load_datapoints json_loads _) as [e|[|dp0 dps]];
      cbn [lg trace snd].
    + eexists _, [EvExists stream]. split; [reflexivity|].
      repeat constructor.
    + eexists _, [EvExists stream]. split; [reflexivity|].
      repeat constructor.
    + destruct (rem_insert_array rem stream (dp0 :: dps));
        cbn [lg trace snd].
      * eexists _, [EvExists stream; EvInsertArray stream (dp0 :: dps)].
        split; [rewrite <- app_assoc; reflexivity|].
        constructor; [left; reflexivity|].
        constructor; [right; eexists; reflexivity|constructor].
      * eexists _, [EvExists stream; EvInsertArray stream (dp0 :: dps)].
        split; [rewrite <- app_assoc; reflexivity|].
        constructor; [left; reflexivity|].
        constructor; [right; eexists; reflexivity|constructor].
  - exists (cache (database (lg w))), [EvExists stream]. split.
    + cbn [snd]. rewrite set_cache_same. reflexivity.
    + repeat constructor.
Qed.

Lemma sync_streams_frame (rem : Remote) (env : Interference)
    (names : list string) (w : World) :
  exists c evs,
    snd (sync_streams json_loads rem env names w) =
      mkWorld (set_cache c (lg w)) (trace w ++ evs) /\
    Forall (fun ev => exists s, In s names /\ about s ev) evs.
Proof.
  revert w. induction names as [|s names IH]; intros w.
  - exists (cache (database (lg w))), []. split; [|constructor].
    simpl. unfold ret. cbn [snd].
    rewrite set_cache_same, app_nil_r. apply eq_sym, world_eta.
  - simpl. unfold bind.
    destruct (sync_stream_frame rem env s w) as (c & evs & Hw & Hevs).
    destruct (sync_stream json_loads rem env s w) as [[u|e] w1];
      cbn [snd] in Hw; subst w1.
    + destruct (IH (mkWorld (set_cache c (lg w)) (trace w ++ evs)))
        as (c' & evs' & Hw' & Hevs').
      exists c', (evs ++ evs'). split.
      * rewrite Hw'. cbn [lg trace]. rewrite app_assoc. reflexivity.
      * apply Forall_app. split.
        -- eapply Forall_impl; [|exact Hevs].
           intros ev Hev. exists s. split; [left; reflexivity|exact Hev].
        -- eapply Forall_impl; [|exact Hevs'].
           intros ev (s' & Hin & Hev). exists s'.
           split; [right; exact Hin|exact Hev].
    + exists c, evs. split; [reflexivity|].
      eapply Forall_impl; [|exact Hevs].
      intros ev Hev. exists s. split; [left; reflexivity|exact Hev].
Qed.

(** ** The start of a cycle: the handle and the ping *)

Lemma connected_set_cache (w : World) :
  exists h, lg (connected w) = with_cdb h (lg w).
Proof.
  unfold connected. destruct (__cdb (lg w)) as [h|] eqn:Hh; cbn [lg].
  - exists (Some h). rewrite <- Hh, with_cdb_same. reflexivity.
  - eexists. reflexivity.
Qed.

Lemma sync_cycle_reachable (rem : Remote) (env : Interference)
    (now : timestamp) (w : World) :
  reachable rem (lg w) ->
  db_open (lg w) = true ->
  sync_cycle json_loads rem env now w =
    (sync_streams json_loads rem env (dict_keys (streams (lg w))) ;;
     set_lastsynctime (PyFloat now)) (connected w).
Proof.
  intros [Hconn Hping] Hopen.
  unfold sync_cycle, connectordb, connected. unfold_monad.
  destruct (__cdb (lg w)) as [h|]; cbn [lg trace].
  - rewrite Hping. cbn [lg trace]. rewrite Hopen. reflexivity.
  - rewrite (Hconn eq_refl). cbn [lg trace].
    rewrite Hping. cbn [lg trace db_open with_cdb]. rewrite Hopen.
    reflexivity.
Qed.

(** When the handle cannot be built or the ping fails, the cycle raises
    that error at once; only the handle can have changed. *)
Lemma sync_cycle_unreachable (rem : Remote) (env : Interference)
    (now : timestamp) (w : World) (e : exn) :
  connect_fails rem (lg w) e \/ ping_fails rem (lg w) e ->
  exists h evs,
    sync_cycle json_loads rem env now w =
      (Raised e, mkWorld (with_cdb h (lg w)) (trace w ++ evs)).
Proof.
  intros [[Hnone Hconn]|[Hconn Hping]];
    unfold sync_cycle, connectordb; unfold_monad.
  - rewrite Hnone. cbn [lg trace]. rewrite Hconn.
    exists None, [EvConnect (__apikey (lg w)) (__serverurl (lg w))].
    rewrite <- Hnone, with_cdb_same. reflexivity.
  - destruct (__cdb (lg w)) as [h|] eqn:Hh; cbn [lg trace].
    + rewrite Hping. exists (Some h), [EvPing].
      rewrite <- Hh, with_cdb_same. reflexivity.
    + rewrite (Hconn eq_refl). cbn [lg trace]. rewrite Hping.
      eexists _, [_; _]. rewrite <- app_assoc. reflexivity.
Qed.

Lemma set_lastsynctime_open (now : timestamp) (w : World) :
  db_open (lg w) = true ->
  set_lastsynctime (PyFloat now) w
    = (Returned tt, mkWorld (advance now (lg w)) (trace w)).
Proof.
  intros Hopen. unfold set_lastsynctime. unfold_monad.
  cbn [lg trace number_value bind_real].
  change (db_open (with_lastsync now (lg w))) with (db_open (lg w)).
  rewrite Hopen. reflexivity.
Qed.

(** A cycle on a closed database raises after the ping. *)
Lemma sync_cycle_closed (rem : Remote) (env : Interference)
    (now : timestamp) (w : World) :
  reachable rem (lg w) ->
  db_open (lg w) = false ->
  sync_cycle json_loads rem env now w =
    (Raised (Raise "ConnectionClosedError" "The connection has been closed"),
     connected w).
Proof.
  intros [Hconn Hping] Hopen.
  unfold sync_cycle, connectordb, connected. unfold_monad.
  destruct (__cdb (lg w)) as [h|]; cbn [lg trace].
  - rewrite Hping. cbn [lg trace]. rewrite Hopen. reflexivity.
  - rewrite (Hconn eq_refl). cbn [lg trace].
    rewrite Hping. cbn [lg trace db_open with_cdb]. rewrite Hopen.
    reflexivity.
Qed.

Lemma reachable_dec (rem : Remote) (l : Logger) :
  reachable rem l \/ exists e, connect_fails rem l e \/ ping_fails rem l e.
Proof.
  unfold reachable, connect_fails, ping_fails.
  destruct (__cdb l) as [h|].
  - destruct (rem_ping rem) as [e|].
    + right. exists e. right. split; [discriminate|reflexivity].
    + left. split; [discriminate|reflexivity].
  - destruct (rem_connect rem (__apikey l) (__serverurl l)) as [e|].
    + right. exists e. left. split; reflexivity.
    + destruct (rem_ping rem) as [e|].
      * right. exists e. right. split; reflexivity.
      * left. split; reflexivity.
Qed.

(** A cycle that raises has changed nothing but the [cache] table and the
    handle; a cycle that returns has moreover set [lastsynctime]. *)
Lemma sync_cycle_cases (rem : Remote) (env : Interference)
    (now : timestamp) (w : World) :
  (exists e h c w1,
     sync_cycle json_loads rem env now w = (Raised e, w1) /\
     lg w1 = with_cdb h (set_cache c (lg w))) \/
  (exists h c w1,
     sync_cycle json_loads rem env now w = (Returned tt, w1) /\
     db_open (lg w) = true /\
     lg w1 = advance now (with_cdb h (set_cache c (lg w)))).
Proof.
  destruct (reachable_dec rem (lg w)) as [Hreach|[e Hfail]].
  - destruct (db_open (lg w)) eqn:Hopen.
    + rewrite (sync_cycle_reachable rem env now w Hreach Hopen).
      unfold bind.
      destruct (sync_streams_frame rem env (dict_keys (streams (lg w)))
                  (connected w)) as (c & evs & Hw & _).
      destruct (connected_set_cache w) as [h Hh].
      destruct (sync_streams json_loads rem env _ (connected w))
        as [[[]|e] w1]; cbn [snd] in Hw; subst w1.
      * right. exists h, c. eexists. split; [|split; [reflexivity|]].
        -- apply set_lastsynctime_open. cbn [lg].
           rewrite Hh. exact Hopen.
        -- cbn [lg]. rewrite Hh. reflexivity.
      * left. exists e, h, c. eexists. split; [reflexivity|].
        cbn [lg]. rewrite Hh. reflexivity.
    + left. rewrite (sync_cycle_closed rem env now w Hreach Hopen).
      destruct (connected_set_cache w) as [h Hh].
      eexists _, h, (cache (database (lg w))), _. split; [reflexivity|].
      rewrite set_cache_same. exact Hh.
  - left.
    destruct (sync_cycle_unreachable rem env now w e Hfail) as (h & evs & H).
    exists e, h, (cache (database (lg w))). eexists. split; [exact H|].
    cbn [lg]. rewrite set_cache_same. reflexivity.
Qed.

Lemma sync_cycle_raised (rem : Remote) (env : Interference)
    (now : timestamp) (w w1 : World) (e : exn) :
  sync_cycle json_loads rem env now w = (Raised e, w1) ->
  exists h c, lg w1 = with_cdb h (set_cache c (lg w)).
Proof.
  intros H.
  destruct (sync_cycle_cases rem env now w)
    as [(e' & h & c & w1' & H' & Hl)|(h & c & w1' & H' & _)];
    rewrite H in H'; inversion H'; subst.
  exists h, c. exact Hl.
Qed.

(** ** The failure policy of [sync] *)

(** Without a callback, [sync] is its [try] block: the bare [except]
    re-raises. *)
Lemma sync_no_handler (rem : Remote) (env : Interference)
    (now : timestamp) (w : World) :
  sync json_loads None rem env now w = sync_cycle json_loads rem env now w.
Proof.
  unfold sync, try_except, raise.
  destruct (sync_cycle json_loads rem env now w) as [[[]|e] w1]; reflexivity.
Qed.

Lemma len_same (w w' : World) :
  database (lg w') = database (lg w) ->
  db_open (lg w') = db_open (lg w) ->
  fst (__len__ w') = fst (__len__ w).
Proof.
  intros Hdb Hopen. unfold __len__. unfold_monad.
  rewrite Hopen. destruct (db_open (lg w)); cbn [fst lg]; [|reflexivity].
  rewrite Hdb. reflexivity.
Qed.

(** C3. When the handle cannot be obtained or the first ping fails and
    there is no [onsyncfail] callback, [sync] raises that error and the
    sqlite file is what it was: the three tables are unchanged, so no
    pending point was deleted or added, [len(logger)] answers the same,
    and [lastsynctime] is the same in the object and in the file. *)
Theorem sync_unreachable_unchanged (rem : Remote) (env : Interference)
    (now : timestamp) (w : World) (e : exn) :
  connect_fails rem (lg w) e \/ ping_fails rem (lg w) e ->
  exists w',
    sync json_loads None rem env now w = (Raised e, w') /\
    database (lg w') = database (lg w) /\
    fst (__len__ w') = fst (__len__ w) /\
    __lastsync (lg w') = __lastsync (lg w) /\
    streams (lg w') = streams (lg w).
Proof.
  intros Hfail.
  destruct (sync_cycle_unreachable rem env now w e Hfail) as (h & evs & H).
  eexists. rewrite sync_no_handler. split; [exact H|].
  cbn [lg]. split; [reflexivity|]. split; [|split; reflexivity].
  apply len_same; reflexivity.
Qed.

(** C4. Whatever exception [e] the [try] block of [sync] raises, leaving
    the world [w1]: without a callback [sync] raises [e]; with a callback,
    the callback runs on the Logger as the failure left it, [sync] raises
    [e] when the callback returns true and returns when it returns false,
    in the world the callback left; and the failed block has not touched
    [lastsynctime], in the object or in the file. *)
Theorem sync_failure_policy (rem : Remote) (env : Interference)
    (now : timestamp) (w w1 : World) (e : exn) :
  sync_cycle json_loads rem env now w = (Raised e, w1) ->
  sync json_loads None rem env now w = (Raised e, w1) /\
  (forall handler w2,
     handler w1 = (Returned true, w2) ->
     sync json_loads (Some handler) rem env now w = (Raised e, w2)) /\
  (forall handler w2,
     handler w1 = (Returned false, w2) ->
     sync json_loads (Some handler) rem env now w = (Returned tt, w2)) /\
  __lastsync (lg w1) = __lastsync (lg w) /\
  metadata (database (lg w1)) = metadata (database (lg w)).
Proof.
  intros Hcycle.
  split; [rewrite sync_no_handler; exact Hcycle|].
  split; [|split].
  - intros handler w2 Hh. unfold sync, try_except, bind.
    rewrite Hcycle, Hh. reflexivity.
  - intros handler w2 Hh. unfold sync, try_except, bind.
    rewrite Hcycle, Hh. reflexivity.
  - destruct (sync_cycle_raised rem env now w w1 e Hcycle) as (h & c & Hl).
    rewrite Hl. split; reflexivity.
Qed.

(** C10. When the [try] block of [sync] raises [e] and the callback
    itself raises [e'], [sync] raises [e']: its outcome and its final
    world are those of the callback, nothing of [e] is left in them, and
    the failed block has not touched [lastsynctime]. *)
Theorem sync_handler_raises (rem : Remote) (env : Interference)
    (now : timestamp) (w w1 w2 : World) (e e' : exn) (handler : M bool) :
  sync_cycle json_loads rem env now w = (Raised e, w1) ->
  handler w1 = (Raised e', w2) ->
  sync json_loads (Some handler) rem env now w = (Raised e', w2) /\
  __lastsync (lg w1) = __lastsync (lg w) /\
  metadata (database (lg w1)) = metadata (database (lg w)).
Proof.
  intros Hcycle Hh. split.
  - unfold sync, try_except, bind. rewrite Hcycle, Hh. reflexivity.
  - destruct (sync_cycle_raised rem env now w w1 e Hcycle) as (h & c & Hl).
    rewrite Hl. split; reflexivity.
Qed.

(** ** A stream that does not exist on the server *)

Lemma sync_stream_missing (rem : Remote) (env : Interference)
    (stream : string) (w : World) :
  rem_exists rem stream = false ->
  sync_stream json_loads rem env stream w =
    (Raised (Exception ("Stream " ++ stream ++ " does not exist!")%string),
     mkWorld (lg w) (trace w ++ [EvExists stream])).
Proof.
  intros Hex. unfold sync_stream. unfold_monad. rewrite Hex. reflexivity.
Qed.

Lemma sync_streams_app (rem : Remote) (env : Interference)
    (pre post : list string) (w : World) :
  sync_streams json_loads rem env (pre ++ post) w =
    (sync_streams json_loads rem env pre ;;
     sync_streams json_loads rem env post) w.
Proof.
  revert w. induction pre as [|s pre IH]; intros w; simpl.
  - reflexivity.
  - unfold bind in *.
    destruct (sync_stream json_loads rem env s w) as [[u|e] w1];
      [apply IH|reflexivity].
Qed.

(** The step of one stream deletes no row of another stream. *)
Lemma sync_stream_keeps (rem : Remote) (env : Interference)
    (stream : string) (w : World) (r : CacheRow) :
  In r (cache (database (lg w))) ->
  c_stream r <> stream ->
  In r (cache (database (lg (snd (sync_stream json_loads rem env stream w))))).
Proof.
  intros Hin Hne. unfold sync_stream, concurrent_inserts. unfold_monad.
  destruct (rem_exists rem stream); cbn [lg trace]; [|exact Hin].
  destruct (load_datapoints json_loads _) as [e|[|dp0 dps]];
    cbn [lg trace snd].
  - simpl. apply in_or_app. left. exact Hin.
  - simpl. apply in_or_app. left. exact Hin.
  - destruct (rem_insert_array rem stream (dp0 :: dps)); cbn [lg trace snd].
    + simpl. apply in_or_app. left. exact Hin.
    + simpl. apply filter_In. split.
      * apply in_or_app. left. apply in_or_app. left. exact Hin.
      * unfold delete_matches, stream_is.
        apply String.eqb_neq in Hne. rewrite Hne. reflexivity.
Qed.

Lemma sync_streams_keeps (rem : Remote) (env : Interference)
    (names : list string) (w : World) (r : CacheRow) :
  In r (cache (database (lg w))) ->
  ~ In (c_stream r) names ->
  In r (cache (database
                (lg (snd (sync_streams json_loads rem env names w))))).
Proof.
  revert w. induction names as [|s names IH]; intros w Hin Hnot.
  - exact Hin.
  - simpl. unfold bind.
    pose proof (sync_stream_keeps rem env s w r Hin) as Hkeep.
    destruct (sync_stream json_loads rem env s w) as [[u|e] w1];
      cbn [snd] in *.
    + apply IH.
      * apply Hkeep. intros E. apply Hnot. left. symmetry. exact E.
      * intros H. apply Hnot. right. exact H.
    + apply Hkeep. intros E. apply Hnot. left. symmetry. exact E.
Qed.

Lemma about_upload (s s' : string) (dps : list datapoint) :
  about s' (EvInsertArray s dps) -> s = s'.
Proof.
  intros [H|[dps' H]]; [discriminate|]. inversion H. reflexivity.
Qed.

Lemma connected_trace (w : World) (s : string) (dps : list datapoint) :
  In (EvInsertArray s dps) (trace (connected w)) ->
  In (EvInsertArray s dps) (trace w).
Proof.
  unfold connected. destruct (__cdb (lg w)); cbn [trace]; intros H.
  - apply in_app_or in H. destruct H as [H|[H|[]]]; [exact H|discriminate].
  - apply in_app_or in H. destruct H as [H|[H|[]]]; [|discriminate].
    apply in_app_or in H. destruct H as [H|[H|[]]]; [exact H|discriminate].
Qed.

(** C7. A cycle on a reachable server and an open database, where the
    streams before [stream] in the iteration were processed and [stream]
    does not exist on the server: the [try] block, and [sync] when there
    is no callback, raise the exception whose message names [stream], at
    once, in the world the earlier streams left (their deletions stay); for [stream] and every stream after it no
    upload was sent and every row is still in the cache; [lastsynctime] is
    unchanged in the object and in the file. *)
Theorem sync_missing_stream (rem : Remote) (env : Interference)
    (now : timestamp) (w w1 : World) (pre post : list string)
    (stream : string) :
  reachable rem (lg w) ->
  db_open (lg w) = true ->
  dict_keys (streams (lg w)) = pre ++ stream :: post ->
  NoDup (dict_keys (streams (lg w))) ->
  sync_streams json_loads rem env pre (connected w) = (Returned tt, w1) ->
  rem_exists rem stream = false ->
  let e := Exception ("Stream " ++ stream ++ " does not exist!")%string in
  let w' := mkWorld (lg w1) (trace w1 ++ [EvExists stream]) in
  sync_cycle json_loads rem env now w = (Raised e, w') /\
  sync json_loads None rem env now w = (Raised e, w') /\
  (forall s, In s (stream :: post) ->
     (forall dps, In (EvInsertArray s dps) (trace w') ->
                  In (EvInsertArray s dps) (trace w)) /\
     (forall r, In r (cache (database (lg w))) -> c_stream r = s ->
                In r (cache (database (lg w'))))) /\
  cache (database (lg w')) = cache (database (lg w1)) /\
  __lastsync (lg w') = __lastsync (lg w) /\
  metadata (database (lg w')) = metadata (database (lg w)).
Proof.
  intros Hreach Hopen Hkeys Hnodup Hpre Hex e w'.
  assert (Hcycle : sync_cycle json_loads rem env now w = (Raised e, w')).
  { rewrite (sync_cycle_reachable rem env now w Hreach Hopen), Hkeys.
    unfold bind at 1. rewrite sync_streams_app. unfold bind at 1.
    rewrite Hpre. simpl. unfold bind at 1.
    rewrite (sync_stream_missing rem env stream w1 Hex). reflexivity. }
  assert (Hnotpre : forall s, In s (stream :: post) -> ~ In s pre).
  { intros s Hs Hin. rewrite Hkeys in Hnodup.
    apply NoDup_app_remove_l in Hnodup as Hpost.
    clear Hpost. revert Hnodup Hin Hs. clear. intros Hnodup Hin Hs.
    induction pre as [|p pre IH]; [destruct Hin|].
    simpl in Hnodup. inversion Hnodup as [|? ? Hnotin Hrest]; subst.
    destruct Hin as [->|Hin].
    - apply Hnotin. apply in_or_app. right. exact Hs.
    - apply IH; assumption. }
  split; [exact Hcycle|].
  split; [rewrite sync_no_handler; exact Hcycle|].
  destruct (sync_streams_frame rem env pre (connected w))
    as (c & evs & Hw & Hevs).
  rewrite Hpre in Hw. cbn [snd] in Hw.
  split; [|split; [reflexivity|]].
  - intros s Hs. split.
    + intros dps Hin. unfold w' in Hin. cbn [trace] in Hin.
      apply in_app_or in Hin. destruct Hin as [Hin|[Hin|[]]];
        [|discriminate].
      rewrite Hw in Hin. cbn [trace] in Hin.
      apply in_app_or in Hin. destruct Hin as [Hin|Hin].
      * apply connected_trace. exact Hin.
      * exfalso. rewrite Forall_forall in Hevs.
        destruct (Hevs _ Hin) as (s' & Hs' & Habout).
        apply about_upload in Habout. subst s'.
        exact (Hnotpre s Hs Hs').
    + intros r Hin Hr. unfold w'. cbn [lg].
      pose proof (sync_streams_keeps rem env pre (connected w) r) as Hkeep.
      rewrite Hpre in Hkeep. cbn [snd] in Hkeep. apply Hkeep.
      * destruct (connected_set_cache w) as [h Hh]. rewrite Hh. exact Hin.
      * rewrite Hr. apply Hnotpre. exact Hs.
  - destruct (sync_cycle_raised rem env now w w' e Hcycle) as (h & c' & Hl).
    rewrite Hl. split; reflexivity.
Qed.

(** ** A whole cycle without concurrent inserts *)












Lemma connected_events (w : World) :
  exists cev,
    trace (connected w) = trace w ++ cev /\
    forall s, uploads_for s cev = [].
Proof.
  unfold connected. destruct (__cdb (lg w)); cbn [trace].
  - exists [EvPing]. split; reflexivity.
  - eexists [_; _]. split; [rewrite <- app_assoc; reflexivity|reflexivity].
Qed.





Lemma Forall2_In_l {A B : Type} (R : A -> B -> Prop) (l : list A)
    (l' : list B) (a : A) :
  Forall2 R l l' -> In a l -> exists b, In b l' /\ R a b.
Proof.
  induction 1 as [|x y l l' Hxy Hall IH]; intros Hin; [destruct Hin|].
  destruct Hin as [<-|Hin].
  - exists y. split; [left; reflexivity|exact Hxy].
  - destruct (IH Hin) as (b & Hb & HR). exists b.
    split; [right; exact Hb|exact HR].
Qed.


(** ** The caches and the file *)

Lemma dict_get_set {V : Type} (k n : string) (v : V)
    (d : list (string * V)) :
  dict_get n (dict_set k v d) =
    if String.eqb k n then Some v else dict_get n d.
Proof.
  induction d as [|[k' v'] d IH]; simpl.
  - reflexivity.
  - destruct (String.eqb_spec k' k) as [->|Hne]; simpl.
    + destruct (String.eqb k n); reflexivity.
    + rewrite IH. destruct (String.eqb_spec k n) as [->|Hne'].
      * apply String.eqb_neq in Hne. rewrite Hne. reflexivity.
      * reflexivity.
Qed.

Lemma tbl_get_app (n : string) (rows rows' : list (string * string)) :
  tbl_get n (rows ++ rows') =
    match tbl_get n rows with
    | Some v => Some v
    | None => tbl_get n rows'
    end.
Proof.
  induction rows as [|[k v] rows IH]; simpl; [reflexivity|].
  destruct (String.eqb k n); [reflexivity|exact IH].
Qed.

Lemma tbl_get_replace (k n js : string) (rows : list (string * string)) :
  tbl_get n (filter (fun r => negb (String.eqb (fst r) k)) rows
             ++ [(k, js)]) =
    if String.eqb k n then Some js else tbl_get n rows.
Proof.
  rewrite tbl_get_app. induction rows as [|[k' v'] rows IH]; simpl in *.
  - destruct (String.eqb k n); reflexivity.
  - destruct (String.eqb_spec k' k) as [->|Hne]; simpl.
    + rewrite IH. destruct (String.eqb k n); reflexivity.
    + destruct (String.eqb_spec k' n) as [->|Hne'].
      * apply not_eq_sym, String.eqb_neq in Hne. rewrite Hne. reflexivity.
      * exact IH.
Qed.

(** Agreement looks at the cached properties, the dict and two tables
    only. *)
Lemma caches_agree_same (l l' : Logger) :
  metadata (database l') = metadata (database l) ->
  streams_tbl (database l') = streams_tbl (database l) ->
  __apikey l' = __apikey l ->
  __serverurl l' = __serverurl l ->
  __syncperiod l' = __syncperiod l ->
  __lastsync l' = __lastsync l ->
  streams l' = streams l ->
  caches_agree l -> caches_agree l'.
Proof.
  intros Hm Ht Hk Hu Hp Hs Hd [Hmeta Hstreams]. split.
  - rewrite Hm, Hk, Hu, Hp, Hs. exact Hmeta.
  - rewrite Hd, Ht. exact Hstreams.
Qed.

(** Operations that write neither a cached property nor the dict nor the
    two tables. *)
Ltac frame_op :=
  unfold_monad;
  repeat (cbn [lg trace snd fst];
          match goal with
          | |- context [match ?x with _ => _ end] =>
              lazymatch x with
              | context [match _ with _ => _ end] => fail
              | _ => destruct x
              end
          end);
  cbn [lg trace snd fst];
  (eapply caches_agree_same; [..|eassumption]; reflexivity).

Lemma stop_agree (w : World) :
  caches_agree (lg w) -> caches_agree (lg (snd (stop w))).
Proof. intros H. unfold stop. frame_op. Qed.

Lemma close_agree (w : World) :
  caches_agree (lg w) -> caches_agree (lg (snd (close w))).
Proof. intros H. unfold close, stop. frame_op. Qed.

Lemma setsync_agree (w : World) :
  caches_agree (lg w) -> caches_agree (lg (snd (__setsync w))).
Proof. intros H. unfold __setsync. frame_op. Qed.

Lemma start_agree (rem : Remote) (w : World) :
  caches_agree (lg w) -> caches_agree (lg (snd (start rem w))).
Proof. intros H. unfold start, connectordb, __setsync. frame_op. Qed.

Lemma name_agree (rem : Remote) (w : World) :
  caches_agree (lg w) -> caches_agree (lg (snd (name rem w))).
Proof. intros H. unfold name, connectordb. frame_op. Qed.

Lemma connectordb_agree (rem : Remote) (w : World) :
  caches_agree (lg w) -> caches_agree (lg (snd (connectordb rem w))).
Proof. intros H. unfold connectordb. frame_op. Qed.

Lemma len_agree (w : World) :
  caches_agree (lg w) -> caches_agree (lg (snd ((__len__ ;; ret tt) w))).
Proof. intros H. unfold __len__. frame_op. Qed.

Lemma contains_agree (streamname : string) (w : World) :
  caches_agree (lg w) ->
  caches_agree (lg (snd ((__contains__ streamname ;; ret tt) w))).
Proof. intros H. unfold __contains__. frame_op. Qed.

Lemma get_data_agree (w : World) :
  caches_agree (lg w) ->
  caches_agree (lg (snd ((get_data json_loads ;; ret tt) w))).
Proof. intros H. unfold get_data. frame_op. Qed.

Lemma set_data_agree (value : pyvalue) (w : World) :
  caches_agree (lg w) ->
  caches_agree (lg (snd (set_data json_dumps value w))).
Proof.
  intros [(r & Hm & Hk & Hu & Hp & Hs) Hd]. unfold set_data. unfold_monad.
  destruct (db_open (lg w)); [|split; eauto 10].
  destruct (json_dumps value) as [e|js]; cbn [lg snd]; [split; eauto 10|].
  split; [|exact Hd].
  exists (set_m_userdatajson js r). cbn. rewrite Hm. auto.
Qed.

Lemma insert_agree (streamname : string) (value : pyvalue)
    (now : timestamp) (w : World) :
  caches_agree (lg w) ->
  caches_agree (lg (snd (insert validate json_dumps streamname value now w))).
Proof.
  intros H.
  destruct (insert_cases streamname value now w)
    as [[e He]|(schema & js & _ & _ & _ & _ & Hins)].
  - rewrite He. exact H.
  - rewrite Hins. eapply caches_agree_same; [..|exact H]; reflexivity.
Qed.

Lemma set_apikey_agree (value : string) (w : World) :
  caches_agree (lg w) ->
  completes (set_apikey value) w ->
  caches_agree (lg (snd (set_apikey value w))).
Proof.
  intros [(r & Hm & Hk & Hu & Hp & Hs) Hd] Hc.
  unfold completes, set_apikey in *. unfold_monad. cbn [lg trace] in *.
  change (db_open (with_apikey value (lg w))) with (db_open (lg w)) in *.
  destruct (db_open (lg w)); cbn [lg snd fst] in *.
  - split; [|exact Hd]. exists (set_m_apikey value r). cbn. rewrite Hm. auto.
  - destruct Hc as [Hc|[u Hc]]; discriminate.
Qed.

Lemma set_serverurl_agree (value : string) (w : World) :
  caches_agree (lg w) ->
  completes (set_serverurl value) w ->
  caches_agree (lg (snd (set_serverurl value w))).
Proof.
  intros [(r & Hm & Hk & Hu & Hp & Hs) Hd] Hc.
  unfold completes, set_serverurl in *. unfold_monad. cbn [lg trace] in *.
  change (db_open (with_serverurl value (lg w))) with (db_open (lg w)) in *.
  destruct (db_open (lg w)); cbn [lg snd fst] in *.
  - split; [|exact Hd]. exists (set_m_serverurl value r). cbn.
    rewrite Hm. auto.
  - destruct Hc as [Hc|[u Hc]]; discriminate.
Qed.

Lemma advance_agree (now : timestamp) (l : Logger) :
  caches_agree l -> caches_agree (advance now l).
Proof.
  intros [(r & Hm & Hk & Hu & Hp & Hs) Hd]. split; [|exact Hd].
  exists (set_m_lastsynctime now r). cbn. rewrite Hm. auto.
Qed.

Lemma set_lastsynctime_agree (value : number) (w : World) :
  stored_exactly value ->
  caches_agree (lg w) ->
  completes (set_lastsynctime value) w ->
  caches_agree (lg (snd (set_lastsynctime value w))).
Proof.
  intros Hex [(r & Hm & Hk & Hu & Hp & Hs) Hd] Hc.
  unfold completes, set_lastsynctime, stored_exactly in *. unfold_monad.
  cbn [lg trace] in *.
  change (db_open (with_lastsync (number_value value) (lg w)))
    with (db_open (lg w)) in *.
  rewrite Hex in *.
  destruct (db_open (lg w)); cbn [lg snd fst] in *.
  - split; [|exact Hd]. exists (set_m_lastsynctime (number_value value) r).
    cbn. rewrite Hm. auto.
  - destruct Hc as [Hc|[u Hc]]; discriminate.
Qed.

Lemma set_syncperiod_agree (value : number) (w : World) :
  stored_exactly value ->
  caches_agree (lg w) ->
  completes (set_syncperiod value) w ->
  caches_agree (lg (snd (set_syncperiod value w))).
Proof.
  intros Hex [(r & Hm & Hk & Hu & Hp & Hs) Hd] Hc.
  unfold completes, set_syncperiod, __setsync, stored_exactly in *.
  unfold_monad. cbn [lg trace] in *.
  change (db_open (with_syncperiod (number_value value) (lg w)))
    with (db_open (lg w)) in *.
  change (syncthread (with_syncperiod (number_value value) (lg w)))
    with (syncthread (lg w)) in *.
  rewrite Hex in *.
  destruct (db_open (lg w)); cbn [lg snd fst] in *.
  - destruct (syncthread (lg w)); cbn [lg snd];
      (split; [|exact Hd]);
      exists (set_m_syncperiod (number_value value) r); cbn;
      rewrite Hm; auto.
  - destruct Hc as [Hc|[u Hc]]; discriminate.
Qed.

(** The row that [addStream_force] writes and the entry it caches. *)
Lemma register_agree (k js : string) (schema : pyvalue) (l : Logger) :
  json_loads js = inr schema ->
  caches_agree l ->
  caches_agree
    (with_streams (dict_set k schema (streams l))
       (with_database (replace_stream k js) l)).
Proof.
  intros Hjs [Hmeta Hd]. split; [exact Hmeta|].
  intros n. cbn. rewrite dict_get_set, tbl_get_replace.
  destruct (String.eqb k n); [cbn; rewrite Hjs; reflexivity|apply Hd].
Qed.

Lemma addStream_force_agree (streamname : string) (schema : pyvalue)
    (w : World) :
  roundtrips schema ->
  caches_agree (lg w) ->
  caches_agree (lg (snd (addStream_force json_dumps streamname schema w))).
Proof.
  intros Hrt H. unfold addStream_force. unfold_monad.
  destruct (db_open (lg w)); [|exact H].
  destruct (json_dumps schema) as [e|js] eqn:Hjs; cbn [lg snd]; [exact H|].
  exact (register_agree streamname js schema (lg w) (Hrt js Hjs) H).
Qed.

Lemma with_cdb_agree (h : option (string * string)) (l : Logger) :
  caches_agree l -> caches_agree (with_cdb h l).
Proof. intros H. eapply caches_agree_same; [..|exact H]; reflexivity. Qed.

Lemma addStream_agree (rem : Remote) (streamname : string)
    (schema : pyvalue) (w : World) :
  (forall sch, rem_schema rem streamname = inr sch -> roundtrips sch) ->
  caches_agree (lg w) ->
  caches_agree
    (lg (snd (addStream json_dumps check_schema rem streamname schema w))).
Proof.
  intros Hrt H. unfold addStream, addStream_force, connectordb.
  unfold_monad.
  repeat (cbn [lg trace snd fst];
          match goal with
          | |- context [match ?x with _ => _ end] =>
              lazymatch x with
              | context [match _ with _ => _ end] => fail
              | _ => destruct x eqn:?
              end
          end);
  cbn [lg trace snd fst];
  first [ exact H
        | apply with_cdb_agree; exact H
        | match goal with
          | Hjs : json_dumps ?sch = inr ?js |- _ =>
              first
                [ exact (register_agree streamname js _ (lg w)
                           (Hrt sch eq_refl js Hjs) H)
                | exact (register_agree streamname js _ _
                           (Hrt sch eq_refl js Hjs)
                           (with_cdb_agree _ (lg w) H)) ]
          end ].
Qed.

Lemma sync_agree (onsyncfail : option (M bool)) (rem : Remote)
    (env : Interference) (now : timestamp) (w : World) :
  keeps_agreement onsyncfail ->
  caches_agree (lg w) ->
  caches_agree (lg (snd (sync json_loads onsyncfail rem env now w))).
Proof.
  intros Hkeep H. unfold sync, try_except.
  destruct (sync_cycle_cases rem env now w)
    as [(e & h & c & w1 & Hcycle & Hl)|(h & c & w1 & Hcycle & _ & Hl)];
    rewrite Hcycle.
  - assert (H1 : caches_agree (lg w1)).
    { rewrite Hl. eapply caches_agree_same; [..|exact H]; reflexivity. }
    destruct onsyncfail as [g|]; [|exact H1].
    pose proof (Hkeep g w1 eq_refl H1) as H2. unfold bind.
    destruct (g w1) as [[[|]|e'] w2]; exact H2.
  - cbn [snd]. rewrite Hl. apply advance_agree.
    eapply caches_agree_same; [..|exact H]; reflexivity.
Qed.

Lemma runsyncer_agree (onsyncfail : option (M bool)) (rem : Remote)
    (env : Interference) (now : timestamp) (w : World) :
  keeps_agreement onsyncfail ->
  caches_agree (lg w) ->
  caches_agree (lg (snd (__runsyncer json_loads onsyncfail rem env now w))).
Proof.
  intros Hkeep H. unfold __runsyncer, try_except, bind, raise.
  pose proof (sync_agree onsyncfail rem env now w Hkeep H) as H1.
  destruct (sync json_loads onsyncfail rem env now w) as [[u|e] w1];
    cbn [snd] in *; [apply setsync_agree|]; exact H1.
Qed.

Lemma tbl_get_None (k : string) (rows : list (string * string)) :
  ~ In k (map fst rows) -> tbl_get k rows = None.
Proof.
  induction rows as [|[k' v] rows IH]; simpl; intros H; [reflexivity|].
  destruct (String.eqb_spec k' k) as [->|Hne].
  - exfalso. apply H. left. reflexivity.
  - apply IH. intros Hin. apply H. right. exact Hin.
Qed.

(** Loading the [streams] table changes the dict only, and leaves in it
    the decoded schema of every row. *)
Lemma load_streams_agree (rows : list (string * string)) :
  NoDup (map fst rows) ->
  forall w w',
    load_streams json_loads rows w = (Returned tt, w') ->
    lg w' = with_streams (streams (lg w')) (lg w) /\
    forall k,
      option_map (@inr exn pyvalue) (dict_get k (streams (lg w'))) =
        match tbl_get k rows with
        | Some js => Some (json_loads js)
        | None => option_map (@inr exn pyvalue) (dict_get k (streams (lg w)))
        end.
Proof.
  induction rows as [|[k0 js0] rows IH]; intros Hnodup w w' Hload.
  - simpl in Hload. inversion Hload; subst. split; [|reflexivity].
    destruct (lg w') as [[c s m] o k u ls sp st h th ts]; reflexivity.
  - inversion Hnodup as [|? ? Hnotin Hnodup']; subst.
    simpl in Hload. unfold_monad.
    destruct (json_loads js0) as [e|schema] eqn:Hjs; [discriminate|].
    cbn [lg trace] in Hload.
    destruct (IH Hnodup' _ _ Hload) as [Hl Hget]. cbn [lg] in *.
    split; [rewrite Hl; reflexivity|].
    intros k. rewrite Hget. simpl tbl_get.
    change (streams (with_streams ?d ?l)) with d.
    rewrite dict_get_set.
    destruct (String.eqb_spec k0 k) as [->|Hne].
    + rewrite (tbl_get_None k rows Hnotin). cbn. rewrite Hjs. reflexivity.
    + reflexivity.
Qed.

Lemma set_apikey_open (value : string) (w : World) :
  db_open (lg w) = true ->
  set_apikey value w =
    (Returned tt,
     mkWorld (with_database (update_metadata (set_m_apikey value))
                (with_apikey value (lg w))) (trace w)).
Proof.
  intros Hopen. unfold set_apikey. unfold_monad. cbn [lg trace].
  change (db_open (with_apikey value (lg w))) with (db_open (lg w)).
  rewrite Hopen. reflexivity.
Qed.

(** The constructor leaves the caches and the file in agreement. *)
Lemma init_agree (file : Database) (on_create : option (M unit))
    (apikey : option string) (w' : World) :
  file_ok file ->
  keeps_agreement on_create ->
  __init__ json_loads on_create apikey (mkWorld (blank file) [])
    = (Returned tt, w') ->
  caches_agree (lg w').
Proof.
  intros [Hlen Hnodup] Hkeep Hinit.
  destruct file as [c tbl meta]. cbn [metadata streams_tbl] in *.
  assert (Hloaded : forall r w0 w1,
            metadata (database (lg w0)) = [r] ->
            streams_tbl (database (lg w0)) = tbl ->
            __apikey (lg w0) = m_apikey r ->
            __serverurl (lg w0) = m_serverurl r ->
            __syncperiod (lg w0) = m_syncperiod r ->
            __lastsync (lg w0) = m_lastsynctime r ->
            streams (lg w0) = [] ->
            load_streams json_loads tbl w0 = (Returned tt, w1) ->
            caches_agree (lg w1)).
  { intros r w0 w1 Hm Ht Hk Hu Hp Hs Hd Hload.
    destruct (load_streams_agree tbl Hnodup w0 w1 Hload) as [Hl Hget].
    split.
    - exists r. rewrite Hl. cbn. auto.
    - intros k. rewrite Hget, Hd, Hl. cbn. rewrite Ht.
      destruct (tbl_get k tbl); reflexivity. }
  assert (Hrest : forall w1 b,
            caches_agree (lg w1) -> db_open (lg w1) = true ->
            ((match apikey with
              | Some k => set_apikey k
              | None => ret tt
              end ;;
              modify (with_timers None []) ;;
              modify (with_cdb None) ;;
              match on_create with
              | Some f => if b : bool then f else ret tt
              | None => ret tt
              end) w1) = (Returned tt, w') ->
            caches_agree (lg w')).
  { intros w1 b H1 Hopen Hrun. unfold bind at 1 in Hrun.
    assert (H2 : exists w2,
              match apikey with
              | Some k => set_apikey k
              | None => ret tt
              end w1 = (Returned tt, w2) /\ caches_agree (lg w2)).
    { destruct apikey as [k|].
      - eexists. split; [apply set_apikey_open, Hopen|].
        pose proof (set_apikey_agree k w1 H1 (or_introl Hopen)) as Ha.
        rewrite (set_apikey_open k w1 Hopen) in Ha. exact Ha.
      - exists w1. split; [reflexivity|exact H1]. }
    destruct H2 as (w2 & Hw2 & H2). rewrite Hw2 in Hrun.
    unfold_monad. cbn [lg trace] in Hrun.
    set (w3 := mkWorld (with_cdb None (with_timers None [] (lg w2)))
                 (trace w2)) in *.
    assert (H3 : caches_agree (lg w3))
      by (eapply caches_agree_same; [..|exact H2]; reflexivity).
    destruct on_create as [f|]; [destruct b|].
    - pose proof (Hkeep f w3 eq_refl H3) as H4.
      rewrite Hrun in H4. exact H4.
    - inversion Hrun; subst. exact H3.
    - inversion Hrun; subst. exact H3. }
  unfold __init__ in Hinit. unfold bind at 1 in Hinit.
  unfold gets at 1 in Hinit. cbn [lg blank database metadata] in Hinit.
  destruct meta as [|r [|r' meta]]; [| |simpl in Hlen; lia].
  - cbn [List.length Nat.eqb] in Hinit. unfold_monad.
    cbn [metadata database with_database with_metadata blank app
         streams_tbl with_syncperiod with_lastsync with_serverurl
         with_apikey lg trace] in Hinit.
    match type of Hinit with
    | context [load_streams json_loads ?t ?w0] =>
        destruct (load_streams json_loads t w0) as [[[]|e] w1] eqn:Hload;
          [|discriminate]
    end.
    apply (Hrest w1 true); [| |exact Hinit].
    + eapply (Hloaded default_metadata); [..|exact Hload]; reflexivity.
    + destruct (load_streams_agree _ Hnodup _ _ Hload) as [Hl _].
      rewrite Hl. reflexivity.
  - cbn [List.length Nat.eqb] in Hinit. unfold_monad.
    cbn [metadata database with_database with_metadata blank app
         streams_tbl with_syncperiod with_lastsync with_serverurl
         with_apikey lg trace] in Hinit.
    match type of Hinit with
    | context [load_streams json_loads ?t ?w0] =>
        destruct (load_streams json_loads t w0) as [[[]|e] w1] eqn:Hload;
          [|discriminate]
    end.
    apply (Hrest w1 false); [| |exact Hinit].
    + eapply (Hloaded r); [..|exact Hload]; reflexivity.
    + destruct (load_streams_agree _ Hnodup _ _ Hload) as [Hl _].
      rewrite Hl. reflexivity.
Qed.

(** X23. Where the caches and the file do stay equal.  The constructor,
    on a new file or on a file a Logger wrote, leaves the cached apikey,
    serverurl, syncperiod and lastsynctime equal to the fields of the one
    row of [metadata], and the dict [streams] equal to the decoded schemas
    of the [streams] table.  An operation keeps them equal when it
    returns, or raises on an open database, provided that what it writes
    is read back as it was given: a schema that it registers survives
    [json.dumps] and [json.loads], and a number that it sets is stored in
    the REAL column as it is.  The callbacks are taken to keep them
    equal. *)
Theorem caches_agree_always (onsyncfail : option (M bool)) :
  keeps_agreement onsyncfail ->
  (forall file on_create apikey w,
     file_ok file ->
     keeps_agreement on_create ->
     __init__ json_loads on_create apikey (mkWorld (blank file) [])
       = (Returned tt, w) ->
     caches_agree (lg w)) /\
  (forall o w,
     caches_agree (lg w) ->
     op_roundtrips o ->
     completes
       (run_op validate json_dumps json_loads check_schema onsyncfail o) w ->
     caches_agree
       (lg (snd (run_op validate json_dumps json_loads check_schema
                   onsyncfail o w)))).
Proof.
  intros Hkeep. split.
  - intros file on_create apikey w Hfile Hcreate Hinit.
    exact (init_agree file on_create apikey w Hfile Hcreate Hinit).
  - intros o w H Hrt Hc. destruct o; cbn [run_op op_roundtrips] in *.
    + apply addStream_agree; assumption.
    + apply addStream_force_agree; assumption.
    + apply insert_agree; assumption.
    + apply sync_agree; assumption.
    + apply runsyncer_agree; assumption.
    + apply start_agree; assumption.
    + apply stop_agree; assumption.
    + apply close_agree; assumption.
    + apply len_agree; assumption.
    + apply contains_agree; assumption.
    + apply set_syncperiod_agree; assumption.
    + apply set_lastsynctime_agree; assumption.
    + apply set_apikey_agree; assumption.
    + apply set_serverurl_agree; assumption.
    + apply get_data_agree; assumption.
    + apply set_data_agree; assumption.
    + apply name_agree; assumption.
    + apply connectordb_agree; assumption.
Qed.

(** On a closed database a setter raises after it has written the
    cache: this is the exit that [completes] leaves out. *)
Lemma set_apikey_closed (value : string) (w : World) :
  db_open (lg w) = false ->
  set_apikey value w =
    (Raised (Raise "ConnectionClosedError" "The connection has been closed"),
     mkWorld (with_apikey value (lg w)) (trace w)).
Proof.
  intros Hopen. unfold set_apikey. unfold_monad. cbn [lg trace].
  change (db_open (with_apikey value (lg w))) with (db_open (lg w)).
  rewrite Hopen. reflexivity.
Qed.

(** The setter of [syncperiod] as an operation. *)
Lemma run_op_set_syncperiod (onsyncfail : option (M bool)) (value : number) :
  run_op validate json_dumps json_loads check_schema onsyncfail
    (OpSetSyncperiod value) = set_syncperiod value.
Proof. reflexivity. Qed.

(** ** Where the caches and the file part *)

(** What the two numeric setters leave on an open database. *)
Lemma set_syncperiod_open (value : number) (w : World) :
  db_open (lg w) = true ->
  __syncperiod (lg (snd (set_syncperiod value w))) = number_value value /\
  match bind_real value with
  | inr stored =>
      fst (set_syncperiod value w) = Returned tt /\
      metadata (database (lg (snd (set_syncperiod value w))))
        = map (set_m_syncperiod stored) (metadata (database (lg w)))
  | inl e =>
      fst (set_syncperiod value w) = Raised e /\
      database (lg (snd (set_syncperiod value w))) = database (lg w)
  end.
Proof.
  intros Hopen. unfold set_syncperiod, __setsync. unfold_monad.
  cbn [lg trace].
  change (db_open (with_syncperiod (number_value value) (lg w)))
    with (db_open (lg w)).
  change (syncthread (with_syncperiod (number_value value) (lg w)))
    with (syncthread (lg w)).
  rewrite Hopen. cbn [lg trace].
  destruct (bind_real value) as [e|stored]; cbn [fst snd lg trace];
    [repeat split|].
  destruct (syncthread (lg w)); cbn [fst snd lg trace]; repeat split.
Qed.

Lemma set_lastsynctime_write (value : number) (w : World) :
  db_open (lg w) = true ->
  __lastsync (lg (snd (set_lastsynctime value w))) = number_value value /\
  match bind_real value with
  | inr stored =>
      fst (set_lastsynctime value w) = Returned tt /\
      metadata (database (lg (snd (set_lastsynctime value w))))
        = map (set_m_lastsynctime stored) (metadata (database (lg w)))
  | inl e =>
      fst (set_lastsynctime value w) = Raised e /\
      database (lg (snd (set_lastsynctime value w))) = database (lg w)
  end.
Proof.
  intros Hopen. unfold set_lastsynctime. unfold_monad. cbn [lg trace].
  change (db_open (with_lastsync (number_value value) (lg w)))
    with (db_open (lg w)).
  rewrite Hopen. cbn [lg trace].
  destruct (bind_real value) as [e|stored]; cbn [fst snd lg trace];
    repeat split.
Qed.

(** C9.  The caches do not always equal the file: the setters of
    [syncperiod] and [lastsynctime] assign the attribute first and write
    the file afterwards, and the file is a REAL column.  On an open
    database whose caches agree with it, a number that the column stores
    as another number (an int that no double holds) makes the setter
    return with the attribute at the number given and the file at the
    number stored; a number that cannot be bound (an int beyond 64 bits)
    makes the setter raise with the attribute at the new number and the
    file as it was.  Either way the caches and the file no longer agree. *)
Theorem setters_break_agreement (value : number) (w : World) :
  caches_agree (lg w) ->
  db_open (lg w) = true ->
  (forall stored,
     bind_real value = inr stored ->
     stored <> number_value value ->
     (fst (set_syncperiod value w) = Returned tt /\
      __syncperiod (lg (snd (set_syncperiod value w))) = number_value value /\
      Forall (fun r => m_syncperiod r = stored)
        (metadata (database (lg (snd (set_syncperiod value w))))) /\
      ~ caches_agree (lg (snd (set_syncperiod value w)))) /\
     (fst (set_lastsynctime value w) = Returned tt /\
      __lastsync (lg (snd (set_lastsynctime value w))) = number_value value /\
      Forall (fun r => m_lastsynctime r = stored)
        (metadata (database (lg (snd (set_lastsynctime value w))))) /\
      ~ caches_agree (lg (snd (set_lastsynctime value w))))) /\
  (forall e,
     bind_real value = inl e ->
     (number_value value <> __syncperiod (lg w) ->
      fst (set_syncperiod value w) = Raised e /\
      __syncperiod (lg (snd (set_syncperiod value w))) = number_value value /\
      database (lg (snd (set_syncperiod value w))) = database (lg w) /\
      ~ caches_agree (lg (snd (set_syncperiod value w)))) /\
     (number_value value <> __lastsync (lg w) ->
      fst (set_lastsynctime value w) = Raised e /\
      __lastsync (lg (snd (set_lastsynctime value w))) = number_value value /\
      database (lg (snd (set_lastsynctime value w))) = database (lg w) /\
      ~ caches_agree (lg (snd (set_lastsynctime value w))))).
Proof.
  intros [(r & Hm & Hk & Hu & Hp & Hl) _] Hopen.
  destruct (set_syncperiod_open value w Hopen) as [Hsp Hspw].
  destruct (set_lastsynctime_write value w Hopen) as [Hls Hlsw].
  split.
  - intros stored Hbind Hne. rewrite Hbind in Hspw, Hlsw.
    destruct Hspw as [Hspr Hspm]. destruct Hlsw as [Hlsr Hlsm].
    rewrite Hm in Hspm, Hlsm. cbn [map] in Hspm, Hlsm. split.
    + split; [exact Hspr|]. split; [exact Hsp|]. split.
      * rewrite Hspm. repeat constructor.
      * intros [(r' & Hm' & _ & _ & Hp' & _) _].
        rewrite Hspm in Hm'. inversion Hm'; subst r'.
        apply Hne. rewrite <- Hsp, Hp'. reflexivity.
    + split; [exact Hlsr|]. split; [exact Hls|]. split.
      * rewrite Hlsm. repeat constructor.
      * intros [(r' & Hm' & _ & _ & _ & Hl') _].
        rewrite Hlsm in Hm'. inversion Hm'; subst r'.
        apply Hne. rewrite <- Hls, Hl'. reflexivity.
  - intros e Hbind. rewrite Hbind in Hspw, Hlsw.
    destruct Hspw as [Hspr Hspd]. destruct Hlsw as [Hlsr Hlsd]. split.
    + intros Hne. split; [exact Hspr|]. split; [exact Hsp|].
      split; [exact Hspd|].
      intros [(r' & Hm' & _ & _ & Hp' & _) _].
      rewrite Hspd, Hm in Hm'. inversion Hm'; subst r'.
      apply Hne. rewrite <- Hsp, Hp', Hp. reflexivity.
    + intros Hne. split; [exact Hlsr|]. split; [exact Hls|].
      split; [exact Hlsd|].
      intros [(r' & Hm' & _ & _ & _ & Hl') _].
      rewrite Hlsd, Hm in Hm'. inversion Hm'; subst r'.
      apply Hne. rewrite <- Hls, Hl', Hl. reflexivity.
Qed.

(** ** [stop] and the timer thread *)

Lemma cancel_nth (i j : nat) (ts : list timer_state) :
  nth_error (cancel i ts) j =
    match nth_error ts j with
    | Some (Waiting p) => if Nat.eqb i j then Some Cancelled
                          else Some (Waiting p)
    | t => t
    end.
Proof.
  revert i j. induction ts as [|t ts IH]; intros i j.
  - destruct i, j; reflexivity.
  - destruct i as [|i], j as [|j]; destruct t; simpl;
      try reflexivity;
      try (destruct (nth_error ts j) as [[]|]; reflexivity);
      rewrite IH; reflexivity.
Qed.

Lemma none_waiting_nth (ts : list timer_state) :
  none_waiting ts = true <->
  forall i p, nth_error ts i <> Some (Waiting p).
Proof.
  unfold none_waiting. rewrite forallb_forall. split.
  - intros H i p Hi. apply nth_error_In in Hi. apply H in Hi. discriminate.
  - intros H t Hin. destruct t as [p| |]; try reflexivity.
    apply In_nth_error in Hin. destruct Hin as [i Hi].
    exfalso. exact (H i p Hi).
Qed.

Lemma fire_none_waiting (i : nat) (ts : list timer_state) :
  none_waiting ts = true -> fire i ts = None.
Proof.
  revert i. induction ts as [|t ts IH]; intros i H.
  - destruct i; reflexivity.
  - simpl in H. apply andb_true_iff in H. destruct H as [Ht Hts].
    destruct i as [|i]; simpl.
    + destruct t; [discriminate|reflexivity|reflexivity].
    + rewrite (IH i Hts). destruct t; reflexivity.
Qed.

(** [stop] returns, forgets the timer and has cancelled it: when only the
    current timer could fire, none can fire any more.  A second [stop]
    changes nothing. *)
Lemma stop_cancels (w : World) :
  fst (stop w) = Returned tt /\
  syncthread (lg (snd (stop w))) = None /\
  (only_current_waiting (lg w) ->
   none_waiting (timers (lg (snd (stop w)))) = true) /\
  stop (snd (stop w)) = (Returned tt, snd (stop w)).
Proof.
  unfold stop, modify. cbn [fst snd lg trace].
  split; [reflexivity|].
  destruct (syncthread (lg w)) as [i|] eqn:Hst; cbn [syncthread with_timers].
  - split; [reflexivity|]. split; [|reflexivity].
    intros Honly. apply none_waiting_nth. intros j p.
    cbn [timers with_timers]. rewrite cancel_nth.
    destruct (nth_error (timers (lg w)) j) as [[q| |]|] eqn:Hj;
      try discriminate.
    apply Honly in Hj. rewrite Hst in Hj. inversion Hj; subst.
    rewrite Nat.eqb_refl. discriminate.
  - split; [exact Hst|]. split.
    + intros Honly. apply none_waiting_nth. intros j p Hj.
      apply Honly in Hj. congruence.
    + rewrite Hst, world_eta. reflexivity.
Qed.

(** ** Nothing leaves the cache that was not uploaded *)

Lemma sync_stream_kept_or_uploaded (rem : Remote) (env : Interference)
    (stream : string) (w : World) :
  exists evs,
    trace (snd (sync_stream json_loads rem env stream w)) = trace w ++ evs /\
    forall r,
      In r (cache (database (lg w))) ->
      In r (cache (database
                     (lg (snd (sync_stream json_loads rem env stream w))))) \/
      uploaded_in rem evs r.
Proof.
  unfold sync_stream, concurrent_inserts. unfold_monad.
  destruct (rem_exists rem stream); cbn [lg trace].
  - destruct (load_datapoints json_loads _) as [e|[|dp0 dps]] eqn:Hload;
      cbn [lg trace snd].
    + eexists. split; [reflexivity|]. intros r Hin. left.
      simpl. apply in_or_app. left. exact Hin.
    + eexists. split; [reflexivity|]. intros r Hin. left.
      simpl. apply in_or_app. left. exact Hin.
    + destruct (rem_insert_array rem stream (dp0 :: dps)) as [e|] eqn:Hins;
        cbn [lg trace snd].
      * eexists. split; [rewrite <- app_assoc; reflexivity|].
        intros r Hin. left. simpl. apply in_or_app. left. exact Hin.
      * eexists. split; [rewrite <- app_assoc; reflexivity|].
        intros r Hin.
        destruct (delete_matches stream (dp_t (last (dp0 :: dps) dp0)) r)
          eqn:Hdel.
        -- right. unfold delete_matches in Hdel.
           apply andb_true_iff in Hdel. destruct Hdel as [Hs _].
           unfold stream_is in Hs. apply String.eqb_eq in Hs.
           assert (Hf : In r (select_cache stream
                                (database (arrive (before_select env stream)
                                             (lg w))))).
           { apply select_cache_In. split; [|exact Hs].
             simpl. apply in_or_app. left. exact Hin. }
           destruct (Forall2_In_l decodes _ _ _
                       (load_datapoints_Forall2 _ _ Hload) Hf)
             as (dp & Hdp & Hdec).
           exists (dp0 :: dps), dp. rewrite Hs.
           split; [right; left; reflexivity|].
           split; [exact Hins|]. split; [exact Hdp|exact Hdec].
        -- left. unfold delete_cache, arrive, with_database, with_cache.
           cbn [database cache]. apply filter_In. split.
           ++ apply in_or_app. left. apply in_or_app. left. exact Hin.
           ++ rewrite Hdel. reflexivity.
  - eexists. split; [reflexivity|]. intros r Hin. left. exact Hin.
Qed.

Lemma uploaded_in_app (rem : Remote) (evs evs' : list event) (r : CacheRow) :
  uploaded_in rem evs r \/ uploaded_in rem evs' r ->
  uploaded_in rem (evs ++ evs') r.
Proof.
  intros [(dps & dp & Hin & H)|(dps & dp & Hin & H)];
    exists dps, dp; (split; [apply in_or_app; auto|exact H]).
Qed.

Lemma sync_streams_kept_or_uploaded (rem : Remote) (env : Interference)
    (names : list string) (w : World) :
  exists evs,
    trace (snd (sync_streams json_loads rem env names w)) = trace w ++ evs /\
    forall r,
      In r (cache (database (lg w))) ->
      In r (cache (database
                     (lg (snd (sync_streams json_loads rem env names w))))) \/
      uploaded_in rem evs r.
Proof.
  revert w. induction names as [|s names IH]; intros w.
  - exists []. split; [simpl; rewrite app_nil_r; reflexivity|].
    intros r Hin. left. exact Hin.
  - simpl. unfold bind.
    destruct (sync_stream_kept_or_uploaded rem env s w) as (evs & Htr & Hrows).
    destruct (sync_stream json_loads rem env s w) as [[u|e] w1];
      cbn [snd] in *.
    + destruct (IH w1) as (evs' & Htr' & Hrows').
      exists (evs ++ evs'). split; [rewrite Htr', Htr, app_assoc; reflexivity|].
      intros r Hin. destruct (Hrows r Hin) as [Hkept|Hup].
      * destruct (Hrows' r Hkept) as [Hkept'|Hup'];
          [left; exact Hkept'|right; apply uploaded_in_app; auto].
      * right. apply uploaded_in_app. auto.
    + exists evs. split; [exact Htr|exact Hrows].
Qed.

(** X2. Whatever a sync cycle does and however it ends, a row that was in
    the cache when it began is still in the cache, or it was sent in an
    upload of this cycle that the server accepted, with its timestamp and
    its decoded text. *)
Theorem sync_keeps_or_uploads (rem : Remote) (env : Interference)
    (now : timestamp) (w : World) :
  exists evs,
    trace (snd (sync json_loads None rem env now w)) = trace w ++ evs /\
    forall r,
      In r (cache (database (lg w))) ->
      In r (cache (database
                     (lg (snd (sync json_loads None rem env now w))))) \/
      uploaded_in rem evs r.
Proof.
  rewrite sync_no_handler.
  destruct (reachable_dec rem (lg w)) as [Hreach|[e Hfail]].
  - destruct (connected_set_cache w) as [h Hh].
    destruct (connected_events w) as (cev & Hcev & _).
    destruct (db_open (lg w)) eqn:Hopen.
    + rewrite (sync_cycle_reachable rem env now w Hreach Hopen).
      unfold bind.
      destruct (sync_streams_kept_or_uploaded rem env
                  (dict_keys (streams (lg w))) (connected w))
        as (evs & Htr & Hrows).
      destruct (sync_streams_frame rem env (dict_keys (streams (lg w)))
                  (connected w)) as (c & evs0 & Hw & _).
      destruct (sync_streams json_loads rem env _ (connected w))
        as [[[]|e] w1]; cbn [snd] in *.
      * rewrite set_lastsynctime_open
          by (rewrite Hw; cbn [lg]; rewrite Hh; exact Hopen).
        exists (cev ++ evs). cbn [snd lg trace].
        split; [rewrite Htr, Hcev, app_assoc; reflexivity|].
        intros r Hin.
        destruct (Hrows r) as [Hk|Hup]; [rewrite Hh; exact Hin| |].
        -- left. exact Hk.
        -- right. apply uploaded_in_app. auto.
      * exists (cev ++ evs).
        split; [rewrite Htr, Hcev, app_assoc; reflexivity|].
        intros r Hin.
        destruct (Hrows r) as [Hk|Hup]; [rewrite Hh; exact Hin| |].
        -- left. exact Hk.
        -- right. apply uploaded_in_app. auto.
    + rewrite (sync_cycle_closed rem env now w Hreach Hopen). cbn [snd].
      exists cev. split; [exact Hcev|]. intros r Hin. left.
      rewrite Hh. exact Hin.
  - destruct (sync_cycle_unreachable rem env now w e Hfail) as (h & evs & H).
    rewrite H. cbn [snd lg trace]. exists evs. split; [reflexivity|].
    intros r Hin. left. exact Hin.
Qed.

(** X3. A row of the stream that another thread inserts between the
    [SELECT] and the [DELETE], with a timestamp that is not later than the
    last uploaded one, is deleted with the batch although the upload,
    which holds the rows fetched before, does not contain it. *)
Theorem sync_stream_drops_late_row (rem : Remote) (env : Interference)
    (stream : string) (w : World) (dp0 : datapoint) (dps : list datapoint)
    (r : CacheRow) :
  rem_exists rem stream = true ->
  load_datapoints json_loads (fetched env stream w) = inr (dp0 :: dps) ->
  rem_insert_array rem stream (dp0 :: dps) = None ->
  In r (before_delete env stream) ->
  c_stream r = stream ->
  (c_timestamp r <= dp_t (last (dp0 :: dps) dp0))%Q ->
  exists w',
    sync_stream json_loads rem env stream w = (Returned tt, w') /\
    ~ In r (cache (database (lg w'))) /\
    trace w' = trace w ++ [EvExists stream; EvInsertArray stream (dp0 :: dps)] /\
    Forall2 decodes (fetched env stream w) (dp0 :: dps) /\
    List.length (dp0 :: dps) =
      List.length (filter (stream_is stream)
                     (cache (database (lg w)) ++ before_select env stream)).
Proof.
  intros Hex Hload Hins Hin Hs Hle.
  eexists.
  split; [exact (sync_stream_upload rem env stream w dp0 dps Hex Hload Hins)|].
  split; [|split; [reflexivity|split]].
  - unfold uploaded, delete_cache, arrive, with_database, with_cache.
    cbn [lg database cache]. intros Hf.
    apply filter_In in Hf. destruct Hf as [_ Hf].
    apply negb_true_iff in Hf. unfold delete_matches, stream_is in Hf.
    apply andb_false_iff in Hf. destruct Hf as [Hf|Hf].
    + apply String.eqb_neq in Hf. contradiction.
    + apply Qle_bool_iff in Hle. congruence.
  - apply load_datapoints_Forall2. exact Hload.
  - pose proof (load_datapoints_Forall2 _ _ Hload) as Hall.
    apply Forall2_length in Hall. rewrite <- Hall.
    unfold fetched, select_cache.
    apply Permutation_length, order_by_timestamp_perm.
Qed.

(** ** A sequence of inserts *)

(** X1. After any sequence of [insert] calls, the cache is the old cache
    followed by one row for every call that returned, in the order of the
    calls, each with the stream, the clock and the serialised value of its
    call; the calls that raised left nothing; nothing else of the Logger
    changed and no request was sent; on an open database [len(logger)] has
    grown by the number of calls that returned. *)
Theorem inserts_accumulate (calls : list (string * pyvalue * timestamp))
    (w : World) :
  exists rows,
    insert_all calls w =
      mkWorld (set_cache (cache (database (lg w)) ++ rows) (lg w)) (trace w) /\
    Forall2 records (returned calls w) rows /\
    (db_open (lg w) = true ->
     fst (__len__ (insert_all calls w)) =
       Returned (List.length (cache (database (lg w)))
                 + List.length (returned calls w))%nat).
Proof.
  assert (H : exists rows,
            insert_all calls w =
              mkWorld (set_cache (cache (database (lg w)) ++ rows) (lg w))
                (trace w) /\
            Forall2 records (returned calls w) rows).
  { revert w. induction calls as [|[[s v] t] calls IH]; intros w.
    - exists []. split; [|constructor]. simpl.
      rewrite app_nil_r, set_cache_same, world_eta. reflexivity.
    - simpl.
      destruct (insert_cases s v t w)
        as [[e He]|(schema & js & _ & _ & Hjs & _ & Hins)].
      + rewrite He. cbn [fst snd app]. apply IH.
      + rewrite Hins. cbn [fst snd].
        destruct (IH (buffered s t js w)) as (rows & Hw & Hrec).
        exists (mkCacheRow s t js :: rows). split.
        * rewrite Hw. unfold buffered. cbn [lg trace].
          change (cache (database (with_database (insert_cache ?r) ?l)))
            with (cache (database l) ++ [r]).
          rewrite <- app_assoc. reflexivity.
        * constructor; [|exact Hrec].
          repeat split; [exact Hjs]. }
  destruct H as (rows & Hw & Hrec). exists rows.
  split; [exact Hw|]. split; [exact Hrec|].
  intros Hopen. rewrite Hw. unfold __len__, count_cache. unfold_monad.
  cbn [lg trace]. change (db_open (set_cache ?c ?l)) with (db_open l).
  rewrite Hopen. cbn [fst lg].
  change (cache (database (set_cache ?c ?l))) with c.
  rewrite length_app, (Forall2_length Hrec). reflexivity.
Qed.

(** ** The constructor, step by step *)

(** On a file that has its row of metadata, [on_create] is not called. *)
Lemma init_existing (file : Database) (r : MetaRow)
    (on_create : option (M unit)) (apikey : option string) :
  metadata file = [r] ->
  __init__ json_loads on_create apikey (mkWorld (blank file) []) =
    init_rest apikey (ret tt) (mkWorld (loaded r file) []).
Proof.
  intros Hm. unfold __init__, init_rest, loaded. unfold_monad.
  cbn [lg trace blank database]. rewrite Hm.
  cbn [List.length Nat.eqb lg trace].
  destruct file as [c tbl meta]. cbn [metadata] in Hm. subst meta.
  cbn [metadata database blank with_apikey with_serverurl with_lastsync
       with_syncperiod with_streams streams_tbl lg trace].
  destruct (load_streams json_loads tbl _) as [[[]|e] w1]; [|reflexivity].
  destruct (match apikey with
            | Some k => set_apikey k
            | None => fun w => (Returned tt, w)
            end w1) as [[[]|e] w2]; [|reflexivity].
  cbn [lg trace]. destruct on_create; reflexivity.
Qed.

(** On a new file the default row is written and [on_create] is called
    last. *)
Lemma init_new (file : Database) (on_create : option (M unit))
    (apikey : option string) :
  metadata file = [] ->
  __init__ json_loads on_create apikey (mkWorld (blank file) []) =
    init_rest apikey
      (match on_create with
       | Some f => f
       | None => ret tt
       end)
      (mkWorld
         (loaded default_metadata
            (with_metadata (fun _ => [default_metadata]) file)) []).
Proof.
  intros Hm. unfold __init__, init_rest, loaded. unfold_monad.
  cbn [lg trace blank database]. rewrite Hm.
  cbn [List.length Nat.eqb lg trace].
  destruct file as [c tbl meta]. cbn [metadata] in Hm. subst meta.
  cbn [metadata database blank with_apikey with_serverurl with_lastsync
       with_syncperiod with_streams streams_tbl lg trace with_database
       with_metadata app].
  destruct (load_streams json_loads tbl _) as [[[]|e] w1]; [|reflexivity].
  destruct (match apikey with
            | Some k => set_apikey k
            | None => fun w => (Returned tt, w)
            end w1) as [[[]|e] w2]; [|reflexivity].
  cbn [lg trace]. destruct on_create; reflexivity.
Qed.

(** ** Unique keys *)

Lemma dict_set_In {V : Type} (k x : string) (v : V) (d : list (string * V)) :
  In x (dict_keys (dict_set k v d)) -> x = k \/ In x (dict_keys d).
Proof.
  induction d as [|[k' v'] d IH]; simpl.
  - intros [H|[]]. left. symmetry. exact H.
  - destruct (String.eqb_spec k' k) as [->|Hne]; simpl.
    + intros [H|H]; [left; symmetry; exact H|right; right; exact H].
    + intros [H|H]; [right; left; exact H|].
      destruct (IH H) as [H'|H']; [left; exact H'|right; right; exact H'].
Qed.

Lemma dict_set_NoDup {V : Type} (k : string) (v : V) (d : list (string * V)) :
  NoDup (dict_keys d) -> NoDup (dict_keys (dict_set k v d)).
Proof.
  induction d as [|[k' v'] d IH]; simpl; intros H.
  - repeat constructor. intros [].
  - inversion H as [|? ? Hnotin Hd]; subst.
    destruct (String.eqb_spec k' k) as [->|Hne]; simpl.
    + constructor; assumption.
    + constructor; [|apply IH, Hd].
      intros Hin. apply (dict_set_In k k' v d) in Hin.
      destruct Hin as [Hin|Hin]; [congruence|contradiction].
Qed.

Lemma replace_NoDup (k js : string) (rows : list (string * string)) :
  NoDup (map fst rows) ->
  NoDup (map fst (filter (fun r => negb (String.eqb (fst r) k)) rows
                  ++ [(k, js)])).
Proof.
  intros H. rewrite map_app. simpl.
  apply NoDup_app; [ | repeat constructor; intros [] | ].
  - induction rows as [|[k' v'] rows IH]; simpl in *; [constructor|].
    inversion H as [|? ? Hnotin Hr]; subst.
    destruct (String.eqb k' k); simpl; [apply IH, Hr|].
    constructor; [|apply IH, Hr].
    intros Hin. apply Hnotin. apply in_map_iff in Hin.
    destruct Hin as (x & Hx & Hin). apply filter_In in Hin.
    apply in_map_iff. exists x. split; [exact Hx|apply Hin].
  - intros x Hin [Hx|[]]. subst x. apply in_map_iff in Hin.
    destruct Hin as ([k' v'] & Hx & Hin). apply filter_In in Hin.
    destruct Hin as [_ Hin]. simpl in *. subst k'.
    rewrite String.eqb_refl in Hin. discriminate.
Qed.

Lemma keys_ok_same (l l' : Logger) :
  streams l' = streams l ->
  streams_tbl (database l') = streams_tbl (database l) ->
  keys_ok l -> keys_ok l'.
Proof. intros Hd Ht [H1 H2]. split; [rewrite Hd|rewrite Ht]; assumption. Qed.

(** Loading the table writes the dict only, sends nothing, and keeps the
    keys of the dict unique. *)
Lemma load_streams_frame (rows : list (string * string)) (w : World) :
  exists d,
    snd (load_streams json_loads rows w) = mkWorld (with_streams d (lg w)) (trace w) /\
    (NoDup (dict_keys (streams (lg w))) -> NoDup (dict_keys d)).
Proof.
  revert w. induction rows as [|[k js] rows IH]; intros w.
  - exists (streams (lg w)). split; [|auto]. simpl.
    destruct w as [[db o a u ls sp st h th ts] tr]; reflexivity.
  - simpl. unfold_monad.
    destruct (json_loads js) as [e|schema].
    + exists (streams (lg w)). split; [|auto]. cbn [snd].
      destruct w as [[db o a u ls sp st h th ts] tr]; reflexivity.
    + cbn [lg trace].
      destruct (IH (mkWorld (with_streams (dict_set k schema (streams (lg w)))
                               (lg w)) (trace w))) as (d & Hd & Hnd).
      exists d. split; [rewrite Hd; reflexivity|].
      intros H. apply Hnd. cbn [lg]. apply dict_set_NoDup, H.
Qed.

Ltac frame_keys :=
  unfold_monad;
  repeat (cbn [lg trace snd fst];
          match goal with
          | |- context [match ?x with _ => _ end] =>
              lazymatch x with
              | context [match _ with _ => _ end] => fail
              | _ => destruct x
              end
          end);
  cbn [lg trace snd fst];
  (eapply keys_ok_same; [..|eassumption]; reflexivity).

Lemma set_apikey_keys (value : string) (w : World) :
  keys_ok (lg w) -> keys_ok (lg (snd (set_apikey value w))).
Proof. intros H. unfold set_apikey. frame_keys. Qed.

Lemma init_rest_keys (apikey : option string) (last : M unit) (w0 : World) :
  keys_ok (lg w0) ->
  (forall w, keys_ok (lg w) -> keys_ok (lg (snd (last w)))) ->
  keys_ok (lg (snd (init_rest apikey last w0))).
Proof.
  intros [Hd Ht] Hlast. unfold init_rest.
  destruct (load_streams_frame (streams_tbl (database (lg w0))) w0)
    as (d & Hw1 & Hnd).
  destruct (load_streams json_loads _ w0) as [[[]|e] w1];
    cbn [snd] in Hw1; subst w1.
  - assert (H1 : keys_ok (lg (mkWorld (with_streams d (lg w0)) (trace w0))))
      by (split; [apply Hnd, Hd|exact Ht]).
    assert (H2 : keys_ok
              (lg (snd (match apikey with
                        | Some k => set_apikey k
                        | None => ret tt
                        end (mkWorld (with_streams d (lg w0)) (trace w0)))))).
    { destruct apikey; [apply set_apikey_keys, H1|exact H1]. }
    destruct (match apikey with
              | Some k => set_apikey k
              | None => ret tt
              end _) as [[[]|e] w2]; cbn [snd] in *; [|exact H2].
    apply Hlast. eapply keys_ok_same; [..|exact H2]; reflexivity.
  - cbn [snd lg]. split; [apply Hnd, Hd|exact Ht].
Qed.

Lemma register_keys (k js : string) (schema : pyvalue) (l : Logger) :
  keys_ok l ->
  keys_ok (with_streams (dict_set k schema (streams l))
             (with_database (replace_stream k js) l)).
Proof.
  intros [Hd Ht]. split.
  - cbn. apply dict_set_NoDup, Hd.
  - cbn. apply replace_NoDup, Ht.
Qed.

Lemma with_cdb_keys (h : option (string * string)) (l : Logger) :
  keys_ok l -> keys_ok (with_cdb h l).
Proof. intros H. eapply keys_ok_same; [..|exact H]; reflexivity. Qed.

Lemma sync_keys (onsyncfail : option (M bool)) (rem : Remote)
    (env : Interference) (now : timestamp) (w : World) :
  keeps_keys onsyncfail ->
  keys_ok (lg w) ->
  keys_ok (lg (snd (sync json_loads onsyncfail rem env now w))).
Proof.
  intros Hkeep H. unfold sync, try_except.
  destruct (sync_cycle_cases rem env now w)
    as [(e & h & c & w1 & Hcycle & Hl)|(h & c & w1 & Hcycle & _ & Hl)];
    rewrite Hcycle.
  - assert (H1 : keys_ok (lg w1)).
    { rewrite Hl. eapply keys_ok_same; [..|exact H]; reflexivity. }
    destruct onsyncfail as [g|]; [|exact H1].
    pose proof (Hkeep g w1 eq_refl H1) as H2. unfold bind.
    destruct (g w1) as [[[|]|e'] w2]; exact H2.
  - cbn [snd]. rewrite Hl.
    eapply keys_ok_same; [..|exact H]; reflexivity.
Qed.

(** X5. The keys of the dict [streams] and of the [streams] table are
    unique in the Logger that the constructor builds from a new file or a
    file of a Logger, and stay unique under every operation, whether it
    returns or raises.  The callbacks are taken to keep them unique. *)
Theorem keys_unique_always (onsyncfail : option (M bool)) :
  keeps_keys onsyncfail ->
  (forall file on_create apikey,
     file_ok file ->
     keeps_keys on_create ->
     keys_ok (lg (snd (__init__ json_loads on_create apikey
                         (mkWorld (blank file) []))))) /\
  (forall o w,
     keys_ok (lg w) ->
     keys_ok (lg (snd (run_op validate json_dumps json_loads check_schema
                         onsyncfail o w)))).
Proof.
  intros Hkeep. split.
  - intros file on_create apikey [Hlen Hnodup] Hcreate.
    destruct (metadata file) as [|r [|r' meta]] eqn:Hm;
      [| |simpl in Hlen; lia].
    + rewrite (init_new file on_create apikey Hm).
      apply init_rest_keys.
      * split; [constructor|exact Hnodup].
      * intros w H. destruct on_create as [f|]; [|exact H].
        exact (Hcreate f w eq_refl H).
    + rewrite (init_existing file r on_create apikey Hm).
      apply init_rest_keys.
      * split; [constructor|exact Hnodup].
      * intros w H. exact H.
  - intros o w H. destruct o; cbn [run_op].
    + unfold addStream, addStream_force, connectordb. unfold_monad.
      repeat (cbn [lg trace snd fst];
              match goal with
              | |- context [match ?x with _ => _ end] =>
                  lazymatch x with
                  | context [match _ with _ => _ end] => fail
                  | _ => destruct x
                  end
              end);
      cbn [lg trace snd fst];
      first [ exact H
            | apply with_cdb_keys; exact H
            | exact (register_keys _ _ _ (lg w) H)
            | exact (register_keys _ _ _ _ (with_cdb_keys _ (lg w) H)) ].
    + unfold addStream_force. unfold_monad.
      destruct (db_open (lg w)); [|exact H].
      destruct (json_dumps schema) as [e|js]; cbn [lg snd]; [exact H|].
      exact (register_keys streamname js schema (lg w) H).
    + destruct (insert_cases streamname value now w)
        as [[e He]|(schema & js & _ & _ & _ & _ & Hins)].
      * rewrite He. exact H.
      * rewrite Hins. eapply keys_ok_same; [..|exact H]; reflexivity.
    + apply sync_keys; assumption.
    + unfold __runsyncer, try_except, bind, raise.
      pose proof (sync_keys onsyncfail rem env now w Hkeep H) as H1.
      destruct (sync json_loads onsyncfail rem env now w) as [[u|e] w1];
        cbn [snd] in *; [|exact H1].
      unfold __setsync. frame_keys.
    + unfold start, connectordb, __setsync. frame_keys.
    + unfold stop. frame_keys.
    + unfold close, stop. frame_keys.
    + unfold __len__. frame_keys.
    + unfold __contains__. frame_keys.
    + unfold set_syncperiod, __setsync. frame_keys.
    + unfold set_lastsynctime. frame_keys.
    + apply set_apikey_keys, H.
    + unfold set_serverurl. frame_keys.
    + unfold get_data. frame_keys.
    + unfold set_data. frame_keys.
    + unfold name, connectordb. frame_keys.
    + unfold connectordb. frame_keys.
Qed.

(** ** Opening the file of a Logger again *)

Lemma tbl_get_In (k js : string) (rows : list (string * string)) :
  NoDup (map fst rows) -> In (k, js) rows -> tbl_get k rows = Some js.
Proof.
  induction rows as [|[k' v'] rows IH]; simpl; intros Hnd Hin; [destruct Hin|].
  inversion Hnd as [|? ? Hnotin Hnd']; subst.
  destruct Hin as [Heq|Hin].
  - inversion Heq; subst. rewrite String.eqb_refl. reflexivity.
  - destruct (String.eqb_spec k' k) as [->|Hne]; [|apply IH; assumption].
    exfalso. apply Hnotin. apply in_map_iff. exists (k, js).
    split; [reflexivity|exact Hin].
Qed.

Lemma load_streams_returns (rows : list (string * string)) :
  Forall (fun r => exists v, json_loads (snd r) = inr v) rows ->
  forall w, fst (load_streams json_loads rows w) = Returned tt.
Proof.
  induction 1 as [|[k js] rows [v Hv] Hall IH]; intros w; [reflexivity|].
  simpl in *. unfold_monad. rewrite Hv. cbn [lg trace]. apply IH.
Qed.

Lemma option_inr_inj (a b : option pyvalue) :
  option_map (@inr exn pyvalue) a = option_map (@inr exn pyvalue) b -> a = b.
Proof. destruct a, b; simpl; intros H; congruence. Qed.

(** X6. Opening the file of a Logger whose caches agree with it gives
    back the same Logger: the constructor returns, does not call
    [on_create], sends nothing, leaves the file as it is, and the new
    object has the same apikey, serverurl, syncperiod and lastsynctime and
    the same schema for every stream; it has no handle and no timer. *)
Theorem reopen_restores (l : Logger) (on_create : option (M unit)) :
  caches_agree l ->
  NoDup (map fst (streams_tbl (database l))) ->
  exists w',
    __init__ json_loads on_create None (mkWorld (blank (database l)) [])
      = (Returned tt, w') /\
    trace w' = [] /\
    database (lg w') = database l /\
    __apikey (lg w') = __apikey l /\
    __serverurl (lg w') = __serverurl l /\
    __syncperiod (lg w') = __syncperiod l /\
    __lastsync (lg w') = __lastsync l /\
    (forall k, dict_get k (streams (lg w')) = dict_get k (streams l)) /\
    db_open (lg w') = true /\
    __cdb (lg w') = None /\
    syncthread (lg w') = None /\
    timers (lg w') = [].
Proof.
  intros [(r & Hm & Hk & Hu & Hp & Hs) Hd] Hnodup.
  rewrite (init_existing (database l) r on_create None Hm).
  unfold init_rest, ret.
  set (w0 := mkWorld (loaded r (database l)) []).
  change (streams_tbl (database (lg w0))) with (streams_tbl (database l)).
  assert (Hdec : Forall (fun row => exists v, json_loads (snd row) = inr v)
                   (streams_tbl (database l))).
  { apply Forall_forall. intros [k js] Hin.
    pose proof (Hd k) as Hk'.
    rewrite (tbl_get_In k js _ Hnodup Hin) in Hk'. simpl in *.
    destruct (dict_get k (streams l)) as [v|]; [|discriminate].
    exists v. simpl in Hk'. congruence. }
  pose proof (load_streams_returns _ Hdec w0) as Hret.
  destruct (load_streams_frame (streams_tbl (database l)) w0)
    as (d & Hw1 & _).
  destruct (load_streams json_loads (streams_tbl (database l)) w0)
    as [o w1] eqn:Hload.
  cbn [fst snd] in *. subst o w1.
  destruct (load_streams_agree _ Hnodup _ _ Hload) as [_ Hget].
  cbn [lg trace streams with_streams] in *.
  eexists. split; [reflexivity|]. cbn [lg trace].
  split; [reflexivity|].
  split; [destruct l as [[c s m] o k u ls sp st h th ts]; reflexivity|].
  split; [rewrite Hk; reflexivity|]. split; [rewrite Hu; reflexivity|].
  split; [rewrite Hp; reflexivity|]. split; [rewrite Hs; reflexivity|].
  split; [|repeat split].
  intros k. apply option_inr_inj.
  change (streams (with_cdb None (with_timers None [] (with_streams d ?x))))
    with d.
  rewrite Hget, Hd. simpl.
  destruct (tbl_get k (streams_tbl (database l))); reflexivity.
Qed.

(** ** The timer *)

Lemma fire_nth (i : nat) (ts ts' : list timer_state) :
  fire i ts = Some ts' ->
  forall j, nth_error ts' j =
              if Nat.eqb i j then Some Fired else nth_error ts j.
Proof.
  revert i ts'. induction ts as [|t ts IH]; intros i ts' H j.
  - destruct i; discriminate.
  - destruct i as [|i].
    + destruct t; simpl in H; try discriminate. inversion H; subst.
      destruct j; reflexivity.
    + assert (H' : option_map (cons t) (fire i ts) = Some ts')
        by (destruct t; exact H).
      destruct (fire i ts) as [ts0|] eqn:Hf; [|discriminate].
      inversion H'; subst. destruct j as [|j]; [reflexivity|].
      simpl. apply (IH i ts0 Hf).
Qed.

Lemma setsync_only_current (w : World) :
  only_current_waiting (lg w) ->
  only_current_waiting (lg (snd (__setsync w))).
Proof.
  intros Honly. unfold __setsync, modify. cbn [snd lg].
  set (ts := match syncthread (lg w) with
             | Some i => cancel i (timers (lg w))
             | None => timers (lg w)
             end).
  assert (Hnone : forall j p, nth_error ts j <> Some (Waiting p)).
  { intros j p Hj. unfold ts in Hj.
    destruct (syncthread (lg w)) as [i|] eqn:Hst.
    - rewrite cancel_nth in Hj.
      destruct (nth_error (timers (lg w)) j) as [[q| |]|] eqn:Hnth;
        try discriminate.
      apply Honly in Hnth. rewrite Hst in Hnth. inversion Hnth; subst.
      rewrite Nat.eqb_refl in Hj. discriminate.
    - apply Honly in Hj. congruence. }
  intros j p Hj. cbn [timers syncthread with_timers] in *.
  destruct (Nat.lt_ge_cases j (List.length ts)) as [Hlt|Hge].
  - rewrite nth_error_app1 in Hj by exact Hlt. exfalso. exact (Hnone j p Hj).
  - rewrite nth_error_app2 in Hj by exact Hge.
    destruct (j - List.length ts)%nat as [|n] eqn:Hn.
    + f_equal. lia.
    + destruct n; discriminate.
Qed.

(** The try block of [sync] never touches the timers. *)
Lemma sync_cycle_timers (rem : Remote) (env : Interference)
    (now : timestamp) (w : World) :
  timers (lg (snd (sync_cycle json_loads rem env now w))) = timers (lg w) /\
  syncthread (lg (snd (sync_cycle json_loads rem env now w)))
    = syncthread (lg w).
Proof.
  destruct (sync_cycle_cases rem env now w)
    as [(e & h & c & w1 & Hcycle & Hl)|(h & c & w1 & Hcycle & _ & Hl)];
    rewrite Hcycle; cbn [snd]; rewrite Hl; split; reflexivity.
Qed.

Lemma sync_timers (onsyncfail : option (M bool)) (rem : Remote)
    (env : Interference) (now : timestamp) (w : World) :
  keeps_timers onsyncfail ->
  timers (lg (snd (sync json_loads onsyncfail rem env now w))) = timers (lg w) /\
  syncthread (lg (snd (sync json_loads onsyncfail rem env now w)))
    = syncthread (lg w).
Proof.
  intros Hkeep. pose proof (sync_cycle_timers rem env now w) as Hc.
  unfold sync, try_except.
  destruct (sync_cycle json_loads rem env now w) as [[[]|e] w1];
    cbn [snd] in *; [exact Hc|].
  destruct onsyncfail as [g|]; [|exact Hc].
  destruct (Hkeep g w1 eq_refl) as [H1 H2]. unfold bind, raise, ret.
  destruct (g w1) as [[[|]|e'] w2]; cbn [snd] in *;
    (split; [rewrite H1; apply Hc|rewrite H2; apply Hc]).
Qed.

Lemma only_current_same (l l' : Logger) :
  timers l' = timers l -> syncthread l' = syncthread l ->
  only_current_waiting l -> only_current_waiting l'.
Proof.
  intros Ht Hs H j p Hj. rewrite Ht in Hj. rewrite Hs. exact (H j p Hj).
Qed.

Lemma start_only_current (rem : Remote) (w : World) :
  only_current_waiting (lg w) ->
  only_current_waiting (lg (snd (start rem w))).
Proof.
  intros H. unfold start, connectordb. unfold_monad.
  destruct (__cdb (lg w)); cbn [lg trace].
  - destruct (syncthread (lg w)) eqn:Hst; [exact H|].
    apply (setsync_only_current w H).
  - destruct (rem_connect rem _ _); cbn [lg trace snd]; [exact H|].
    change (syncthread (with_cdb ?h ?l)) with (syncthread l).
    destruct (syncthread (lg w)) eqn:Hst; cbn [snd lg].
    + eapply only_current_same; [..|exact H]; reflexivity.
    + apply (setsync_only_current (mkWorld (with_cdb _ (lg w)) _)).
      eapply only_current_same; [..|exact H]; reflexivity.
Qed.

Lemma stop_only_current (w : World) :
  only_current_waiting (lg w) ->
  only_current_waiting (lg (snd (stop w))).
Proof.
  intros H. pose proof (stop_cancels w) as (_ & _ & Hnone & _).
  specialize (Hnone H). intros j p Hj.
  exfalso. exact (proj1 (none_waiting_nth _) Hnone j p Hj).
Qed.

Lemma close_only_current (w : World) :
  only_current_waiting (lg w) ->
  only_current_waiting (lg (snd (close w))).
Proof.
  intros H. pose proof (stop_only_current w H) as Hs.
  unfold close, bind. unfold stop, modify in *. cbn [snd lg] in *.
  eapply only_current_same; [..|exact Hs]; reflexivity.
Qed.

Lemma set_syncperiod_only_current (value : number) (w : World) :
  only_current_waiting (lg w) ->
  only_current_waiting (lg (snd (set_syncperiod value w))).
Proof.
  intros H. unfold set_syncperiod. unfold_monad. cbn [lg trace].
  change (db_open (with_syncperiod (number_value value) (lg w)))
    with (db_open (lg w)).
  change (syncthread (with_syncperiod (number_value value) (lg w)))
    with (syncthread (lg w)).
  destruct (db_open (lg w)); cbn [snd lg trace];
    [|eapply only_current_same; [..|exact H]; reflexivity].
  destruct (bind_real value) as [e|stored]; cbn [snd lg trace];
    [eapply only_current_same; [..|exact H]; reflexivity|].
  destruct (syncthread (lg w)) eqn:Hst; cbn [snd lg trace].
  - apply (setsync_only_current (mkWorld _ _)). cbn [lg].
    eapply only_current_same; [..|exact H]; reflexivity.
  - eapply only_current_same; [..|exact H]; reflexivity.
Qed.

(** Operations that neither call [stop] nor [__setsync]. *)
Ltac frame_timers :=
  unfold_monad;
  repeat (cbn [lg trace snd fst];
          match goal with
          | |- context [match ?x with _ => _ end] =>
              lazymatch x with
              | context [match _ with _ => _ end] => fail
              | _ => destruct x
              end
          end);
  cbn [lg trace snd fst]; split; reflexivity.

Lemma op_timers (onsyncfail : option (M bool)) (o : op) (w : World) :
  keeps_timers onsyncfail ->
  timer_free o = true ->
  timers (lg (snd (run_op validate json_dumps json_loads check_schema
                     onsyncfail o w))) = timers (lg w) /\
  syncthread (lg (snd (run_op validate json_dumps json_loads check_schema
                         onsyncfail o w))) = syncthread (lg w).
Proof.
  intros Hkeep Hfree. destruct o; try discriminate Hfree; cbn [run_op].
  - unfold addStream, addStream_force, connectordb. frame_timers.
  - unfold addStream_force. frame_timers.
  - unfold insert. frame_timers.
  - apply sync_timers, Hkeep.
  - unfold __len__. frame_timers.
  - unfold __contains__. frame_timers.
  - unfold set_lastsynctime. frame_timers.
  - unfold set_apikey. frame_timers.
  - unfold set_serverurl. frame_timers.
  - unfold get_data. frame_timers.
  - unfold set_data. frame_timers.
  - unfold name, connectordb. frame_timers.
  - unfold connectordb. frame_timers.
Qed.

(** [start] with a timer in [syncthread] leaves the timers alone. *)
Lemma start_when_running (rem : Remote) (w : World) (i : nat) :
  syncthread (lg w) = Some i ->
  timers (lg (snd (start rem w))) = timers (lg w) /\
  syncthread (lg (snd (start rem w))) = syncthread (lg w).
Proof.
  intros E. unfold start, connectordb. unfold_monad.
  destruct (__cdb (lg w)); cbn [lg trace snd].
  - rewrite E. split; [reflexivity|exact E].
  - destruct (rem_connect rem _ _); cbn [lg trace snd];
      [split; reflexivity|].
    change (syncthread (with_cdb ?h ?l)) with (syncthread l).
    rewrite E. split; [reflexivity|exact E].
Qed.

Lemma op_only_current (onsyncfail : option (M bool)) (o : op) (w : World) :
  keeps_timers onsyncfail ->
  only_current_waiting (lg w) ->
  only_current_waiting
    (lg (snd (run_op validate json_dumps json_loads check_schema
                onsyncfail o w))).
Proof.
  intros Hkeep H. destruct (timer_free o) eqn:Hfree.
  - destruct (op_timers onsyncfail o w Hkeep Hfree) as [Ht Hs].
    eapply only_current_same; [exact Ht|exact Hs|exact H].
  - destruct o; try discriminate Hfree; cbn [run_op].
    + unfold __runsyncer, try_except, bind, raise.
      destruct (sync_timers onsyncfail rem env now w Hkeep) as [Ht Hs].
      destruct (sync json_loads onsyncfail rem env now w) as [[u|e] w1];
        cbn [snd] in *.
      * apply setsync_only_current.
        eapply only_current_same; [exact Ht|exact Hs|exact H].
      * eapply only_current_same; [exact Ht|exact Hs|exact H].
    + apply start_only_current, H.
    + apply stop_only_current, H.
    + apply close_only_current, H.
    + apply set_syncperiod_only_current, H.
Qed.

(** X11. The Logger has at most one waiting timer, and it is the one in
    [syncthread]: this holds when there is no timer, and every step of the
    application and of the timer threads keeps it. *)
Theorem one_timer_waiting (onsyncfail : option (M bool))
    (acts : list action) :
  keeps_timers onsyncfail ->
  forall s s',
    only_current_waiting (lg (world s)) ->
    run validate json_dumps json_loads check_schema onsyncfail acts s
      = Some s' ->
    only_current_waiting (lg (world s')) /\
    forall i j p q,
      nth_error (timers (lg (world s'))) i = Some (Waiting p) ->
      nth_error (timers (lg (world s'))) j = Some (Waiting q) ->
      i = j.
Proof.
  intros Hkeep.
  assert (Hstep : forall a s s',
            only_current_waiting (lg (world s)) ->
            step validate json_dumps json_loads check_schema onsyncfail a s
              = Some s' ->
            only_current_waiting (lg (world s'))).
  { intros a s s' H Hs. destruct a as [o|i|i rem env now|i];
      cbn [step] in Hs.
    - destruct (public o); [|discriminate].
      inversion Hs; subst. cbn [world].
      apply op_only_current; assumption.
    - destruct (fire i (timers (lg (world s)))) as [ts|] eqn:Hf;
        [|discriminate].
      inversion Hs; subst. cbn [world lg]. intros j p Hj.
      cbn [timers syncthread with_timers] in *.
      rewrite (fire_nth i _ _ Hf j) in Hj.
      destruct (Nat.eqb i j); [discriminate|]. exact (H j p Hj).
    - destruct (has_runner i InSync (runners s)); [|discriminate].
      destruct (sync_timers onsyncfail rem env now (world s) Hkeep)
        as [Ht Hst].
      destruct (sync json_loads onsyncfail rem env now (world s))
        as [[u|e] w1]; cbn [snd] in *; inversion Hs; subst; cbn [world];
        (eapply only_current_same; [exact Ht|exact Hst|exact H]).
    - destruct (has_runner i AtSetsync (runners s)); [|discriminate].
      inversion Hs; subst. cbn [world]. apply setsync_only_current, H. }
  induction acts as [|a acts IH]; intros s s' H Hr.
  - inversion Hr; subst. split; [exact H|].
    intros i j p q Hi Hj. apply H in Hi. apply H in Hj. congruence.
  - change (run validate json_dumps json_loads check_schema onsyncfail
              (a :: acts) s)
      with (match step validate json_dumps json_loads check_schema
                    onsyncfail a s with
            | None => None
            | Some s1 => run validate json_dumps json_loads check_schema
                           onsyncfail acts s1
            end) in Hr.
    destruct (step validate json_dumps json_loads check_schema onsyncfail
                a s) as [s1|] eqn:Hs;
      [|discriminate].
    apply (IH s1 s'); [apply (Hstep a s s1 H Hs)|exact Hr].
Qed.

(** ** An idle schedule *)

(** Without a timer in [syncthread], only [start] touches the timers. *)
Lemma idle_op (onsyncfail : option (M bool)) (o : op) (w : World) :
  keeps_timers onsyncfail ->
  public o = true ->
  is_start (ACall o) = false ->
  syncthread (lg w) = None ->
  timers (lg (snd (run_op validate json_dumps json_loads check_schema
                     onsyncfail o w))) = timers (lg w) /\
  syncthread (lg (snd (run_op validate json_dumps json_loads check_schema
                         onsyncfail o w))) = None.
Proof.
  intros Hkeep Hpub Hns Hst. destruct (timer_free o) eqn:Hfree.
  - destruct (op_timers onsyncfail o w Hkeep Hfree) as [Ht Hs].
    split; [exact Ht|rewrite Hs; exact Hst].
  - destruct o; try discriminate; cbn [run_op].
    + unfold stop, modify. cbn [snd lg]. rewrite Hst.
      split; [reflexivity|exact Hst].
    + unfold close, stop. unfold_monad. cbn [snd lg]. rewrite Hst.
      split; [reflexivity|exact Hst].
    + unfold set_syncperiod. unfold_monad. cbn [lg trace].
      change (db_open (with_syncperiod (number_value value) (lg w)))
        with (db_open (lg w)).
      change (syncthread (with_syncperiod (number_value value) (lg w)))
        with (syncthread (lg w)).
      rewrite Hst.
      destruct (db_open (lg w)); cbn [snd lg trace];
        [|split; [reflexivity|exact Hst]].
      destruct (bind_real value); cbn [snd lg trace];
        (split; [reflexivity|exact Hst]).
Qed.

(** With no timer waiting, no timer thread alive and no timer in
    [syncthread], nothing but [start] begins a sync cycle. *)
Lemma stopped_stays (onsyncfail : option (M bool)) (acts : list action) :
  keeps_timers onsyncfail ->
  forall s s',
    runners s = [] ->
    none_waiting (timers (lg (world s))) = true ->
    syncthread (lg (world s)) = None ->
    forallb (fun a => negb (is_start a)) acts = true ->
    run validate json_dumps json_loads check_schema onsyncfail acts s
      = Some s' ->
    cycles s' = cycles s /\ runners s' = [] /\
    none_waiting (timers (lg (world s'))) = true /\
    syncthread (lg (world s')) = None.
Proof.
  intros Hkeep.
  induction acts as [|a acts IH]; intros s s' Hrun Hnone Hst Hacts Hr.
  - inversion Hr; subst. auto.
  - simpl in Hacts. apply andb_true_iff in Hacts.
    destruct Hacts as [Ha Hacts]. apply negb_true_iff in Ha.
    change (run validate json_dumps json_loads check_schema onsyncfail
              (a :: acts) s)
      with (match step validate json_dumps json_loads check_schema
                    onsyncfail a s with
            | None => None
            | Some s1 => run validate json_dumps json_loads check_schema
                           onsyncfail acts s1
            end) in Hr.
    destruct a as [o|i|i rem env now|i]; cbn [step] in Hr.
    + destruct (public o) eqn:Hpub; [|discriminate].
      destruct (idle_op onsyncfail o (world s) Hkeep Hpub Ha Hst)
        as [Ht Hs].
      destruct (IH (mkSystem
                      (snd (run_op validate json_dumps json_loads
                              check_schema onsyncfail o (world s)))
                      (runners s) (cycles s))
                  s' Hrun) as (Hc & Hr' & Hn & Hs');
        cbn [world runners cycles]; try assumption; auto.
      rewrite Ht. exact Hnone.
    + rewrite (fire_none_waiting i _ Hnone) in Hr. discriminate.
    + rewrite Hrun in Hr. discriminate.
    + rewrite Hrun in Hr. discriminate.
Qed.

(** X4. [stop] while no sync is in progress, when only the current timer
    could fire: the step returns with no timer in [syncthread], and from
    then on no sync cycle begins and no timer waits, whatever public
    operations the application calls, until it calls [start].  The
    callback is taken to leave the timers alone. *)
Theorem stop_ends_schedule (onsyncfail : option (M bool)) (s : System)
    (acts : list action) :
  keeps_timers onsyncfail ->
  runners s = [] ->
  only_current_waiting (lg (world s)) ->
  forallb (fun a => negb (is_start a)) acts = true ->
  exists s1,
    step validate json_dumps json_loads check_schema onsyncfail AStop s
      = Some s1 /\
    syncthread (lg (world s1)) = None /\
    forall s',
      run validate json_dumps json_loads check_schema onsyncfail acts s1
        = Some s' ->
      cycles s' = cycles s /\
      none_waiting (timers (lg (world s'))) = true.
Proof.
  intros Hkeep Hrun Honly Hacts.
  eexists. split; [reflexivity|]. cbn [world run_op].
  destruct (stop_cancels (world s)) as (_ & Hst & Hnone & _).
  split; [exact Hst|]. intros s' Hr.
  destruct (stopped_stays onsyncfail acts Hkeep
              (mkSystem (snd (stop (world s))) (runners s) (cycles s))
              s' Hrun (Hnone Honly) Hst Hacts Hr) as (Hc & _ & Hn & _).
  split; assumption.
Qed.

(** ** A schedule that has died *)

(** With its timer fired, no timer thread alive and [syncthread] still
    set, the Logger does not sync again by itself: [start] sees
    [syncthread] and does nothing.  Only [stop] (or [close]) followed by
    [start], or the setter of [syncperiod], starts a timer again. *)
Lemma dead_schedule_stays (onsyncfail : option (M bool))
    (acts : list action) :
  keeps_timers onsyncfail ->
  forall s s',
    runners s = [] ->
    none_waiting (timers (lg (world s))) = true ->
    syncthread (lg (world s)) <> None ->
    forallb leaves_schedule acts = true ->
    run validate json_dumps json_loads check_schema onsyncfail acts s
      = Some s' ->
    cycles s' = cycles s /\
    none_waiting (timers (lg (world s'))) = true.
Proof.
  intros Hkeep.
  induction acts as [|a acts IH]; intros s s' Hrun Hnone Hst Hacts Hr.
  - inversion Hr; subst. auto.
  - simpl in Hacts. apply andb_true_iff in Hacts.
    destruct Hacts as [Ha Hacts].
    change (run validate json_dumps json_loads check_schema onsyncfail
              (a :: acts) s)
      with (match step validate json_dumps json_loads check_schema
                    onsyncfail a s with
            | None => None
            | Some s1 => run validate json_dumps json_loads check_schema
                           onsyncfail acts s1
            end) in Hr.
    destruct a as [o|i|i rem env now|i]; cbn [step] in Hr.
    + destruct (public o) eqn:Hpub; [|discriminate].
      assert (Hsame :
                timers (lg (snd (run_op validate json_dumps json_loads
                                   check_schema onsyncfail o (world s))))
                = timers (lg (world s)) /\
                syncthread (lg (snd (run_op validate json_dumps json_loads
                                       check_schema onsyncfail o (world s))))
                = syncthread (lg (world s))).
      { destruct (timer_free o) eqn:Hfree.
        - exact (op_timers onsyncfail o (world s) Hkeep Hfree).
        - destruct o; try discriminate; cbn [run_op].
          destruct (syncthread (lg (world s))) as [j|] eqn:E; [|congruence].
          destruct (start_when_running rem (world s) j E) as [H1 H2].
          split; [exact H1|rewrite H2; exact E]. }
      destruct Hsame as [Ht Hs].
      apply (IH (mkSystem
                   (snd (run_op validate json_dumps json_loads check_schema
                           onsyncfail o (world s)))
                   (runners s) (cycles s)) s');
        cbn [world runners cycles]; try assumption.
      * rewrite Ht. exact Hnone.
      * rewrite Hs. exact Hst.
    + rewrite (fire_none_waiting i _ Hnone) in Hr. discriminate.
    + rewrite Hrun in Hr. discriminate.
    + rewrite Hrun in Hr. discriminate.
Qed.

(** X12. When [sync] raises in the timer thread, [__runsyncer] raises a
    [NameError] from its [except] clause and does not reach [__setsync]:
    no timer is started.  From then on, with the fired timer still in
    [syncthread], no sync cycle begins and no timer waits whatever public
    operations the application calls, [start] included, as long as it
    calls neither [stop] nor [close] nor the setter of [syncperiod].  That
    setter, on an open database and with a number that can be stored,
    sees the fired timer in [syncthread] and starts a timer again. *)
Theorem failed_sync_ends_schedule (rem : Remote) (env : Interference)
    (now : timestamp) (s : System) (i j : nat) (e : exn) (w1 : World) :
  sync json_loads None rem env now (world s) = (Raised e, w1) ->
  runners s = [(i, InSync)] ->
  none_waiting (timers (lg (world s))) = true ->
  syncthread (lg (world s)) = Some j ->
  __runsyncer json_loads None rem env now (world s) =
    (Raised (Raise "NameError" "name 'e' is not defined"), w1) /\
  timers (lg w1) = timers (lg (world s)) /\
  exists s1,
    step validate json_dumps json_loads check_schema None
      (ASyncEnds i rem env now) s = Some s1 /\
    runners s1 = [] /\
    world s1 = w1 /\
    (forall acts s',
       forallb leaves_schedule acts = true ->
       run validate json_dumps json_loads check_schema None acts s1
         = Some s' ->
       cycles s' = cycles s /\
       none_waiting (timers (lg (world s'))) = true) /\
    (forall value stored,
       db_open (lg w1) = true ->
       bind_real value = inr stored ->
       timers (lg (snd (set_syncperiod value w1)))
         = timers (lg (world s)) ++ [Waiting (number_value value)] /\
       syncthread (lg (snd (set_syncperiod value w1)))
         = Some (List.length (timers (lg (world s))))).
Proof.
  intros Hsync Hrun Hnone Hst.
  assert (Hkeep : keeps_timers None) by (intros g w H; discriminate H).
  destruct (sync_timers None rem env now (world s) Hkeep) as [Ht Hs].
  rewrite Hsync in Ht, Hs. cbn [snd] in Ht, Hs.
  split; [|split; [exact Ht|]].
  - unfold __runsyncer, try_except, bind, raise. rewrite Hsync. reflexivity.
  - eexists. cbn [step]. rewrite Hrun. cbn [has_runner].
    rewrite Nat.eqb_refl. cbn [andb orb]. rewrite Hsync.
    split; [reflexivity|]. cbn [runners drop_runner filter fst].
    rewrite Nat.eqb_refl. cbn [negb].
    split; [reflexivity|]. cbn [world]. split; [reflexivity|]. split.
    + intros acts s' Hacts Hr.
      apply (dead_schedule_stays None acts Hkeep _ s') in Hr;
        cbn [world runners cycles] in *; try assumption; try reflexivity.
      * rewrite Ht. exact Hnone.
      * rewrite Hs, Hst. discriminate.
    + intros value stored Hopen Hbind.
      assert (Hcancel : cancel j (timers (lg w1)) = timers (lg w1)).
      { rewrite Ht. clear - Hnone. revert j.
        induction (timers (lg (world s))) as [|t ts IH]; intros j.
        - destruct j; reflexivity.
        - simpl in Hnone. apply andb_true_iff in Hnone.
          destruct Hnone as [Ht Hts].
          destruct j as [|j]; destruct t; try discriminate Ht;
            simpl; try reflexivity; rewrite (IH Hts j); reflexivity. }
      unfold set_syncperiod, __setsync. unfold_monad. cbn [lg trace].
      change (db_open (with_syncperiod (number_value value) (lg w1)))
        with (db_open (lg w1)).
      change (syncthread (with_syncperiod (number_value value) (lg w1)))
        with (syncthread (lg w1)).
      rewrite Hopen, Hbind, Hs, Hst. cbn [snd lg trace].
      cbn [syncthread timers with_timers with_database with_syncperiod
           __syncperiod].
      rewrite Hs, Hst, Hcancel, Ht. split; reflexivity.
Qed.

(** ** The setter of [syncperiod] *)

(** An int of at most 53 bits is a double. *)
Lemma int_to_real_small (z : Z) :
  (Z.abs z < 2 ^ 53)%Z -> int_to_real z = z.
Proof.
  intros H. unfold int_to_real.
  assert (Hk : (Z.log2 (Z.abs z) - 52 <=? 0)%Z = true).
  { apply Z.leb_le. destruct (Z.eq_dec (Z.abs z) 0) as [E|E].
    - rewrite E. simpl. lia.
    - assert (Hpos : (0 < Z.abs z)%Z) by lia.
      apply (Z.log2_lt_pow2 _ 53 Hpos) in H. lia. }
  cbv zeta. rewrite Hk. reflexivity.
Qed.

(** Floats and the ints of at most 53 bits are stored as they are. *)
Lemma stored_exactly_small (value : number) :
  match value with
  | PyFloat _ => True
  | PyInteger z => (Z.abs z < 2 ^ 53)%Z
  end ->
  stored_exactly value.
Proof.
  unfold stored_exactly. destruct value as [z|q]; intros H; [|reflexivity].
  cbn [bind_real number_value].
  assert (Hrange : ((- 2 ^ 63 <=? z) && (z <? 2 ^ 63))%Z = true).
  { apply andb_true_iff. split; [apply Z.leb_le|apply Z.ltb_lt]; lia. }
  rewrite Hrange, (int_to_real_small z H). reflexivity.
Qed.

(** X9. The setter of [syncperiod], on an open database.  The attribute
    is assigned first and holds the number that was given; no request is
    sent and the cache of datapoints is untouched.  When the number can be
    bound (a float, or an int of 64 bits), the setter returns and every
    row of [metadata] holds what the REAL column stores for it; when
    a timer is in [syncthread] it is cancelled and a new timer is started
    that waits the new period, and when none is, none is started.  When
    the number cannot be bound, the setter raises that error after the
    attribute was assigned: the file and the timers are as they were. *)
Theorem set_syncperiod_rearms (value : number) (w : World) :
  db_open (lg w) = true ->
  __syncperiod (lg (snd (set_syncperiod value w))) = number_value value /\
  trace (snd (set_syncperiod value w)) = trace w /\
  cache (database (lg (snd (set_syncperiod value w))))
    = cache (database (lg w)) /\
  (forall stored, bind_real value = inr stored ->
     fst (set_syncperiod value w) = Returned tt /\
     Forall (fun r => m_syncperiod r = stored)
       (metadata (database (lg (snd (set_syncperiod value w))))) /\
     (syncthread (lg w) = None ->
      timers (lg (snd (set_syncperiod value w))) = timers (lg w) /\
      syncthread (lg (snd (set_syncperiod value w))) = None) /\
     (forall i, syncthread (lg w) = Some i ->
      timers (lg (snd (set_syncperiod value w)))
        = cancel i (timers (lg w)) ++ [Waiting (number_value value)] /\
      syncthread (lg (snd (set_syncperiod value w)))
        = Some (List.length (cancel i (timers (lg w)))))) /\
  (forall e, bind_real value = inl e ->
     fst (set_syncperiod value w) = Raised e /\
     database (lg (snd (set_syncperiod value w))) = database (lg w) /\
     timers (lg (snd (set_syncperiod value w))) = timers (lg w) /\
     syncthread (lg (snd (set_syncperiod value w))) = syncthread (lg w)).
Proof.
  intros Hopen. unfold set_syncperiod, __setsync. unfold_monad.
  cbn [lg trace].
  change (db_open (with_syncperiod (number_value value) (lg w)))
    with (db_open (lg w)).
  change (syncthread (with_syncperiod (number_value value) (lg w)))
    with (syncthread (lg w)).
  rewrite Hopen. cbn [lg trace].
  destruct (bind_real value) as [e|stored] eqn:Hbind.
  - cbn [fst snd lg trace]. split; [reflexivity|]. split; [reflexivity|].
    split; [reflexivity|]. split.
    + intros stored H. discriminate H.
    + intros e' H. inversion H; subst. repeat split.
  - assert (Hmeta : Forall (fun r => m_syncperiod r = stored)
                      (map (set_m_syncperiod stored)
                         (metadata (database (lg w))))).
    { apply Forall_forall. intros r Hin. apply in_map_iff in Hin.
      destruct Hin as (r0 & <- & _). reflexivity. }
    destruct (syncthread (lg w)) as [i|] eqn:Hst; cbn [fst snd lg trace];
      cbn [syncthread timers with_timers with_database with_syncperiod
           __syncperiod metadata database update_metadata with_metadata
           cache];
      rewrite ?Hst.
    + split; [reflexivity|]. split; [reflexivity|]. split; [reflexivity|].
      split; [|intros e H; discriminate H].
      intros stored' H. inversion H; subst stored'.
      split; [reflexivity|]. split; [exact Hmeta|]. split.
      * intros H'; discriminate H'.
      * intros i0 H'. inversion H'; subst. split; reflexivity.
    + split; [reflexivity|]. split; [reflexivity|]. split; [reflexivity|].
      split; [|intros e H; discriminate H].
      intros stored' H. inversion H; subst stored'.
      split; [reflexivity|]. split; [exact Hmeta|]. split.
      * intros _. split; reflexivity.
      * intros i0 H'. discriminate H'.
Qed.

(** X10. [start]: when a timer is already in [syncthread] no timer is
    started; when the handle cannot be built [start] raises that error
    and starts no timer; otherwise it returns after starting one timer
    that waits [syncperiod], and it sends no ping and no upload. *)
Theorem start_cases (rem : Remote) (w : World) :
  (forall i, syncthread (lg w) = Some i ->
     timers (lg (snd (start rem w))) = timers (lg w) /\
     syncthread (lg (snd (start rem w))) = Some i) /\
  (forall e,
     __cdb (lg w) = None ->
     rem_connect rem (__apikey (lg w)) (__serverurl (lg w)) = Some e ->
     fst (start rem w) = Raised e /\
     timers (lg (snd (start rem w))) = timers (lg w) /\
     syncthread (lg (snd (start rem w))) = syncthread (lg w)) /\
  (handle_ok rem (lg w) ->
   syncthread (lg w) = None ->
   fst (start rem w) = Returned tt /\
   timers (lg (snd (start rem w)))
     = timers (lg w) ++ [Waiting (__syncperiod (lg w))] /\
   syncthread (lg (snd (start rem w))) = Some (List.length (timers (lg w)))) /\
  (forall ev, In ev (trace (snd (start rem w))) ->
     In ev (trace w) \/
     ev = EvConnect (__apikey (lg w)) (__serverurl (lg w))).
Proof.
  assert (Happ : forall ev (tr : list event) (x : event),
            In ev (tr ++ [x]) -> In ev tr \/ ev = x).
  { intros ev tr x Hin. apply in_app_or in Hin.
    destruct Hin as [Hin|[Hin|[]]]; [left; exact Hin|right; symmetry; exact Hin]. }
  unfold start, connectordb, __setsync, handle_ok. unfold_monad.
  destruct (syncthread (lg w)) as [i0|] eqn:Hst;
    destruct (__cdb (lg w)) as [h|] eqn:Hcdb; cbn [lg trace];
    try (destruct (rem_connect rem (__apikey (lg w)) (__serverurl (lg w)))
           as [e0|] eqn:Hconn; cbn [lg trace]);
    cbn [syncthread with_cdb]; rewrite ?Hst; cbn [fst snd lg trace];
    cbn [syncthread timers with_timers with_cdb __syncperiod];
    rewrite ?Hst.
  all: split; [|split; [|split]];
    [ intros i H;
      first [discriminate H | inversion H; subst; split; reflexivity]
    | intros e Hc He;
      first [discriminate Hc | discriminate He
            | inversion He; subst; repeat split]
    | intros Hh H;
      first [discriminate H
            | specialize (Hh eq_refl); discriminate Hh
            | repeat split]
    | intros ev Hin; first [left; exact Hin | apply Happ; exact Hin] ].
Qed.

(** ** Registering a stream *)

(** What [addStream_force] leaves on an open database. *)
Lemma addStream_force_open (streamname js : string) (schema : pyvalue)
    (w : World) :
  db_open (lg w) = true ->
  json_dumps schema = inr js ->
  addStream_force json_dumps streamname schema w =
    (Returned tt,
     mkWorld
       (with_streams (dict_set streamname schema (streams (lg w)))
          (with_database (replace_stream streamname js) (lg w)))
       (trace w)).
Proof.
  intros Hopen Hjs. unfold addStream_force. unfold_monad.
  rewrite Hopen. cbn [lg trace]. rewrite Hjs. reflexivity.
Qed.

(** C6.  A stream can be registered without a schema:
    [addStream_force(streamname)] with [schema=None] returns and registers
    [None] as it registers any schema, and [streamname in logger] is
    true.  On that stream [insert] does not skip the validation: it calls
    [validate(value, None)], and what that call raises is raised by
    [insert], which buffers nothing.  With a validator that fails on the
    schema [None] whatever the value, as [jsonschema.validate] does, no
    value is ever buffered for that stream. *)
Theorem None_schema_rejects_every_value (streamname js : string)
    (w : World) :
  db_open (lg w) = true ->
  json_dumps PyNone = inr js ->
  exists w',
    addStream_force json_dumps streamname PyNone w = (Returned tt, w') /\
    dict_get streamname (streams (lg w')) = Some PyNone /\
    fst (__contains__ streamname w') = Returned true /\
    (forall value now e,
       validate value PyNone = Some e ->
       insert validate json_dumps streamname value now w' = (Raised e, w')) /\
    ((forall value, validate value PyNone <> None) ->
     forall value now,
       exists e,
         insert validate json_dumps streamname value now w' = (Raised e, w') /\
         __len__ (snd (insert validate json_dumps streamname value now w'))
           = __len__ w').
Proof.
  intros Hopen Hjs. eexists.
  split; [exact (addStream_force_open streamname js PyNone w Hopen Hjs)|].
  cbn [lg trace].
  assert (Hd : dict_get streamname
                 (dict_set streamname PyNone (streams (lg w))) = Some PyNone)
    by (rewrite dict_get_set, String.eqb_refl; reflexivity).
  split; [exact Hd|].
  split; [unfold __contains__, gets; cbn [fst lg]; cbn [streams with_streams];
          rewrite Hd; reflexivity|].
  assert (Hraise : forall value now e,
            validate value PyNone = Some e ->
            insert validate json_dumps streamname value now
              (mkWorld
                 (with_streams (dict_set streamname PyNone (streams (lg w)))
                    (with_database (replace_stream streamname js) (lg w)))
                 (trace w))
            = (Raised e,
               mkWorld
                 (with_streams (dict_set streamname PyNone (streams (lg w)))
                    (with_database (replace_stream streamname js) (lg w)))
                 (trace w))).
  { intros value now e Hval.
    apply (insert_invalid streamname value PyNone e now); [exact Hd|exact Hval]. }
  split; [exact Hraise|].
  intros Hfails value now.
  destruct (validate value PyNone) as [e|] eqn:Hval;
    [|exfalso; exact (Hfails value Hval)].
  exists e. rewrite (Hraise value now e Hval). split; reflexivity.
Qed.

(** X16. After [addStream_force(streamname, schema)] on an open
    database, the stream is registered with that schema, in the dict and
    in the table, whatever was registered under that name before; every
    other stream is registered as it was; the cache of datapoints and the
    metadata are untouched and no request is sent. *)
Theorem addStream_force_registers (streamname js : string)
    (schema : pyvalue) (w : World) :
  db_open (lg w) = true ->
  json_dumps schema = inr js ->
  exists w',
    addStream_force json_dumps streamname schema w = (Returned tt, w') /\
    dict_get streamname (streams (lg w')) = Some schema /\
    tbl_get streamname (streams_tbl (database (lg w'))) = Some js /\
    fst (__contains__ streamname w') = Returned true /\
    (forall k, k <> streamname ->
       dict_get k (streams (lg w')) = dict_get k (streams (lg w)) /\
       tbl_get k (streams_tbl (database (lg w')))
         = tbl_get k (streams_tbl (database (lg w)))) /\
    cache (database (lg w')) = cache (database (lg w)) /\
    metadata (database (lg w')) = metadata (database (lg w)) /\
    trace w' = trace w.
Proof.
  intros Hopen Hjs. eexists.
  split; [exact (addStream_force_open streamname js schema w Hopen Hjs)|].
  cbn [lg trace].
  assert (Hd : dict_get streamname
                 (dict_set streamname schema (streams (lg w))) = Some schema)
    by (rewrite dict_get_set, String.eqb_refl; reflexivity).
  split; [exact Hd|].
  split; [cbn; rewrite tbl_get_replace, String.eqb_refl; reflexivity|].
  split; [unfold __contains__, gets; cbn [fst lg]; cbn [streams with_streams];
          rewrite Hd; reflexivity|].
  split; [|repeat split].
  intros k Hk. apply not_eq_sym, String.eqb_neq in Hk. split.
  - cbn. rewrite dict_get_set, Hk. reflexivity.
  - cbn. rewrite tbl_get_replace, Hk. reflexivity.
Qed.

(** The world once the handle is there. *)
Lemma connectordb_ok (rem : Remote) (w : World) :
  handle_ok rem (lg w) ->
  exists h evs,
    connectordb rem w = (Returned tt, mkWorld (with_cdb h (lg w)) (trace w ++ evs)) /\
    forall s sc, ~ In (EvCreate s sc) evs.
Proof.
  intros Hh. unfold connectordb, handle_ok in *. unfold_monad.
  destruct (__cdb (lg w)) as [h|] eqn:Hcdb.
  - exists (Some h), []. rewrite <- Hcdb, with_cdb_same, app_nil_r, world_eta.
    split; [reflexivity|]. intros s sc [].
  - rewrite (Hh eq_refl). cbn [lg trace]. eexists _, [_].
    split; [reflexivity|]. intros s sc [H|[]]. discriminate H.
Qed.

(** X14. [addStream] on an open database, with a handle.  When the server
    has the stream, it is registered with the schema of the server and
    the schema of the caller is not used.  When the server does not have
    it and the caller gives no schema, the exception that names the stream
    is raised, nothing is registered and no creation is requested.  When
    the caller gives a schema that fails [check_schema], that error is
    raised before a creation is requested and nothing is registered.
    When the schema passes, the creation is requested: if it fails the
    error is raised and nothing is registered, otherwise the stream is
    registered with the schema that the server reports.  Wherever the
    schema of the server is read, an error in decoding it is raised and
    nothing is registered. *)
Theorem addStream_cases (rem : Remote) (streamname : string)
    (schema : pyvalue) (w : World) :
  handle_ok rem (lg w) ->
  db_open (lg w) = true ->
  (rem_exists rem streamname = true ->
   (forall server_schema js,
      rem_schema rem streamname = inr server_schema ->
      json_dumps server_schema = inr js ->
      fst (addStream json_dumps check_schema rem streamname schema w)
        = Returned tt /\
      dict_get streamname
        (streams (lg (snd (addStream json_dumps check_schema rem streamname
                             schema w))))
        = Some server_schema) /\
   (forall e,
      rem_schema rem streamname = inl e ->
      fst (addStream json_dumps check_schema rem streamname schema w)
        = Raised e /\
      streams (lg (snd (addStream json_dumps check_schema rem streamname
                          schema w))) = streams (lg w) /\
      database (lg (snd (addStream json_dumps check_schema rem streamname
                           schema w))) = database (lg w)) /\
   (forall s sc,
      In (EvCreate s sc)
         (trace (snd (addStream json_dumps check_schema rem streamname
                        schema w))) ->
      In (EvCreate s sc) (trace w))) /\
  (rem_exists rem streamname = false ->
   schema = PyNone ->
     fst (addStream json_dumps check_schema rem streamname schema w) =
       Raised (Exception
                 ("The stream '" ++ streamname ++ "' was not found")%string) /\
     streams (lg (snd (addStream json_dumps check_schema rem streamname
                         schema w))) = streams (lg w) /\
     database (lg (snd (addStream json_dumps check_schema rem streamname
                          schema w))) = database (lg w) /\
     forall s sc,
       In (EvCreate s sc)
          (trace (snd (addStream json_dumps check_schema rem streamname
                         schema w))) ->
       In (EvCreate s sc) (trace w)) /\
  (rem_exists rem streamname = false ->
   schema <> PyNone ->
   forall e, check_schema schema = Some e ->
     fst (addStream json_dumps check_schema rem streamname schema w)
       = Raised e /\
     streams (lg (snd (addStream json_dumps check_schema rem streamname
                         schema w))) = streams (lg w) /\
     database (lg (snd (addStream json_dumps check_schema rem streamname
                          schema w))) = database (lg w) /\
     forall s sc,
       In (EvCreate s sc)
          (trace (snd (addStream json_dumps check_schema rem streamname
                         schema w))) ->
       In (EvCreate s sc) (trace w)) /\
  (rem_exists rem streamname = false ->
   schema <> PyNone ->
   check_schema schema = None ->
   forall e, rem_create rem streamname schema = Some e ->
     fst (addStream json_dumps check_schema rem streamname schema w)
       = Raised e /\
     streams (lg (snd (addStream json_dumps check_schema rem streamname
                         schema w))) = streams (lg w) /\
     database (lg (snd (addStream json_dumps check_schema rem streamname
                          schema w))) = database (lg w) /\
     In (EvCreate streamname schema)
        (trace (snd (addStream json_dumps check_schema rem streamname
                       schema w)))) /\
  (rem_exists rem streamname = false ->
   schema <> PyNone ->
   check_schema schema = None ->
   rem_create rem streamname schema = None ->
   In (EvCreate streamname schema)
      (trace (snd (addStream json_dumps check_schema rem streamname
                     schema w))) /\
   (forall server_schema js,
      rem_schema rem streamname = inr server_schema ->
      json_dumps server_schema = inr js ->
      fst (addStream json_dumps check_schema rem streamname schema w)
        = Returned tt /\
      dict_get streamname
        (streams (lg (snd (addStream json_dumps check_schema rem streamname
                             schema w))))
        = Some server_schema) /\
   (forall e,
      rem_schema rem streamname = inl e ->
      fst (addStream json_dumps check_schema rem streamname schema w)
        = Raised e /\
      streams (lg (snd (addStream json_dumps check_schema rem streamname
                          schema w))) = streams (lg w) /\
      database (lg (snd (addStream json_dumps check_schema rem streamname
                           schema w))) = database (lg w))).
Proof.
  intros Hh Hopen.
  destruct (connectordb_ok rem w Hh) as (h & evs & Hconn & Hnocreate).
  set (w1 := mkWorld (with_cdb h (lg w))
                ((trace w ++ evs) ++ [EvExists streamname])).
  set (w2 := mkWorld (with_cdb h (lg w))
                (((trace w ++ evs) ++ [EvExists streamname])
                   ++ [EvCreate streamname schema])).
  set (register := fun wx : World =>
         match rem_schema rem streamname with
         | inl e => (Raised e, wx)
         | inr sch => addStream_force json_dumps streamname sch wx
         end).
  assert (Hrun : addStream json_dumps check_schema rem streamname schema w =
            if rem_exists rem streamname then register w1
            else if match schema with PyNone => true | _ => false end
            then (Raised (Exception ("The stream '" ++ streamname
                                       ++ "' was not found")%string), w1)
            else match check_schema schema with
                 | Some e => (Raised e, w1)
                 | None =>
                     match rem_create rem streamname schema with
                     | Some e => (Raised e, w2)
                     | None => register w2
                     end
                 end).
  { unfold addStream, register. unfold bind at 1. rewrite Hconn.
    unfold_monad. cbn [lg trace]. unfold w1, w2.
    destruct (rem_exists rem streamname);
      [destruct (rem_schema rem streamname); reflexivity|].
    destruct schema; try reflexivity;
      (destruct (check_schema _); [reflexivity|]); cbn [lg trace];
      (destruct (rem_create rem streamname _); [reflexivity|]);
      cbn [lg trace]; destruct (rem_schema rem streamname); reflexivity. }
  assert (Hreg : forall tr sch js,
            rem_schema rem streamname = inr sch ->
            json_dumps sch = inr js ->
            register (mkWorld (with_cdb h (lg w)) tr) =
            (Returned tt,
             mkWorld
               (with_streams (dict_set streamname sch (streams (lg w)))
                  (with_database (replace_stream streamname js)
                     (with_cdb h (lg w)))) tr)).
  { intros tr sch js Hsch Hjs. unfold register. rewrite Hsch.
    exact (addStream_force_open streamname js sch
             (mkWorld (with_cdb h (lg w)) tr) Hopen Hjs). }
  assert (Hfail : forall wx e,
            rem_schema rem streamname = inl e ->
            register wx = (Raised e, wx)).
  { intros wx e Hsch. unfold register. rewrite Hsch. reflexivity. }
  assert (Hget : forall sch,
            dict_get streamname (dict_set streamname sch (streams (lg w)))
            = Some sch)
    by (intros sch; rewrite dict_get_set, String.eqb_refl; reflexivity).
  assert (Hnc : forall tr s sc,
            In (EvCreate s sc) ((trace w ++ evs) ++ tr) ->
            (forall x, In x tr -> x = EvExists streamname) ->
            In (EvCreate s sc) (trace w)).
  { intros tr s sc Hin Htr. apply in_app_or in Hin.
    destruct Hin as [Hin|Hin]; [|apply Htr in Hin; discriminate Hin].
    apply in_app_or in Hin. destruct Hin as [Hin|Hin]; [exact Hin|].
    exfalso. exact (Hnocreate s sc Hin). }
  assert (Hw1 : forall s sc,
            In (EvCreate s sc) (trace w1) -> In (EvCreate s sc) (trace w)).
  { intros s sc Hin. apply (Hnc _ s sc Hin).
    intros x [Hx|[]]. symmetry. exact Hx. }
  assert (Hregtrace : forall wx, trace (snd (register wx)) = trace wx).
  { intros wx. unfold register, addStream_force. unfold_monad.
    destruct (rem_schema rem streamname); [reflexivity|].
    destruct (db_open (lg wx)); [|reflexivity].
    destruct (json_dumps p); reflexivity. }
  rewrite Hrun. split; [|split; [|split; [|split]]].
  - intros Hex. rewrite Hex. split; [|split].
    + intros sch js Hsch Hjs. unfold w1. rewrite (Hreg _ sch js Hsch Hjs).
      cbn [fst snd lg trace]. split; [reflexivity|apply Hget].
    + intros e Hsch. rewrite (Hfail w1 e Hsch). repeat split.
    + intros s sc Hin. rewrite Hregtrace in Hin. exact (Hw1 s sc Hin).
  - intros Hex Hs. subst schema. rewrite Hex. cbn [fst snd].
    split; [reflexivity|]. split; [reflexivity|]. split; [reflexivity|].
    exact Hw1.
  - intros Hex Hs e He. rewrite Hex, He.
    destruct schema; [exfalso; exact (Hs eq_refl)|..]; cbn [fst snd];
      (split; [reflexivity|]); (split; [reflexivity|]);
      (split; [reflexivity|]); exact Hw1.
  - intros Hex Hs Hc e He. rewrite Hex, Hc, He.
    destruct schema; [exfalso; exact (Hs eq_refl)|..]; cbn [fst snd]; unfold w2;
      cbn [lg trace]; (split; [reflexivity|]); (split; [reflexivity|]);
      (split; [reflexivity|]); apply in_or_app; right; left; reflexivity.
  - intros Hex Hs Hc Hcr. rewrite Hex, Hc, Hcr.
    assert (Hev : In (EvCreate streamname schema) (trace w2))
      by (unfold w2; cbn [trace]; apply in_or_app; right; left; reflexivity).
    destruct schema; [exfalso; exact (Hs eq_refl)|..];
      (split; [rewrite Hregtrace; exact Hev|]);
      (split;
       [intros sch js Hsch Hjs; unfold w2; rewrite (Hreg _ sch js Hsch Hjs);
        cbn [fst snd lg trace]; split; [reflexivity|apply Hget]
       |intros e Hsch; rewrite (Hfail w2 e Hsch); repeat split]).
Qed.

(** ** The [data] property *)

(** X8. On an open database with its row of metadata, setting [data] to
    a value that serialises returns, writes only the [userdatajson] column
    and sends nothing; reading [data] afterwards gives
    [json.loads(json.dumps(value))] and changes nothing. *)
Theorem data_roundtrip (value : pyvalue) (js : string) (w : World) :
  db_open (lg w) = true ->
  metadata (database (lg w)) <> [] ->
  json_dumps value = inr js ->
  exists w',
    set_data json_dumps value w = (Returned tt, w') /\
    lg w' = with_database (update_metadata (set_m_userdatajson js)) (lg w) /\
    trace w' = trace w /\
    get_data json_loads w' =
      (match roundtrip value with
       | inr v => Returned v
       | inl e => Raised e
       end, w').
Proof.
  intros Hopen Hmeta Hjs. eexists. split; [|split; [|split]].
  - unfold set_data. unfold_monad. rewrite Hopen. cbn [lg trace].
    rewrite Hjs. reflexivity.
  - reflexivity.
  - reflexivity.
  - unfold get_data, roundtrip. unfold_monad. cbn [lg trace].
    change (db_open (with_database ?f ?l)) with (db_open l).
    rewrite Hopen, Hjs. cbn [lg trace].
    cbn [metadata database with_database update_metadata with_metadata].
    destruct (metadata (database (lg w))) as [|r rows]; [congruence|].
    cbn [map m_userdatajson set_m_userdatajson].
    destruct (json_loads js); reflexivity.
Qed.

(** ** After [close] *)

(** X13. [close] returns, forgets and cancels the timer, and leaves the
    file as it is.  On the closed Logger every [insert] raises and changes
    nothing, [len(logger)] raises the error of the closed connection, and
    [sync] raises without changing the file. *)
Theorem after_close (w : World) :
  fst (close w) = Returned tt /\
  db_open (lg (snd (close w))) = false /\
  syncthread (lg (snd (close w))) = None /\
  database (lg (snd (close w))) = database (lg w) /\
  (only_current_waiting (lg w) ->
   none_waiting (timers (lg (snd (close w)))) = true) /\
  (forall s v t,
     exists e,
       insert validate json_dumps s v t (snd (close w))
         = (Raised e, snd (close w))) /\
  fst (__len__ (snd (close w))) =
    Raised (Raise "ConnectionClosedError" "The connection has been closed") /\
  (forall rem env now,
     exists e w',
       sync json_loads None rem env now (snd (close w)) = (Raised e, w') /\
       database (lg w') = database (lg w)).
Proof.
  destruct (stop_cancels w) as (Hret & Hst & Hnone & _).
  assert (Hclose : close w =
            (Returned tt,
             mkWorld (with_db_open false (lg (snd (stop w))))
               (trace (snd (stop w))))).
  { unfold close, bind. destruct (stop w) as [[[]|e] w1]; cbn [fst] in Hret;
      [reflexivity|discriminate]. }
  assert (Hdb : database (lg (snd (stop w))) = database (lg w)).
  { unfold stop, modify. cbn [snd lg].
    destruct (syncthread (lg w)); reflexivity. }
  rewrite Hclose. cbn [fst snd lg trace].
  set (w' := mkWorld (with_db_open false (lg (snd (stop w))))
               (trace (snd (stop w)))).
  split; [reflexivity|]. split; [reflexivity|]. split; [exact Hst|].
  split; [exact Hdb|]. split; [exact Hnone|].
  split; [|split].
  - intros s v t.
    destruct (insert_cases s v t w')
      as [[e He]|(schema & js & _ & _ & _ & Hopen & _)];
      [exists e; exact He|discriminate Hopen].
  - reflexivity.
  - intros rem env now. rewrite sync_no_handler.
    destruct (reachable_dec rem (lg w')) as [Hreach|[e Hfail]].
    + rewrite (sync_cycle_closed rem env now w' Hreach eq_refl).
      eexists _, _. split; [reflexivity|].
      destruct (connected_set_cache w') as [h Hh]. rewrite Hh. exact Hdb.
    + destruct (sync_cycle_unreachable rem env now w' e Hfail)
        as (h & evs & H).
      rewrite H. eexists _, _. split; [reflexivity|]. exact Hdb.
Qed.

(** X7. On a closed database the setters of [apikey], [serverurl],
    [lastsynctime] and [syncperiod] raise the error of the closed
    connection after they have assigned the attribute: the file keeps the
    old value, so the attribute and the file, which agreed, no longer do.
    The setter of [syncperiod] then does not reach [__setsync]: the
    timers are as they were. *)
Theorem closed_setters_diverge (w : World) :
  db_open (lg w) = false ->
  caches_agree (lg w) ->
  (forall v, v <> __apikey (lg w) ->
     fst (set_apikey v w) =
       Raised (Raise "ConnectionClosedError" "The connection has been closed") /\
     __apikey (lg (snd (set_apikey v w))) = v /\
     database (lg (snd (set_apikey v w))) = database (lg w) /\
     ~ caches_agree (lg (snd (set_apikey v w)))) /\
  (forall v, v <> __serverurl (lg w) ->
     fst (set_serverurl v w) =
       Raised (Raise "ConnectionClosedError" "The connection has been closed") /\
     __serverurl (lg (snd (set_serverurl v w))) = v /\
     database (lg (snd (set_serverurl v w))) = database (lg w) /\
     ~ caches_agree (lg (snd (set_serverurl v w)))) /\
  (forall v, number_value v <> __lastsync (lg w) ->
     fst (set_lastsynctime v w) =
       Raised (Raise "ConnectionClosedError" "The connection has been closed") /\
     __lastsync (lg (snd (set_lastsynctime v w))) = number_value v /\
     database (lg (snd (set_lastsynctime v w))) = database (lg w) /\
     ~ caches_agree (lg (snd (set_lastsynctime v w)))) /\
  (forall v, number_value v <> __syncperiod (lg w) ->
     fst (set_syncperiod v w) =
       Raised (Raise "ConnectionClosedError" "The connection has been closed") /\
     __syncperiod (lg (snd (set_syncperiod v w))) = number_value v /\
     database (lg (snd (set_syncperiod v w))) = database (lg w) /\
     timers (lg (snd (set_syncperiod v w))) = timers (lg w) /\
     syncthread (lg (snd (set_syncperiod v w))) = syncthread (lg w) /\
     ~ caches_agree (lg (snd (set_syncperiod v w)))).
Proof.
  intros Hopen [(r & Hm & Ha & Hs & Hp & Hl) _].
  split; [|split; [|split]]; intros v Hv.
  - rewrite (set_apikey_closed v w Hopen). cbn [fst snd lg].
    split; [reflexivity|]. split; [reflexivity|]. split; [reflexivity|].
    intros [(r' & Hm' & Ha' & _) _].
    change (metadata (database (with_apikey v (lg w))))
      with (metadata (database (lg w))) in Hm'.
    rewrite Hm in Hm'. inversion Hm'; subst r'.
    apply Hv. rewrite Ha. exact Ha'.
  - assert (Hrun : set_serverurl v w =
              (Raised (Raise "ConnectionClosedError"
                         "The connection has been closed"),
               mkWorld (with_serverurl v (lg w)) (trace w))).
    { unfold set_serverurl. unfold_monad. cbn [lg trace].
      change (db_open (with_serverurl v (lg w))) with (db_open (lg w)).
      rewrite Hopen. reflexivity. }
    rewrite Hrun. cbn [fst snd lg].
    split; [reflexivity|]. split; [reflexivity|]. split; [reflexivity|].
    intros [(r' & Hm' & _ & Hs' & _) _].
    change (metadata (database (with_serverurl v (lg w))))
      with (metadata (database (lg w))) in Hm'.
    rewrite Hm in Hm'. inversion Hm'; subst r'.
    apply Hv. rewrite Hs. exact Hs'.
  - assert (Hrun : set_lastsynctime v w =
              (Raised (Raise "ConnectionClosedError"
                         "The connection has been closed"),
               mkWorld (with_lastsync (number_value v) (lg w)) (trace w))).
    { unfold set_lastsynctime. unfold_monad. cbn [lg trace].
      change (db_open (with_lastsync (number_value v) (lg w)))
        with (db_open (lg w)).
      rewrite Hopen. reflexivity. }
    rewrite Hrun. cbn [fst snd lg].
    split; [reflexivity|]. split; [reflexivity|]. split; [reflexivity|].
    intros [(r' & Hm' & _ & _ & _ & Hl') _].
    change (metadata (database (with_lastsync (number_value v) (lg w))))
      with (metadata (database (lg w))) in Hm'.
    rewrite Hm in Hm'. inversion Hm'; subst r'.
    apply Hv. rewrite Hl. exact Hl'.
  - assert (Hrun : set_syncperiod v w =
              (Raised (Raise "ConnectionClosedError"
                         "The connection has been closed"),
               mkWorld (with_syncperiod (number_value v) (lg w)) (trace w))).
    { unfold set_syncperiod. unfold_monad. cbn [lg trace].
      change (db_open (with_syncperiod (number_value v) (lg w)))
        with (db_open (lg w)).
      rewrite Hopen. reflexivity. }
    rewrite Hrun. cbn [fst snd lg].
    split; [reflexivity|]. split; [reflexivity|]. split; [reflexivity|].
    split; [reflexivity|]. split; [reflexivity|].
    intros [(r' & Hm' & _ & _ & Hp' & _) _].
    change (metadata (database (with_syncperiod (number_value v) (lg w))))
      with (metadata (database (lg w))) in Hm'.
    rewrite Hm in Hm'. inversion Hm'; subst r'.
    apply Hv. rewrite Hp. exact Hp'.
Qed.

(** X15. The handle is built once.  When the Logger has a handle,
    setting [apikey] and [serverurl] keeps it: [connectordb] sends
    nothing, [name] only pings and [start] sends nothing, so the new
    values are not used.  When it has none, the first use connects with
    the new values. *)
Theorem handle_built_once (rem : Remote) (k u : string) (w : World) :
  (forall h, __cdb (lg w) = Some h ->
     __cdb (lg (rekeyed k u w)) = Some h /\
     connectordb rem (rekeyed k u w) = (Returned tt, rekeyed k u w) /\
     trace (snd (name rem (rekeyed k u w))) = trace w ++ [EvPing] /\
     trace (snd (start rem (rekeyed k u w))) = trace w) /\
  (__cdb (lg w) = None ->
     __apikey (lg (rekeyed k u w)) = k /\
     __serverurl (lg (rekeyed k u w)) = u /\
     trace (snd (connectordb rem (rekeyed k u w)))
       = trace w ++ [EvConnect k u]).
Proof.
  assert (Hkeyed : exists l,
            rekeyed k u w = mkWorld l (trace w) /\
            __cdb l = __cdb (lg w) /\
            __apikey l = k /\ __serverurl l = u).
  { unfold rekeyed, set_apikey, set_serverurl. unfold_monad.
    cbn [lg trace fst snd].
    change (db_open (with_apikey k (lg w))) with (db_open (lg w)).
    destruct (db_open (lg w)) eqn:Hopen; cbn [lg trace fst snd].
    - change (db_open (with_serverurl u
                (with_database (update_metadata (set_m_apikey k))
                   (with_apikey k (lg w)))))
        with (db_open (lg w)).
      rewrite Hopen. cbn [lg trace fst snd].
      eexists. split; [reflexivity|]. repeat split.
    - change (db_open (with_serverurl u (with_apikey k (lg w))))
        with (db_open (lg w)).
      rewrite Hopen. cbn [lg trace fst snd].
      eexists. split; [reflexivity|]. repeat split. }
  destruct Hkeyed as (l & Hw & Hcdb & Hk & Hu). rewrite Hw.
  split.
  - intros h Hh. rewrite Hh in Hcdb. cbn [lg].
    split; [exact Hcdb|].
    assert (Hc : connectordb rem (mkWorld l (trace w))
                 = (Returned tt, mkWorld l (trace w))).
    { unfold connectordb. unfold_monad. cbn [lg trace]. rewrite Hcdb.
      reflexivity. }
    split; [exact Hc|]. split.
    + unfold name. unfold bind at 1. rewrite Hc.
      unfold_monad. cbn [lg trace].
      destruct (rem_ping rem); reflexivity.
    + unfold start. unfold bind at 1. rewrite Hc.
      unfold __setsync. unfold_monad. cbn [lg trace].
      destruct (syncthread l); reflexivity.
  - intros Hnone. rewrite Hnone in Hcdb. cbn [lg].
    split; [exact Hk|]. split; [exact Hu|].
    unfold connectordb. unfold_monad. cbn [lg trace].
    rewrite Hcdb. cbn [lg trace]. rewrite Hk, Hu.
    destruct (rem_connect rem k u); reflexivity.
Qed.

End Properties.

(** * The Logger on concrete values *)

(** C5 on the stream [temp] with the schema of numbers: the string is
    rejected with the validation error and nothing is buffered, the number
    is buffered and [len(logger)] goes from 0 to 1, an unknown stream is
    named in the error. *)
Lemma insert_spec_witness :
  insert Example.validate Example.json_dumps "temp" (PyStr "bad") 1
    Example.temp
  = (Raised (Raise "ValidationError" "value is not of the given type"),
     Example.temp) /\
  insert Example.validate Example.json_dumps "nope" (PyInt 5) 1 Example.temp
  = (Raised (Exception "The stream 'nope' was not found"), Example.temp) /\
  exists w',
    insert Example.validate Example.json_dumps "temp" (PyInt 5) 1 Example.temp
    = (Returned tt, w') /\
    cache (database (lg w')) = [mkCacheRow "temp" 1 "5"] /\
    __len__ Example.temp = (Returned 0%nat, Example.temp) /\
    __len__ w' = (Returned 1%nat, w').
Proof.
  split; [|split].
  - apply (proj1 (proj2 (insert_spec Example.validate Example.json_dumps
                           "temp" (PyStr "bad") 1 Example.temp))
             Example.number_schema); reflexivity.
  - apply (proj1 (insert_spec Example.validate Example.json_dumps
                    "nope" (PyInt 5) 1 Example.temp)); reflexivity.
  - exists (buffered "temp" 1 "5" Example.temp).
    assert (Hins : insert Example.validate Example.json_dumps "temp"
                     (PyInt 5) 1 Example.temp
                   = (Returned tt, buffered "temp" 1 "5" Example.temp)).
    { apply (proj1 (proj2 (proj2 (proj2
               (insert_spec Example.validate Example.json_dumps
                  "temp" (PyInt 5) 1 Example.temp))))
               Example.number_schema "5"); reflexivity. }
    split; [exact Hins|].
    destruct (proj1 (proj2 (proj2 (proj2 (proj2
                (insert_spec Example.validate Example.json_dumps
                   "temp" (PyInt 5) 1 Example.temp))))) tt _ Hins)
      as (schema & js & _ & _ & Hjs & Hcache & _ & _ & Hlen & Hlen').
    injection Hjs as <-.
    split; [exact Hcache|]. split; [exact Hlen|exact Hlen'].
Defined.

(** C6 as the spec has it fails: with a validator that reads the keywords
    of the schema, [insert] on a stream registered with the schema [None]
    raises and buffers nothing. *)
Lemma insert_None_schema_rejected :
  ~ (forall (validate : pyvalue -> pyvalue -> option exn)
            (json_dumps : pyvalue -> exn + string)
            (streamname : string) (value : pyvalue) (now : timestamp)
            (w : World) (js : string),
       dict_get streamname (streams (lg w)) = Some PyNone ->
       json_dumps value = inr js ->
       db_open (lg w) = true ->
       insert validate json_dumps streamname value now w =
         (Returned tt, buffered streamname now js w)).
Proof.
  intros H.
  specialize (H Example.validate Example.json_dumps "temp" (PyInt 5) 1
                Example.temp_none "5" eq_refl eq_refl eq_refl).
  vm_compute in H. discriminate H.
Qed.

(** C6 on a new Logger: the stream [temp] is registered without a
    schema, and the insert of a number raises the error of the validator
    and buffers nothing, as does the insert of any other value. *)
Lemma None_schema_rejects_every_value_witness :
  exists w',
    addStream_force Example.json_dumps "temp" PyNone Example.fresh
      = (Returned tt, w') /\
    fst (__contains__ "temp" w') = Returned true /\
    insert Example.validate Example.json_dumps "temp" (PyInt 5) 1 w'
      = (Raised (Raise "AttributeError" "schema has no attribute 'get'"),
         w') /\
    forall value now,
      exists e,
        insert Example.validate Example.json_dumps "temp" value now w'
          = (Raised e, w').
Proof.
  assert (Hfails : forall value, Example.validate value PyNone <> None)
    by (intros value H; vm_compute in H; discriminate H).
  destruct (None_schema_rejects_every_value Example.validate
              Example.json_dumps "temp" (Example.dumps PyNone)
              Example.fresh eq_refl eq_refl)
    as (w' & Hreg & _ & Hin & Hraise & Hall).
  exists w'. split; [exact Hreg|]. split; [exact Hin|]. split.
  - apply Hraise. reflexivity.
  - intros value now. destruct (Hall Hfails value now) as (e & He & _).
    exists e. exact He.
Defined.

(** C1 on two streams, while another thread inserts during the upload of
    [a]: the two uploaded points of [a] and the late point with the same
    timestamp 3 are deleted, the later point of [a] and the points of [b]
    stay. *)
Lemma sync_stream_deletes_witness :
  rem_exists (Example.server [] Example.number_schema) "a" = true /\
  exists w',
    sync_stream Example.json_loads (Example.server [] Example.number_schema)
      Example.late_inserts "a" Example.two_streams = (Returned tt, w') /\
    cache (database (lg w')) =
      [mkCacheRow "b" 1 "7"; mkCacheRow "a" 4 "40";
       mkCacheRow "b" (5 # 2) "8"].
Proof.
  split; [reflexivity|].
  destruct (sync_stream_deletes Example.json_loads
              (Example.server [] Example.number_schema)
              Example.late_inserts "a" Example.two_streams
              (mkDatapoint 2 (PyInt 20)) [mkDatapoint 3 (PyInt 30)]
              eq_refl eq_refl eq_refl)
    as (w' & Hrun & Hcache & _).
  exists w'. split; [exact Hrun|]. rewrite Hcache. reflexivity.
Defined.

(** C3 on a server that cannot be reached. *)
Lemma sync_unreachable_unchanged_witness :
  connect_fails Example.unreachable (lg Example.two_streams)
    (Raise "ConnectionError" "unreachable") /\
  exists w',
    sync Example.json_loads None Example.unreachable quiet 10
      Example.two_streams
    = (Raised (Raise "ConnectionError" "unreachable"), w') /\
    database (lg w') = database (lg Example.two_streams) /\
    fst (__len__ w') = Returned 3%nat /\
    __lastsync (lg w') = 0.
Proof.
  assert (Hfail : connect_fails Example.unreachable (lg Example.two_streams)
                    (Raise "ConnectionError" "unreachable"))
    by (split; reflexivity).
  split; [exact Hfail|].
  destruct (sync_unreachable_unchanged Example.json_loads
              Example.unreachable quiet 10 Example.two_streams
              (Raise "ConnectionError" "unreachable") (or_introl Hfail))
    as (w' & Hrun & Hdb & Hlen & Hlast & _).
  exists w'. split; [exact Hrun|]. split; [exact Hdb|].
  split; [rewrite Hlen; reflexivity|rewrite Hlast; reflexivity].
Defined.

(** C4 on a server that cannot be reached: without a callback [sync]
    raises, with a callback that returns false it returns. *)
Lemma sync_failure_policy_witness :
  exists w1,
    sync_cycle Example.json_loads Example.unreachable quiet 10
      Example.two_streams
    = (Raised (Raise "ConnectionError" "unreachable"), w1) /\
    sync Example.json_loads None Example.unreachable quiet 10
      Example.two_streams
    = (Raised (Raise "ConnectionError" "unreachable"), w1) /\
    sync Example.json_loads (Some (ret true)) Example.unreachable quiet 10
      Example.two_streams
    = (Raised (Raise "ConnectionError" "unreachable"), w1) /\
    sync Example.json_loads (Some (ret false)) Example.unreachable quiet 10
      Example.two_streams
    = (Returned tt, w1) /\
    __lastsync (lg w1) = 0.
Proof.
  eexists.
  assert (Hcycle : sync_cycle Example.json_loads Example.unreachable quiet 10
                     Example.two_streams
                   = (Raised (Raise "ConnectionError" "unreachable"),
                      snd (sync_cycle Example.json_loads Example.unreachable
                             quiet 10 Example.two_streams)))
    by (vm_compute; reflexivity).
  destruct (sync_failure_policy Example.json_loads Example.unreachable quiet
              10 Example.two_streams _ _ Hcycle)
    as (Hnone & Htrue & Hfalse & Hlast & _).
  split; [exact Hcycle|]. split; [exact Hnone|].
  split; [apply Htrue; reflexivity|].
  split; [apply Hfalse; reflexivity|].
  rewrite Hlast. reflexivity.
Defined.

(** C10 with a callback that raises. *)
Lemma sync_handler_raises_witness :
  exists w1,
    sync_cycle Example.json_loads Example.unreachable quiet 10
      Example.two_streams
    = (Raised (Raise "ConnectionError" "unreachable"), w1) /\
    sync Example.json_loads
      (Some (raise (Raise "RuntimeError" "callback failed")))
      Example.unreachable quiet 10 Example.two_streams
    = (Raised (Raise "RuntimeError" "callback failed"), w1) /\
    __lastsync (lg w1) = 0.
Proof.
  eexists.
  assert (Hcycle : sync_cycle Example.json_loads Example.unreachable quiet 10
                     Example.two_streams
                   = (Raised (Raise "ConnectionError" "unreachable"),
                      snd (sync_cycle Example.json_loads Example.unreachable
                             quiet 10 Example.two_streams)))
    by (vm_compute; reflexivity).
  destruct (sync_handler_raises Example.json_loads Example.unreachable quiet
              10 Example.two_streams _ _ _
              (Raise "RuntimeError" "callback failed")
              (raise (Raise "RuntimeError" "callback failed"))
              Hcycle eq_refl)
    as (Hrun & Hlast & _).
  split; [exact Hcycle|]. split; [exact Hrun|].
  rewrite Hlast. reflexivity.
Defined.

(** C7 on two streams with pending points, where [b] is not on the
    server: [a] is uploaded and its rows are deleted, the cycle raises the
    error that names [b], the row of [b] stays and [lastsynctime] is not
    set. *)
Lemma sync_missing_stream_witness :
  rem_exists (Example.server ["b"] Example.number_schema) "b" = false /\
  exists w',
    sync Example.json_loads None (Example.server ["b"] Example.number_schema)
      quiet 10 Example.two_streams
    = (Raised (Exception "Stream b does not exist!"), w') /\
    cache (database (lg w')) = [mkCacheRow "b" 1 "7"] /\
    (forall dps, ~ In (EvInsertArray "b" dps) (trace w')) /\
    __lastsync (lg w') = 0.
Proof.
  split; [reflexivity|].
  assert (Hreach : reachable (Example.server ["b"] Example.number_schema)
                     (lg Example.two_streams))
    by (split; reflexivity).
  assert (Hnodup : NoDup (dict_keys (streams (lg Example.two_streams)))).
  { repeat constructor; simpl; intuition discriminate. }
  assert (Hpre : sync_streams Example.json_loads
                   (Example.server ["b"] Example.number_schema) quiet ["a"]
                   (connected Example.two_streams)
                 = (Returned tt,
                    snd (sync_streams Example.json_loads
                           (Example.server ["b"] Example.number_schema)
                           quiet ["a"] (connected Example.two_streams))))
    by (vm_compute; reflexivity).
  destruct (sync_missing_stream Example.json_loads
              (Example.server ["b"] Example.number_schema) quiet 10
              Example.two_streams _ ["a"] [] "b"
              Hreach eq_refl eq_refl Hnodup Hpre eq_refl)
    as (_ & Hrun & Hlater & Hcache & Hlast & _).
  eexists. split; [exact Hrun|].
  split; [rewrite Hcache; vm_compute; reflexivity|].
  split; [|rewrite Hlast; reflexivity].
  intros dps Hin.
  apply (proj1 (Hlater "b" (or_introl eq_refl))) in Hin. destruct Hin.
Defined.



(** C9 on a new Logger.  [syncperiod = 2**53 + 1] returns: the attribute
    is that int and the file holds [2**53].  [lastsynctime = 2**63]
    raises [OverflowError]: the attribute is that int and the file holds
    0.  After either, the caches and the file do not agree. *)
Lemma setters_break_agreement_witness :
  caches_agree Example.json_loads (lg Example.fresh) /\
  (fst (set_syncperiod (PyInteger (2 ^ 53 + 1)) Example.fresh) = Returned tt /\
   __syncperiod (lg (snd (set_syncperiod (PyInteger (2 ^ 53 + 1))
                            Example.fresh))) = inject_Z (2 ^ 53 + 1) /\
   map m_syncperiod
     (metadata (database (lg (snd (set_syncperiod (PyInteger (2 ^ 53 + 1))
                                     Example.fresh)))))
     = [inject_Z (2 ^ 53)] /\
   ~ caches_agree Example.json_loads
       (lg (snd (set_syncperiod (PyInteger (2 ^ 53 + 1)) Example.fresh)))) /\
  (fst (set_lastsynctime (PyInteger (2 ^ 63)) Example.fresh)
     = Raised (Raise "OverflowError" "long too big to convert") /\
   __lastsync (lg (snd (set_lastsynctime (PyInteger (2 ^ 63))
                          Example.fresh))) = inject_Z (2 ^ 63) /\
   map m_lastsynctime
     (metadata (database (lg (snd (set_lastsynctime (PyInteger (2 ^ 63))
                                     Example.fresh)))))
     = [0] /\
   ~ caches_agree Example.json_loads
       (lg (snd (set_lastsynctime (PyInteger (2 ^ 63)) Example.fresh)))).
Proof.
  assert (Hagree : caches_agree Example.json_loads (lg Example.fresh)).
  { apply (init_agree Example.json_loads new_file None (Some "key")
             Example.fresh).
    - split; [simpl; lia|constructor].
    - intros g w H; discriminate H.
    - vm_compute. reflexivity. }
  assert (Hopen : db_open (lg Example.fresh) = true)
    by (vm_compute; reflexivity).
  split; [exact Hagree|]. split.
  - assert (Hbind : bind_real (PyInteger (2 ^ 53 + 1))
                    = inr (inject_Z (2 ^ 53)))
      by (vm_compute; reflexivity).
    assert (Hne : inject_Z (2 ^ 53) <> number_value (PyInteger (2 ^ 53 + 1)))
      by (vm_compute; intros H; discriminate H).
    destruct (proj1 (proj1 (setters_break_agreement Example.json_loads
                              (PyInteger (2 ^ 53 + 1)) Example.fresh
                              Hagree Hopen) _ Hbind Hne))
      as (Hret & Hattr & _ & Hnot).
    split; [exact Hret|]. split; [exact Hattr|].
    split; [vm_compute; reflexivity|exact Hnot].
  - assert (Hbind : bind_real (PyInteger (2 ^ 63))
                    = inl (Raise "OverflowError" "long too big to convert"))
      by (vm_compute; reflexivity).
    assert (Hne : number_value (PyInteger (2 ^ 63))
                  <> __lastsync (lg Example.fresh))
      by (vm_compute; intros H; discriminate H).
    destruct (proj2 (proj2 (setters_break_agreement Example.json_loads
                              (PyInteger (2 ^ 63)) Example.fresh
                              Hagree Hopen) _ Hbind) Hne)
      as (Hret & Hattr & _ & Hnot).
    split; [exact Hret|]. split; [exact Hattr|].
    split; [vm_compute; reflexivity|exact Hnot].
Defined.

(** X23 on a new file: the constructor, the registration of a stream and
    a period of five seconds leave the caches equal to the file. *)
Lemma caches_agree_always_witness :
  file_ok new_file /\
  caches_agree Example.json_loads (lg Example.fresh) /\
  caches_agree Example.json_loads (lg Example.temp) /\
  caches_agree Example.json_loads
    (lg (snd (set_syncperiod (PyInteger 5) Example.temp))).
Proof.
  assert (Hfile : file_ok new_file) by (split; [simpl; lia|constructor]).
  assert (Hnone : forall A : Type,
            keeps_agreement Example.json_loads (@None (M A)))
    by (intros A g w H; discriminate H).
  destruct (caches_agree_always Example.validate Example.json_dumps
              Example.json_loads Example.check_schema None (Hnone bool))
    as [Hinit Hop].
  assert (Hfresh : caches_agree Example.json_loads (lg Example.fresh)).
  { apply (Hinit new_file None (Some "key") Example.fresh Hfile (Hnone unit)).
    vm_compute. reflexivity. }
  assert (Htemp : caches_agree Example.json_loads (lg Example.temp)).
  { apply (Hop (OpAddStreamForce "temp" Example.number_schema) Example.fresh
             Hfresh).
    - intros js Hjs. injection Hjs as <-. vm_compute. reflexivity.
    - left. reflexivity. }
  split; [exact Hfile|]. split; [exact Hfresh|]. split; [exact Htemp|].
  assert (Hexact : stored_exactly (PyInteger 5))
    by (vm_compute; reflexivity).
  assert (Hopen : db_open (lg Example.temp) = true)
    by (vm_compute; reflexivity).
  pose proof (Hop (OpSetSyncperiod (PyInteger 5)) Example.temp Htemp
                Hexact (or_introl Hopen)) as Hset.
  rewrite run_op_set_syncperiod in Hset. exact Hset.
Defined.

(** C8 fails on the code.  [start]; the timer fires and its thread enters
    [sync]; the application calls [stop], which returns with no timer
    waiting and [syncthread] forgotten; the thread finishes [sync] and
    runs [__setsync], which starts a new timer; that timer fires: a second
    sync cycle has begun although [start] was not called again. *)
Theorem stop_during_sync_rearms :
  exists s3 s6,
    run Example.validate Example.json_dumps Example.json_loads
      Example.check_schema None
      [AStart (Example.server [] PyNone); ATimerFires 0; AStop]
      (mkSystem Example.fresh [] 0) = Some s3 /\
    syncthread (lg (world s3)) = None /\
    none_waiting (timers (lg (world s3))) = true /\
    cycles s3 = 1%nat /\
    forallb (fun a => negb (is_start a))
      [ASyncEnds 0 (Example.server [] PyNone) quiet 5; ASetsync 0;
       ATimerFires 1] = true /\
    run Example.validate Example.json_dumps Example.json_loads
      Example.check_schema None
      [ASyncEnds 0 (Example.server [] PyNone) quiet 5; ASetsync 0;
       ATimerFires 1] s3 = Some s6 /\
    cycles s6 = 2%nat /\
    syncthread (lg (world s6)) = Some 1%nat.
Proof.
  eexists. eexists.
  split; [vm_compute; reflexivity|].
  split; [reflexivity|]. split; [reflexivity|]. split; [reflexivity|].
  split; [reflexivity|].
  split; [vm_compute; reflexivity|].
  split; reflexivity.
Qed.

(** ** More of the Logger on concrete values *)

Lemma fresh_agree : caches_agree Example.json_loads (lg Example.fresh).
Proof.
  apply (init_agree Example.json_loads new_file None (Some "key")
           Example.fresh).
  - split; [simpl; lia|constructor].
  - intros g w H; discriminate H.
  - vm_compute. reflexivity.
Qed.

Lemma temp_agree : caches_agree Example.json_loads (lg Example.temp).
Proof.
  apply (addStream_force_agree Example.json_dumps Example.json_loads
           "temp" Example.number_schema Example.fresh).
  - intros js Hjs. injection Hjs as <-. vm_compute. reflexivity.
  - exact fresh_agree.
Qed.

Lemma started_only_current : only_current_waiting (lg Example.started).
Proof.
  intros i p H. destruct i as [|[|i]]; vm_compute in H;
    [reflexivity|discriminate H|discriminate H].
Qed.

(** X3 on two streams, while another thread inserts during the upload of
    [a]: the point of [a] with the timestamp 3 of the last uploaded point
    arrives after the [SELECT] and is deleted without being uploaded. *)
Lemma sync_stream_drops_late_row_witness :
  In (mkCacheRow "a" 3 "31") (before_delete Example.late_inserts "a") /\
  exists w',
    sync_stream Example.json_loads (Example.server [] Example.number_schema)
      Example.late_inserts "a" Example.two_streams = (Returned tt, w') /\
    ~ In (mkCacheRow "a" 3 "31") (cache (database (lg w'))) /\
    trace w' =
      trace Example.two_streams ++
      [EvExists "a";
       EvInsertArray "a" [mkDatapoint 2 (PyInt 20); mkDatapoint 3 (PyInt 30)]].
Proof.
  assert (Hin : In (mkCacheRow "a" 3 "31")
                  (before_delete Example.late_inserts "a"))
    by (simpl; auto).
  assert (Hle : (c_timestamp (mkCacheRow "a" 3 "31") <=
                 dp_t (last [mkDatapoint 2 (PyInt 20);
                             mkDatapoint 3 (PyInt 30)]
                         (mkDatapoint 2 (PyInt 20))))%Q)
    by (vm_compute; discriminate).
  split; [exact Hin|].
  destruct (sync_stream_drops_late_row Example.json_loads
              (Example.server [] Example.number_schema)
              Example.late_inserts "a" Example.two_streams
              (mkDatapoint 2 (PyInt 20)) [mkDatapoint 3 (PyInt 30)]
              (mkCacheRow "a" 3 "31")
              eq_refl eq_refl eq_refl Hin eq_refl Hle)
    as (w' & Hrun & Hnot & Htrace & _).
  exists w'. split; [exact Hrun|]. split; [exact Hnot|exact Htrace].
Defined.

(** X5 on a new file: the keys are unique after the constructor, after
    the registration of [temp] and after its second registration. *)
Lemma keys_unique_always_witness :
  keys_ok (lg Example.fresh) /\
  keys_ok (lg Example.temp) /\
  keys_ok (lg (snd (addStream_force Example.json_dumps "temp"
                      Example.string_schema Example.temp))).
Proof.
  assert (Hnone : forall A : Type, keeps_keys (@None (M A)))
    by (intros A g w H; discriminate H).
  destruct (keys_unique_always Example.validate Example.json_dumps
              Example.json_loads Example.check_schema None (Hnone bool))
    as [Hinit Hop].
  assert (Hfile : file_ok new_file) by (split; [simpl; lia|constructor]).
  assert (Hfresh : keys_ok (lg Example.fresh))
    by exact (Hinit new_file None (Some "key") Hfile (Hnone unit)).
  assert (Htemp : keys_ok (lg Example.temp))
    by exact (Hop (OpAddStreamForce "temp" Example.number_schema)
                Example.fresh Hfresh).
  split; [exact Hfresh|]. split; [exact Htemp|].
  exact (Hop (OpAddStreamForce "temp" Example.string_schema)
           Example.temp Htemp).
Defined.

(** X6 on the file of the Logger of [temp]: a second Logger on that file
    has the apikey and the schema of [temp]. *)
Lemma reopen_restores_witness :
  exists w',
    __init__ Example.json_loads None None
      (mkWorld (blank (database (lg Example.temp))) []) = (Returned tt, w') /\
    __apikey (lg w') = "key" /\
    dict_get "temp" (streams (lg w')) = Some Example.number_schema.
Proof.
  assert (Hnodup : NoDup (map fst (streams_tbl (database (lg Example.temp)))))
    by (repeat constructor; simpl; intuition discriminate).
  destruct (reopen_restores Example.json_loads (lg Example.temp) None
              temp_agree Hnodup)
    as (w' & Hrun & _ & _ & Hkey & _ & _ & _ & Hstreams & _).
  exists w'. split; [exact Hrun|].
  split; [rewrite Hkey|rewrite Hstreams]; reflexivity.
Defined.

(** X8 on a new file: the dict that is set is the dict that is read. *)
Lemma data_roundtrip_witness :
  exists w',
    set_data Example.json_dumps (PyDict [("hi", PyInt 56)]) Example.fresh
      = (Returned tt, w') /\
    get_data Example.json_loads w'
      = (Returned (PyDict [("hi", PyInt 56)]), w').
Proof.
  assert (Hrow : metadata (database (lg Example.fresh)) <> [])
    by (vm_compute; discriminate).
  destruct (data_roundtrip Example.json_dumps Example.json_loads
              (PyDict [("hi", PyInt 56)])
              (Example.dumps (PyDict [("hi", PyInt 56)]))
              Example.fresh eq_refl Hrow eq_refl)
    as (w' & Hset & _ & _ & Hget).
  exists w'. split; [exact Hset|]. rewrite Hget. reflexivity.
Defined.

(** X9 on the started Logger: the timer is cancelled and a second one
    waits the new period; with an int beyond 64 bits the setter raises
    and the timer is left as it was. *)
Lemma set_syncperiod_rearms_witness :
  fst (set_syncperiod (PyInteger 5) Example.started) = Returned tt /\
  timers (lg (snd (set_syncperiod (PyInteger 5) Example.started)))
    = [Cancelled; Waiting 5] /\
  syncthread (lg (snd (set_syncperiod (PyInteger 5) Example.started)))
    = Some 1%nat /\
  fst (set_syncperiod (PyInteger (2 ^ 63)) Example.started)
    = Raised (Raise "OverflowError" "long too big to convert") /\
  timers (lg (snd (set_syncperiod (PyInteger (2 ^ 63)) Example.started)))
    = timers (lg Example.started).
Proof.
  assert (Hopen : db_open (lg Example.started) = true)
    by (vm_compute; reflexivity).
  assert (Hst : syncthread (lg Example.started) = Some 0%nat)
    by (vm_compute; reflexivity).
  assert (Hbind : bind_real (PyInteger 5) = inr (inject_Z 5))
    by (vm_compute; reflexivity).
  assert (Hover : bind_real (PyInteger (2 ^ 63))
                  = inl (Raise "OverflowError" "long too big to convert"))
    by (vm_compute; reflexivity).
  destruct (set_syncperiod_rearms (PyInteger 5) Example.started Hopen)
    as (_ & _ & _ & Hok & _).
  destruct (Hok _ Hbind) as (Hret & _ & _ & Hsome).
  destruct (Hsome 0%nat Hst) as [Ht Hs].
  destruct (set_syncperiod_rearms (PyInteger (2 ^ 63)) Example.started Hopen)
    as (_ & _ & _ & _ & Hfail).
  destruct (Hfail _ Hover) as (Hraise & _ & Hsame & _).
  split; [exact Hret|].
  split; [rewrite Ht; vm_compute; reflexivity|].
  split; [rewrite Hs; vm_compute; reflexivity|].
  split; [exact Hraise|exact Hsame].
Defined.

(** X11 on a run of the application and of the timer thread: [start], a
    cycle of the timer, a second [start], a change of the period, an
    insert and [stop]. *)
Lemma one_timer_waiting_witness :
  exists s',
    run Example.validate Example.json_dumps Example.json_loads
      Example.check_schema None
      [AStart (Example.server [] Example.number_schema);
       ATimerFires 0;
       ASyncEnds 0 (Example.server [] Example.number_schema) quiet 10;
       ASetsync 0;
       AStart (Example.server [] Example.number_schema);
       ACall (OpSetSyncperiod (PyInteger 5));
       ACall (OpInsert "a" (PyInt 1) 11);
       AStop]
      (mkSystem Example.two_streams [] 0) = Some s' /\
    only_current_waiting (lg (world s')).
Proof.
  assert (Hkeep : keeps_timers (@None (M bool)))
    by (intros g w H; discriminate H).
  assert (Hstart : only_current_waiting
                     (lg (world (mkSystem Example.two_streams [] 0))))
    by (intros i p H; destruct i; vm_compute in H; discriminate H).
  destruct (run Example.validate Example.json_dumps Example.json_loads
              Example.check_schema None
              [AStart (Example.server [] Example.number_schema);
               ATimerFires 0;
               ASyncEnds 0 (Example.server [] Example.number_schema) quiet 10;
               ASetsync 0;
               AStart (Example.server [] Example.number_schema);
               ACall (OpSetSyncperiod (PyInteger 5));
               ACall (OpInsert "a" (PyInt 1) 11);
               AStop]
              (mkSystem Example.two_streams [] 0)) as [s'|] eqn:Hrun.
  - exists s'. split; [reflexivity|].
    exact (proj1 (one_timer_waiting Example.validate Example.json_dumps
                    Example.json_loads Example.check_schema None _ Hkeep
                    (mkSystem Example.two_streams [] 0) s' Hstart Hrun)).
  - vm_compute in Hrun. discriminate Hrun.
Defined.

(** X12 on a timer thread whose [sync] finds the server unreachable: the
    thread ends with the [NameError]; a later [start] and an insert begin
    no cycle; the setter of [syncperiod] starts a timer again. *)
Lemma failed_sync_ends_schedule_witness :
  __runsyncer Example.json_loads None Example.unreachable quiet 10
    (world Example.in_sync)
  = (Raised (Raise "NameError" "name 'e' is not defined"),
     snd (sync Example.json_loads None Example.unreachable quiet 10
            (world Example.in_sync))) /\
  exists s1,
    step Example.validate Example.json_dumps Example.json_loads
      Example.check_schema None
      (ASyncEnds 0 Example.unreachable quiet 10) Example.in_sync = Some s1 /\
    (forall s',
       run Example.validate Example.json_dumps Example.json_loads
         Example.check_schema None
         [AStart (Example.server [] Example.number_schema);
          ACall (OpInsert "a" (PyInt 1) 11)] s1 = Some s' ->
       cycles s' = 1%nat /\
       none_waiting (timers (lg (world s'))) = true) /\
    timers (lg (snd (set_syncperiod (PyInteger 5) (world s1))))
      = [Fired; Waiting 5] /\
    syncthread (lg (snd (set_syncperiod (PyInteger 5) (world s1))))
      = Some 1%nat.
Proof.
  assert (Hsync : sync Example.json_loads None Example.unreachable quiet 10
                    (world Example.in_sync)
                  = (Raised (Raise "ConnectionError" "unreachable"),
                     snd (sync Example.json_loads None Example.unreachable
                            quiet 10 (world Example.in_sync))))
    by (vm_compute; reflexivity).
  assert (Hnone : none_waiting (timers (lg (world Example.in_sync))) = true)
    by (vm_compute; reflexivity).
  assert (Hst : syncthread (lg (world Example.in_sync)) = Some 0%nat)
    by (vm_compute; reflexivity).
  assert (Hbind : bind_real (PyInteger 5) = inr (inject_Z 5))
    by (vm_compute; reflexivity).
  destruct (failed_sync_ends_schedule Example.validate Example.json_dumps
              Example.json_loads Example.check_schema
              Example.unreachable quiet 10 Example.in_sync 0%nat 0%nat
              (Raise "ConnectionError" "unreachable")
              (snd (sync Example.json_loads None Example.unreachable quiet 10
                      (world Example.in_sync)))
              Hsync eq_refl Hnone Hst)
    as (Hrun & _ & s1 & Hstep & _ & Hworld & Hdead & Hrevive).
  assert (Hopen : db_open
                    (lg (snd (sync Example.json_loads None
                                Example.unreachable quiet 10
                                (world Example.in_sync)))) = true)
    by (vm_compute; reflexivity).
  destruct (Hrevive (PyInteger 5) _ Hopen Hbind) as [Ht Hs].
  split; [exact Hrun|].
  exists s1. split; [exact Hstep|]. split; [|rewrite Hworld; split].
  - intros s' Hs'.
    exact (Hdead [AStart (Example.server [] Example.number_schema);
                  ACall (OpInsert "a" (PyInt 1) 11)] s' eq_refl Hs').
  - rewrite Ht. vm_compute. reflexivity.
  - rewrite Hs. vm_compute. reflexivity.
Defined.

(** X14 on a server without the stream [c]: with a schema the stream is
    created and registered; with a schema that is not an object the check
    fails and no creation is requested. *)
Lemma addStream_cases_witness :
  fst (addStream Example.json_dumps Example.check_schema
         (Example.server ["c"] Example.number_schema)
         "c" Example.number_schema Example.fresh) = Returned tt /\
  In (EvCreate "c" Example.number_schema)
     (trace (snd (addStream Example.json_dumps Example.check_schema
                    (Example.server ["c"] Example.number_schema)
                    "c" Example.number_schema Example.fresh))) /\
  fst (addStream Example.json_dumps Example.check_schema
         (Example.server ["c"] Example.number_schema)
         "c" (PyInt 3) Example.fresh)
    = Raised (Raise "SchemaError" "schema is not of type 'object'") /\
  forall s sc,
    ~ In (EvCreate s sc)
        (trace (snd (addStream Example.json_dumps Example.check_schema
                       (Example.server ["c"] Example.number_schema)
                       "c" (PyInt 3) Example.fresh))).
Proof.
  assert (Hschema : Example.number_schema <> PyNone)
    by (intros H; discriminate H).
  assert (Hbad : PyInt 3 <> PyNone) by (intros H; discriminate H).
  assert (Hopen : db_open (lg Example.fresh) = true)
    by (vm_compute; reflexivity).
  assert (Hh : handle_ok (Example.server ["c"] Example.number_schema)
                 (lg Example.fresh))
    by (intros _; reflexivity).
  assert (Hmissing : rem_exists (Example.server ["c"] Example.number_schema)
                       "c" = false)
    by (vm_compute; reflexivity).
  destruct (addStream_cases Example.json_dumps Example.check_schema
              (Example.server ["c"] Example.number_schema)
              "c" Example.number_schema Example.fresh Hh Hopen)
    as (_ & _ & _ & _ & Hcreated).
  destruct (Hcreated Hmissing Hschema eq_refl eq_refl) as (Hev & Hok & _).
  destruct (Hok Example.number_schema
              (Example.dumps Example.number_schema) eq_refl eq_refl)
    as (Hret & _).
  destruct (addStream_cases Example.json_dumps Example.check_schema
              (Example.server ["c"] Example.number_schema)
              "c" (PyInt 3) Example.fresh Hh Hopen)
    as (_ & _ & Hcheck & _).
  destruct (Hcheck Hmissing Hbad _ eq_refl) as (Hraise & _ & _ & Hnone).
  split; [exact Hret|]. split; [exact Hev|]. split; [exact Hraise|].
  intros s sc Hin. apply Hnone in Hin. vm_compute in Hin. exact Hin.
Defined.

(** X16 on the stream [temp], registered once more with another
    schema. *)
Lemma addStream_force_registers_witness :
  exists w',
    addStream_force Example.json_dumps "temp" Example.string_schema
      Example.temp = (Returned tt, w') /\
    dict_get "temp" (streams (lg w')) = Some Example.string_schema /\
    dict_keys (streams (lg w')) = ["temp"].
Proof.
  destruct (addStream_force_registers Example.json_dumps "temp"
              (Example.dumps Example.string_schema) Example.string_schema
              Example.temp eq_refl eq_refl)
    as (w' & Hrun & Hget & _).
  exists w'. split; [exact Hrun|]. split; [exact Hget|].
  assert (Hw : w' = snd (addStream_force Example.json_dumps "temp"
                           Example.string_schema Example.temp))
    by (rewrite Hrun; reflexivity).
  rewrite Hw. vm_compute. reflexivity.
Defined.

(** X4 on the started Logger: after [stop], a second [stop], a change of
    the period and an insert begin no cycle and leave no timer waiting. *)
Lemma stop_ends_schedule_witness :
  exists s1,
    step Example.validate Example.json_dumps Example.json_loads
      Example.check_schema None AStop Example.ticking = Some s1 /\
    syncthread (lg (world s1)) = None /\
    forall s',
      run Example.validate Example.json_dumps Example.json_loads
        Example.check_schema None
        [AStop; ACall (OpSetSyncperiod (PyInteger 5));
         ACall (OpInsert "a" (PyInt 1) 11)] s1 = Some s' ->
      cycles s' = 0%nat /\
      none_waiting (timers (lg (world s'))) = true.
Proof.
  assert (Hkeep : keeps_timers (@None (M bool)))
    by (intros g w H; discriminate H).
  destruct (stop_ends_schedule Example.validate Example.json_dumps
              Example.json_loads Example.check_schema None Example.ticking
              [AStop; ACall (OpSetSyncperiod (PyInteger 5));
               ACall (OpInsert "a" (PyInt 1) 11)]
              Hkeep eq_refl started_only_current eq_refl)
    as (s1 & Hstep & Hst & Hrest).
  exists s1. split; [exact Hstep|]. split; [exact Hst|].
  intros s' Hs'. exact (Hrest s' Hs').
Defined.

(** X7 on the closed Logger of [temp]: the setter of [apikey] raises,
    and the attribute is no longer the apikey of the file. *)
Lemma closed_setters_diverge_witness :
  fst (set_apikey "other" Example.closed) =
    Raised (Raise "ConnectionClosedError" "The connection has been closed") /\
  __apikey (lg (snd (set_apikey "other" Example.closed))) = "other" /\
  ~ caches_agree Example.json_loads
      (lg (snd (set_apikey "other" Example.closed))).
Proof.
  assert (Hagree : caches_agree Example.json_loads (lg Example.closed))
    by exact (close_agree Example.json_loads Example.temp temp_agree).
  assert (Hother : "other" <> __apikey (lg Example.closed))
    by (vm_compute; intros H; discriminate H).
  destruct (closed_setters_diverge Example.json_loads Example.closed
              eq_refl Hagree) as (Hkey & _).
  destruct (Hkey "other" Hother) as (Hret & Hattr & _ & Hnot).
  split; [exact Hret|]. split; [exact Hattr|exact Hnot].
Defined.

(** * Properties of the objects of the REST API *)

Module ObjectsProperties.
Import Objects.

(** X17. [query_maker] raises its [AssertionError] exactly when an index
    ([i1] or [i2]) is given together with [t1], [t2] or [limit], whatever
    [transform] is.  Otherwise it returns a dict that maps each of the six
    names to its argument when the argument is given and holds nothing
    else. *)
Theorem query_maker_spec (t1 t2 limit i1 i2 transform : option pyvalue) :
  ((given i1 || given i2) && (given t1 || given t2 || given limit) = true ->
   query_maker t1 t2 limit i1 i2 transform =
     inl (Raise "AssertionError"
            "Stream cannot be accessed both by index and by timestamp at the same time.")) /\
  ((given i1 || given i2) && (given t1 || given t2 || given limit) = false ->
   exists params,
     query_maker t1 t2 limit i1 i2 transform = inr params /\
     dict_get "t1" params = t1 /\
     dict_get "t2" params = t2 /\
     dict_get "limit" params = limit /\
     dict_get "i1" params = i1 /\
     dict_get "i2" params = i2 /\
     dict_get "transform" params = transform /\
     NoDup (dict_keys params) /\
     forall k, In k (dict_keys params) ->
               In k ["t1"; "t2"; "limit"; "i1"; "i2"; "transform"]).
Proof.
  destruct t1, t2, limit, i1, i2, transform; cbn [given orb andb];
    (split; [intros H; first [discriminate H | reflexivity]|]);
    intros H; try discriminate H;
    (eexists; split; [reflexivity|]);
    repeat (split; [reflexivity|]);
    (split; [repeat constructor; simpl; intuition discriminate
            |simpl; intuition]).
Qed.

(** X18. The request of [Stream.__call__] is a read of [path + "/data"]
    whose parameters are never empty.  [Stream.__getitem__] never raises
    the [AssertionError] of [query_maker]: it reads with index parameters
    only, and the slice without bounds reads from index 0. *)
Theorem stream_requests (stream_path : string) :
  (forall t1 t2 limit i1 i2 transform req,
     call_request stream_path t1 t2 limit i1 i2 transform = inr req ->
     exists params,
       req = Read (stream_path ++ "/data")%string params /\ params <> []) /\
  (forall g,
     exists params,
       getitem_request stream_path g
         = inr (Read (stream_path ++ "/data")%string params) /\
       params <> [] /\
       forall k, In k (dict_keys params) -> k = "i1" \/ k = "i2") /\
  getitem_request stream_path (Slice None None)
    = inr (Read (stream_path ++ "/data")%string [("i1", PyInt 0)]).
Proof.
  split; [|split].
  - intros t1 t2 limit i1 i2 transform req H. unfold call_request in H.
    destruct (query_maker t1 t2 limit i1 i2 transform) as [e|params];
      [discriminate|].
    inversion H; subst. eexists. split; [reflexivity|].
    destruct params as [|kv params]; simpl; discriminate.
  - intros [i|[start|] [stop|]]; (eexists; split; [reflexivity|]);
      (split; [discriminate|]); simpl; intuition.
  - reflexivity.
Qed.

(** X19. [exists] never raises and sends one read of the object.  When
    the read is answered it returns true and caches the answer.  When the
    read fails it returns false and keeps the metadata it had: an object
    that was loaded before still serves that metadata, without a request,
    although [exists] has just answered false. *)
Theorem exists_spec (db : Connection) (w : ObjWorld) :
  (exists b, fst (exists_ db w) = Returned b) /\
  sent (snd (exists_ db w)) = sent w ++ [Read (path (self w)) []] /\
  path (self (snd (exists_ db w))) = path (self w) /\
  (forall m,
     db (sent w) (Read (path (self w)) []) = inr m ->
     fst (exists_ db w) = Returned true /\
     metadata (self (snd (exists_ db w))) = Some m) /\
  (forall e,
     db (sent w) (Read (path (self w)) []) = inl e ->
     fst (exists_ db w) = Returned false /\
     metadata (self (snd (exists_ db w))) = metadata (self w) /\
     forall m0, metadata (self w) = Some m0 ->
       data db (snd (exists_ db w)) = (Returned m0, snd (exists_ db w))).
Proof.
  unfold exists_, refresh, obind, send, set_metadata.
  destruct (db (sent w) (Read (path (self w)) [])) as [e|m];
    cbn [fst snd self sent path metadata].
  - split; [eexists; reflexivity|]. split; [reflexivity|].
    split; [reflexivity|]. split; [intros m H; discriminate H|].
    intros e' _. split; [reflexivity|]. split; [reflexivity|].
    intros m0 Hm. unfold data. cbn [self metadata]. rewrite Hm. reflexivity.
  - split; [eexists; reflexivity|]. split; [reflexivity|].
    split; [reflexivity|]. split; [|intros e H; discriminate H].
    intros m' H. inversion H; subst. split; reflexivity.
Qed.

(** X20. Once the metadata is cached, as after an [exists] that answered
    true, [data], [name], [nickname] and [schema] send no request:
    [schema] is the decoded [type] of the cached metadata, with the error
    of [json.loads] when the text does not decode, or [None] when the
    metadata has no [type]; [nickname] is [None] when there is none;
    [name] raises a [KeyError] when there is none. *)
Theorem cached_metadata (json_loads : string -> exn + pyvalue)
    (db : Connection) (w : ObjWorld) (m : list (string * pyvalue)) :
  metadata (self w) = Some m ->
  data db w = (Returned m, w) /\
  name db w =
    (match dict_get "name" m with
     | Some v => Returned v
     | None => Raised (Raise "KeyError" "name")
     end, w) /\
  nickname db w =
    (match dict_get "nickname" m with
     | Some v => Returned v
     | None => Returned PyNone
     end, w) /\
  (dict_get "type" m = None ->
   schema json_loads db w = (Returned PyNone, w)) /\
  (forall s, dict_get "type" m = Some (PyStr s) ->
   schema json_loads db w =
     (match json_loads s with
      | inr v => Returned v
      | inl e => Raised e
      end, w)).
Proof.
  intros Hm.
  assert (Hdata : data db w = (Returned m, w))
    by (unfold data; rewrite Hm; reflexivity).
  split; [exact Hdata|]. split; [|split; [|split]].
  - unfold name, obind, getitem. rewrite Hdata.
    destruct (dict_get "name" m); reflexivity.
  - unfold nickname, obind, getitem, contains. rewrite Hdata.
    destruct (dict_get "nickname" m) eqn:E; [|reflexivity].
    rewrite Hdata, E. reflexivity.
  - intros E. unfold schema, obind, getitem, contains. rewrite Hdata, E.
    reflexivity.
  - intros s E. unfold schema, obind, getitem, contains.
    rewrite Hdata, E, Hdata, E. unfold oret, oraise.
    destruct (json_loads s); reflexivity.
Qed.

(** X22. [set], [create] and [delete].  [set] sends one update and
    [create], when the schema passes the check, one creation; the answer
    becomes the metadata, which [data] then gives without a request, and
    after the setter of [nickname] the property [nickname] is the one of
    the answer of the server.  When the request fails the error is raised
    and the metadata is as before.  A schema that fails the check is
    raised before anything is sent.  [delete] sends one deletion and
    keeps the metadata: [data] still gives it without a request. *)
Theorem writes_cache_answer (check_schema : pyvalue -> option exn)
    (db : Connection) (w : ObjWorld) :
  (forall body m,
     db (sent w) (Update (path (self w)) body) = inr m ->
     exists w',
       set db body w = (Returned tt, w') /\
       sent w' = sent w ++ [Update (path (self w)) body] /\
       data db w' = (Returned m, w')) /\
  (forall body e,
     db (sent w) (Update (path (self w)) body) = inl e ->
     set db body w =
       (Raised e,
        mkObjWorld (self w) (sent w ++ [Update (path (self w)) body]))) /\
  (forall v m,
     db (sent w) (Update (path (self w)) (PyDict [("nickname", v)])) = inr m ->
     exists w',
       set_nickname db v w = (Returned tt, w') /\
       nickname db w' =
         (match dict_get "nickname" m with
          | Some x => Returned x
          | None => Returned PyNone
          end, w')) /\
  (forall sch e,
     check_schema sch = Some e ->
     create check_schema db sch w = (Raised e, w)) /\
  (forall sch m,
     check_schema sch = None ->
     db (sent w) (Create (path (self w)) sch) = inr m ->
     exists w',
       create check_schema db sch w = (Returned tt, w') /\
       sent w' = sent w ++ [Create (path (self w)) sch] /\
       data db w' = (Returned m, w')) /\
  (forall sch e,
     check_schema sch = None ->
     db (sent w) (Create (path (self w)) sch) = inl e ->
     create check_schema db sch w =
       (Raised e,
        mkObjWorld (self w) (sent w ++ [Create (path (self w)) sch]))) /\
  sent (snd (delete db w)) = sent w ++ [Delete (path (self w))] /\
  self (snd (delete db w)) = self w /\
  (forall m0,
     metadata (self w) = Some m0 ->
     data db (snd (delete db w)) = (Returned m0, snd (delete db w))).
Proof.
  split; [|split; [|split; [|split; [|split; [|split; [|split; [|split]]]]]]].
  - intros body m H. unfold set, obind, send, set_metadata. rewrite H.
    cbn [self sent path]. eexists. split; [reflexivity|].
    split; reflexivity.
  - intros body e H. unfold set, obind, send. rewrite H. reflexivity.
  - intros v m H. unfold set_nickname, set, obind, send, set_metadata.
    rewrite H. cbn [self sent path]. eexists. split; [reflexivity|].
    unfold nickname, obind, contains, getitem, data. cbn [self metadata].
    destruct (dict_get "nickname" m) eqn:E; [|reflexivity].
    cbn [self metadata]. rewrite E. reflexivity.
  - intros sch e H. unfold create. rewrite H. reflexivity.
  - intros sch m Hc H. unfold create, obind, send, set_metadata.
    rewrite Hc, H. cbn [self sent path]. eexists. split; [reflexivity|].
    split; reflexivity.
  - intros sch e Hc H. unfold create, obind, send. rewrite Hc, H.
    reflexivity.
  - unfold delete, obind, send.
    destruct (db (sent w) (Delete (path (self w)))); reflexivity.
  - unfold delete, obind, send.
    destruct (db (sent w) (Delete (path (self w)))); reflexivity.
  - intros m0 Hm. unfold delete, obind, send, data.
    destruct (db (sent w) (Delete (path (self w))));
      cbn [snd self oret]; rewrite Hm; reflexivity.
Qed.

(** ** Paths *)

Lemma count_slash_app (u s : string) :
  count_slash (u ++ s) = (count_slash u + count_slash s)%nat.
Proof.
  induction u as [|c u IH]; simpl; [reflexivity|].
  rewrite IH. destruct (Ascii.eqb c "/"); reflexivity.
Qed.

Lemma split_slash_length (p : string) :
  List.length (split_slash p) = S (count_slash p).
Proof.
  induction p as [|c p IH]; simpl; [reflexivity|].
  destruct (Ascii.eqb c "/"); simpl; [rewrite IH; reflexivity|].
  destruct (split_slash p) as [|part parts]; simpl in *; [discriminate|].
  exact IH.
Qed.

Lemma split_slash_head (u rest : string) :
  count_slash u = 0%nat ->
  split_slash (u ++ "/" ++ rest) = u :: split_slash rest.
Proof.
  induction u as [|c u IH]; simpl; intros H; [reflexivity|].
  destruct (Ascii.eqb c "/"); [discriminate|].
  pose proof (IH H) as IH'. simpl in IH'. rewrite IH'. reflexivity.
Qed.

(** X21. For names without a slash, [ConnectorDB.__call__] builds a User
    for [u], a Device for [u/d] and a Stream for [u/d/s]; the [user] of
    that Stream is the User [u] and its [device] is the Device [u/d], the
    objects that [__call__] builds for these paths.  In general a path is
    a Stream exactly when it has two slashes or more, [Stream.user] never
    raises, and [Stream.device] raises an [IndexError] exactly on a path
    without a slash. *)
Theorem path_dispatch (u d s : string) :
  count_slash u = 0%nat ->
  count_slash d = 0%nat ->
  count_slash s = 0%nat ->
  cdb_call u = (User, new_object u) /\
  cdb_call (u ++ "/" ++ d) = (Device, new_object (u ++ "/" ++ d)) /\
  cdb_call (u ++ "/" ++ d ++ "/" ++ s)
    = (Stream, new_object (u ++ "/" ++ d ++ "/" ++ s)) /\
  stream_user (snd (cdb_call (u ++ "/" ++ d ++ "/" ++ s)))
    = inr (cdb_call u) /\
  stream_device (snd (cdb_call (u ++ "/" ++ d ++ "/" ++ s)))
    = inr (cdb_call (u ++ "/" ++ d)) /\
  (forall p, fst (cdb_call p) = Stream <-> (2 <= count_slash p)%nat) /\
  (forall o, exists x, stream_user o = inr x) /\
  (forall o,
     stream_device o = inl (Raise "IndexError" "list index out of range")
     <-> count_slash (path o) = 0%nat).
Proof.
  intros Hu Hd Hs.
  assert (H1 : count_slash (u ++ "/" ++ d) = 1%nat).
  { rewrite count_slash_app. simpl. rewrite Hu, Hd. reflexivity. }
  assert (H2 : count_slash (u ++ "/" ++ d ++ "/" ++ s) = 2%nat).
  { rewrite count_slash_app. simpl. rewrite count_slash_app. simpl.
    rewrite Hu, Hd, Hs. reflexivity. }
  assert (Hcu : cdb_call u = (User, new_object u))
    by (unfold cdb_call; rewrite Hu; reflexivity).
  assert (Hcd : cdb_call (u ++ "/" ++ d) = (Device, new_object (u ++ "/" ++ d)))
    by (unfold cdb_call; rewrite H1; reflexivity).
  assert (Hcs : cdb_call (u ++ "/" ++ d ++ "/" ++ s)
                = (Stream, new_object (u ++ "/" ++ d ++ "/" ++ s)))
    by (unfold cdb_call; rewrite H2; reflexivity).
  split; [exact Hcu|]. split; [exact Hcd|]. split; [exact Hcs|].
  rewrite Hcs, Hcu, Hcd. cbn [snd].
  split; [|split; [|split; [|split]]].
  - unfold stream_user. cbn [path new_object].
    rewrite (split_slash_head u _ Hu). reflexivity.
  - unfold stream_device. cbn [path new_object].
    rewrite (split_slash_head u _ Hu), (split_slash_head d _ Hd).
    reflexivity.
  - intros p. unfold cdb_call.
    destruct (count_slash p) as [|[|n]]; cbn [fst]; split; intros H;
      try discriminate H; try lia; reflexivity.
  - intros o. unfold stream_user.
    pose proof (split_slash_length (path o)) as Hl.
    destruct (split_slash (path o)); [discriminate Hl|].
    eexists. reflexivity.
  - intros o. unfold stream_device.
    pose proof (split_slash_length (path o)) as Hl.
    destruct (split_slash (path o)) as [|a [|b l]]; simpl in Hl.
    + discriminate Hl.
    + split; [intros _; lia|reflexivity].
    + split; [intros H; discriminate H|intros H; lia].
Qed.

(** ** The objects on concrete values *)

(** X20 on a stream whose metadata is loaded, with a connection that
    refuses every request: the properties are answered from the cache. *)
Lemma cached_metadata_witness :
  name (fun _ _ => inl (Raise "ConnectionError" "unreachable"))
    (mkObjWorld
       (mkObject "u/d/s"
          (Some [("name", PyStr "s");
                 ("type", PyStr (Example.dumps Example.number_schema))]))
       [])
  = (Returned (PyStr "s"),
     mkObjWorld
       (mkObject "u/d/s"
          (Some [("name", PyStr "s");
                 ("type", PyStr (Example.dumps Example.number_schema))]))
       []) /\
  schema Example.json_loads
    (fun _ _ => inl (Raise "ConnectionError" "unreachable"))
    (mkObjWorld
       (mkObject "u/d/s"
          (Some [("name", PyStr "s");
                 ("type", PyStr (Example.dumps Example.number_schema))]))
       [])
  = (Returned Example.number_schema,
     mkObjWorld
       (mkObject "u/d/s"
          (Some [("name", PyStr "s");
                 ("type", PyStr (Example.dumps Example.number_schema))]))
       []).
Proof.
  destruct (cached_metadata Example.json_loads
              (fun _ _ => inl (Raise "ConnectionError" "unreachable"))
              (mkObjWorld
                 (mkObject "u/d/s"
                    (Some [("name", PyStr "s");
                           ("type",
                            PyStr (Example.dumps Example.number_schema))]))
                 [])
              [("name", PyStr "s");
               ("type", PyStr (Example.dumps Example.number_schema))]
              eq_refl)
    as (_ & Hname & _ & _ & Hschema).
  split; [exact Hname|].
  rewrite (Hschema (Example.dumps Example.number_schema) eq_refl).
  vm_compute. reflexivity.
Defined.

(** X21 on the path [user1/device1/stream1]. *)
Lemma path_dispatch_witness :
  cdb_call "user1/device1/stream1"
    = (Stream, new_object "user1/device1/stream1") /\
  stream_user (new_object "user1/device1/stream1")
    = inr (User, new_object "user1") /\
  stream_device (new_object "user1/device1/stream1")
    = inr (Device, new_object "user1/device1").
Proof.
  destruct (path_dispatch "user1" "device1" "stream1"
              eq_refl eq_refl eq_refl)
    as (_ & _ & Hstream & Huser & Hdevice & _).
  split; [exact Hstream|]. split; [exact Huser|exact Hdevice].
Defined.

End ObjectsProperties.
